(** * User authentication service: store and auth engine

    A shallow embedding of [0x03-user_authentication_service]
    ([db.py], [auth.py], the routes of [app.py]) and of the hasher and
    the log filter of [0x00-personal_data], with the properties of
    their specification and further properties read off the code.

    Python values are kept dynamically typed, as the ORM sees them.
    Calls that read or write the users table run in a small monad that
    threads the table and keeps it when an exception is raised, as a
    Python [raise] does.  Random draws ([uuid4()], [bcrypt.gensalt()])
    are extra arguments of the functions that make them.  What lives in
    third-party packages (bcrypt, the storage engine's comparison of
    values of different storage classes) is an interface.

    The table is the list of its rows in the order of their keys, which
    is the order the engine scans them in.  A call ends in one of three
    ways: it returns, it raises, or it leaves the part of the storage
    engine that is followed here ([Unmodelled]).  The part that is
    followed: writes of text, bytes and [None] to the password and
    token columns, which stay where they are and which the table
    accepts; insertions while the keys have room to grow.  What the
    engine refuses or converts at commit (a key that is rewritten, a
    null in a non-nullable column, a value of another type than the
    column's, an email some row already has) is left open.  The auth
    engine only ever writes text, bytes and [None] where the columns
    expect them. *)

From Stdlib Require Import ZArith List Ascii String Bool Lia Permutation.
From Stdlib Require Import Strings.Byte.
Import ListNotations.
Local Open Scope Z_scope.
Local Open Scope string_scope.

(** ** Python values and exceptions *)

Definition bytes := list byte.

Inductive pyval : Type :=
| PNone
| PInt (n : Z)
| PStr (s : string)
| PBytes (b : bytes).

(** [str.encode()]: a [str] is held as its UTF-8 text. *)
Definition encode (s : string) : bytes := list_byte_of_string s.

(** [not s] for a [str]. *)
Definition str_not (s : string) : bool :=
  match s with EmptyString => true | String _ _ => false end.

Definition bytes_eqb (a b : bytes) : bool :=
  if list_eq_dec Byte.byte_eq_dec a b then true else false.

(** A 64-bit signed integer, the only integers the engine stores and
    binds. *)
Definition int64 (n : Z) : bool :=
  ((- 2 ^ 63 <=? n) && (n <=? 2 ^ 63 - 1))%Z.

(** A value the driver can bind to a query parameter. *)
Definition bindable (v : pyval) : bool :=
  match v with PInt n => int64 n | _ => true end.

Definition text_or_bytes (v : pyval) : bool :=
  match v with PStr _ | PBytes _ => true | _ => false end.

(** The exception classes the service raises or handles, and those
    that reach it from bcrypt ([ValueError], [TypeError]) and from the
    database driver ([OverflowError]). *)
Inductive exn : Type :=
| InvalidRequestError
| NoResultFound
| ValueError (msg : string)
| TypeError
| OverflowError.

(** How a call ends.  [Unmodelled]: the call left the part of the
    storage engine that is followed here; nothing is said about what
    it does, and the table that comes with it is the table before the
    call. *)
Inductive result (A : Type) : Type :=
| Ok (a : A)
| Raise (e : exn)
| Unmodelled.

Arguments Ok {A} a.
Arguments Raise {A} e.
Arguments Unmodelled {A}.

(** ** The users table *)

(** Modelled from the spec: [user.py] (the declarative [User] class)
    is not among the sources; the columns are those of the persisted
    state layout, [id, email, hashed_password,
    session_id (nullable), reset_token (nullable)]. An attribute holds
    whatever Python value was assigned to it. *)
Record User : Type := mkUser {
  id : pyval;
  email : pyval;
  hashed_password : pyval;
  session_id : pyval;
  reset_token : pyval
}.

(** [User.__table__.columns.keys()] *)
Definition column_names : list string :=
  ["id"; "email"; "hashed_password"; "session_id"; "reset_token"].

(** [key in column_names] *)
Definition is_column (key : string) : bool :=
  existsb (String.eqb key) column_names.

Definition getattr (u : User) (key : string) : option pyval :=
  if key =? "id" then Some (id u)
  else if key =? "email" then Some (email u)
  else if key =? "hashed_password" then Some (hashed_password u)
  else if key =? "session_id" then Some (session_id u)
  else if key =? "reset_token" then Some (reset_token u)
  else None.

(** [setattr(user, key, value)] on a column attribute. *)
Definition setattr (u : User) (key : string) (value : pyval) : User :=
  if key =? "id" then
    mkUser value (email u) (hashed_password u) (session_id u) (reset_token u)
  else if key =? "email" then
    mkUser (id u) value (hashed_password u) (session_id u) (reset_token u)
  else if key =? "hashed_password" then
    mkUser (id u) (email u) value (session_id u) (reset_token u)
  else if key =? "session_id" then
    mkUser (id u) (email u) (hashed_password u) value (reset_token u)
  else if key =? "reset_token" then
    mkUser (id u) (email u) (hashed_password u) (session_id u) value
  else u.

(** The rows of [users], in the order the engine scans them. *)
Definition table := list User.

(** [**kwargs]: keyword arguments in the order they were written. *)
Definition kwargs := list (string * pyval).

(** ** Calls on the table: state that survives a raise *)

Definition M (A : Type) : Type := table -> result A * table.

Definition ret {A} (a : A) : M A := fun t => (Ok a, t).

Definition raise {A} (e : exn) : M A := fun t => (Raise e, t).

(** A call that does not touch the table. *)
Definition lift {A} (r : result A) : M A := fun t => (r, t).

Definition bind {A B} (m : M A) (k : A -> M B) : M B :=
  fun t =>
    match m t with
    | (Ok a, t') => k a t'
    | (Raise e, t') => (Raise e, t')
    | (Unmodelled, t') => (Unmodelled, t')
    end.

(** [try: x = body  except NoResultFound: handler] followed by the
    statements [rest] that use [x]; the handler leaves the function (it
    returns or raises), and any other exception passes through. *)
Definition try_except {A B} (body : M A) (handler : M B) (rest : A -> M B)
  : M B :=
  fun t =>
    match body t with
    | (Ok a, t') => rest a t'
    | (Raise NoResultFound, t') => handler t'
    | (Raise e, t') => (Raise e, t')
    | (Unmodelled, t') => (Unmodelled, t')
    end.

Declare Scope py_scope.
Delimit Scope py_scope with py.
Notation "x <- m ;; k" := (bind m (fun x => k))
  (at level 61, m at next level, right associativity) : py_scope.
Notation "m ;; k" := (bind m (fun _ => k))
  (at level 61, right associativity) : py_scope.
Notation "'try' x <- body 'except' 'NoResultFound' handler ;; rest" :=
  (try_except body handler (fun x => rest))
  (at level 61, x name, body at next level, handler at next level,
   right associativity) : py_scope.
Local Open Scope py_scope.

(** ** Third-party interfaces *)

(** How the storage engine compares a stored value with a bound
    parameter of another storage class (an integer column against a
    text parameter, a text column against an integer), after applying
    the column's type affinity. *)
Class StorageEngine : Type := {
  affinity_eq : pyval -> pyval -> bool
}.

(** The [bcrypt] package: [hashpw(password, salt)] and
    [checkpw(password, hashed_password)].  Either may raise instead of
    answering: [ValueError] for a password or a stored hash it does
    not take (bcrypt 5 refuses a password of more than 72 bytes, and
    every version a hash it cannot parse), [TypeError] for a hash that
    is not [bytes]. *)
Class Bcrypt : Type := {
  hashpw : bytes -> bytes -> result bytes;
  checkpw : bytes -> pyval -> result bool
}.

(** ** encrypt_password.py *)

Module EncryptPassword.
Section Hasher.
Context `{Bcrypt}.

(** [salt] is what [bcrypt.gensalt()] drew. *)
Definition hash_password (salt : bytes) (password : string)
  : result bytes :=
  let encoded := encode password in
  hashpw encoded salt.

Definition is_valid (hashed_password : bytes) (password : string)
  : result bool :=
  let encoded := encode password in
  checkpw encoded (PBytes hashed_password).

End Hasher.
End EncryptPassword.

(** ** db.py *)

Module DB.
Section Store.
Context `{StorageEngine}.

(** [column == value] as the query evaluates it; [== None] is
    rendered [IS NULL].  A value that cannot be bound equals nothing
    stored: [find_user_by] raises before any row is compared. *)
Definition sql_eq (stored value : pyval) : bool :=
  bindable value &&
  match stored, value with
  | PNone, PNone => true
  | PInt a, PInt b => Z.eqb a b
  | PStr a, PStr b => String.eqb a b
  | PBytes a, PBytes b => bytes_eqb a b
  | PInt _, PStr _ | PStr _, PInt _ => affinity_eq stored value
  | _, _ => false
  end.

(** [filter_by] with keyword criteria: every criterion holds of the
    row. *)
Definition filter_by (kw : kwargs) (u : User) : bool :=
  forallb (fun kv =>
             match getattr u (fst kv) with
             | Some stored => sql_eq stored (snd kv)
             | None => false
             end) kw.

(** [Query.first()] *)
Definition first (p : User -> bool) (t : table) : option User := find p t.

Definition id_num (u : User) : Z :=
  match id u with PInt n => n | _ => 0 end.

(** A value an integer primary key column holds. *)
Definition stored_key (v : pyval) : bool :=
  match v with PInt n => int64 n | _ => false end.

Definition largest (l : list Z) : Z := fold_right Z.max (hd 0 l) l.

(** The integer primary key the engine gives a new row: 1 in an empty
    table, otherwise one more than the largest in use.  When the
    largest 64-bit integer is in use the engine tries unused keys at
    random, and the new row is no longer the last one scanned: that is
    not followed ([None]). *)
Definition next_id (t : table) : option Z :=
  if forallb (fun u => stored_key (id u)) t then
    match t with
    | [] => Some 1
    | _ :: _ =>
        if (largest (map id_num t) <? 2 ^ 63 - 1)%Z
        then Some (largest (map id_num t) + 1)
        else None
    end
  else None.

(** [session.add(user); session.commit()].  The row is followed when
    the columns take its values as they are (text or bytes for the
    email and the hash) and no row has the email: whether the table
    constrains emails is decided in [user.py]. *)
Definition add_user (email hashed_password : pyval) : M User :=
  fun t =>
    match next_id t with
    | Some n =>
        if text_or_bytes email && text_or_bytes hashed_password
           && negb (existsb (filter_by [("email", email)]) t)
        then
          let user := mkUser (PInt n) email hashed_password PNone PNone in
          (Ok user, (t ++ [user])%list)
        else (Unmodelled, t)
    | None => (Unmodelled, t)
    end.

(** The query runs last, after the keys were checked; binding an
    integer outside 64 bits makes the driver raise [OverflowError]. *)
Definition find_user_by (kw : kwargs) : M User :=
  fun t =>
    match kw with
    | [] => (Raise InvalidRequestError, t)
    | _ :: _ =>
        if existsb (fun kv => negb (is_column (fst kv))) kw
        then (Raise InvalidRequestError, t)
        else if existsb (fun kv => negb (bindable (snd kv))) kw
        then (Raise OverflowError, t)
        else match first (filter_by kw) t with
             | None => (Raise NoResultFound, t)
             | Some user => (Ok user, t)
             end
    end.

(** An assignment that [commit] stores as it is and that keeps the
    row where it is: text or bytes for the hash, text, bytes or [None]
    for the two tokens.  The key and the email are not among them (a
    rewritten key moves the row in scan order or collides, and the
    constraints on emails are decided in [user.py]), nor are values
    the column refuses or converts. *)
Definition plain_write (kv : string * pyval) : bool :=
  ((fst kv =? "session_id") || (fst kv =? "reset_token"))
    && (text_or_bytes (snd kv)
        || match snd kv with PNone => true | _ => false end)
  || (fst kv =? "hashed_password") && text_or_bytes (snd kv).

(** [session.commit()] after the attributes of the row object that
    [p] selected first were set by assignments of [plain_write]: the
    row is written back in place. *)
Fixpoint flush (p : User -> bool) (u' : User) (t : table) : table :=
  match t with
  | [] => []
  | r :: rest => if p r then u' :: rest else r :: flush p u' rest
  end.

(** [for key, value in kwargs.items(): setattr(user, key, value)] *)
Definition assign (u : User) (kw : kwargs) : User :=
  fold_left (fun u kv => setattr u (fst kv) (snd kv)) kw u.

Definition update_user (user_id : pyval) (kw : kwargs) : M unit :=
  user <- find_user_by [("id", user_id)] ;;
  if existsb (fun kv => negb (is_column (fst kv))) kw
  then raise (ValueError "")
  else if forallb plain_write kw
  then fun t =>
         (Ok tt, flush (filter_by [("id", user_id)]) (assign user kw) t)
  else fun t => (Unmodelled, t).

End Store.
End DB.

(** ** auth.py *)

Module Auth.
Section Engine.
Context `{StorageEngine} `{Bcrypt}.

(** [bcrypt.hashpw(password.encode(), bcrypt.gensalt())]; [salt] is
    what [gensalt()] drew. *)
Definition _hash_password (salt : bytes) (password : string)
  : result bytes :=
  hashpw (encode password) salt.

(** [str(uuid4())]; [uuid4] is the string of the identifier drawn. *)
Definition _generate_uuid (uuid4 : string) : string := uuid4.

Definition register_user (email password : string) (salt : bytes) : M User :=
  try user <- (DB.find_user_by [("email", PStr email)] ;;
               raise (ValueError ("User " ++ email ++ " already exists")))
  except NoResultFound
    (hashed_password <- lift (_hash_password salt password) ;;
     DB.add_user (PStr email) (PBytes hashed_password)) ;;
  ret user.

Definition valid_login (email password : string) : M bool :=
  try user <- DB.find_user_by [("email", PStr email)]
  except NoResultFound (ret false) ;;
  lift (checkpw (encode password) (hashed_password user)).

Definition create_session (email : string) (uuid4 : string)
  : M (option string) :=
  try user <- DB.find_user_by [("email", PStr email)]
  except NoResultFound (ret None) ;;
  let session_id := _generate_uuid uuid4 in
  DB.update_user (id user) [("session_id", PStr session_id)] ;;
  ret (Some session_id).

Definition get_user_from_session_id (session_id : string)
  : M (option User) :=
  if str_not session_id then ret None
  else
    try user <- DB.find_user_by [("session_id", PStr session_id)]
    except NoResultFound (ret None) ;;
    ret (Some user).

(** [user_id] is annotated [int]; the logout route hands it the
    cookie's text, so it is any Python value here. *)
Definition destroy_session (user_id : pyval) : M unit :=
  try user <- DB.find_user_by [("id", user_id)]
  except NoResultFound (ret tt) ;;
  DB.update_user (id user) [("session_id", PNone)].

Definition get_reset_password_token (email : string) (uuid4 : string)
  : M string :=
  try user <- DB.find_user_by [("email", PStr email)]
  except NoResultFound (raise (ValueError "")) ;;
  let reset_token := _generate_uuid uuid4 in
  DB.update_user (id user) [("reset_token", PStr reset_token)] ;;
  ret reset_token.

Definition update_password (reset_token password : string) (salt : bytes)
  : M unit :=
  if str_not reset_token || str_not password then ret tt
  else
    try user <- DB.find_user_by [("reset_token", PStr reset_token)]
    except NoResultFound (raise (ValueError "")) ;;
    hashed_password <- lift (_hash_password salt password) ;;
    DB.update_user (id user)
      [("hashed_password", PBytes hashed_password); ("reset_token", PNone)].

End Engine.
End Auth.

(** ** app.py: the logout route *)

Module App.

Inductive response : Type :=
| Abort (status : nat)
| Redirect (location : string).

Section Routes.
Context `{StorageEngine} `{Bcrypt}.

(** [DELETE /sessions]; [cookie] is
    [request.cookies.get("session_id")]. *)
Definition log_out (cookie : option string) : M response :=
  match cookie with
  | None => ret (Abort 403)
  | Some session_id =>
      if str_not session_id then ret (Abort 403)
      else
        user <- Auth.get_user_from_session_id session_id ;;
        match user with
        | None => ret (Abort 403)
        | Some _ =>
            Auth.destroy_session (PStr session_id) ;;
            ret (Redirect "/")
        end
  end.

End Routes.
End App.

(** ** Tables the service can be in *)

Definition is_int (v : pyval) : bool :=
  match v with PInt _ => true | _ => false end.

Fixpoint distinct (l : list Z) : bool :=
  match l with
  | [] => true
  | a :: rest => negb (existsb (Z.eqb a) rest) && distinct rest
  end.

(** The primary key: every [id] is a 64-bit integer and no two rows
    share one. *)
Definition wf_table (t : table) : bool :=
  forallb (fun u => DB.stored_key (id u)) t && distinct (map DB.id_num t).

(** What [update_user] on the row of [u] does to a row [r] of a table
    with a sound primary key: the row with [u]'s key is assigned the
    fields, the others stay. *)
Definition touch (u : User) (kw : kwargs) (r : User) : User :=
  if (DB.id_num r =? DB.id_num u)%Z then DB.assign r kw else r.

(** One call on the auth engine, with the random draws it makes. *)
Inductive call : Type :=
| RegisterUser (email password : string) (salt : bytes)
| ValidLogin (email password : string)
| CreateSession (email uuid4 : string)
| GetUserFromSessionId (session_id : string)
| DestroySession (user_id : pyval)
| GetResetPasswordToken (email uuid4 : string)
| UpdatePassword (reset_token password : string) (salt : bytes).

Section Reachability.
Context `{StorageEngine} `{Bcrypt}.

(** The table a call leaves behind, whether it returned or raised
    (and the table before it, where the call is not followed). *)
Definition run (c : call) (t : table) : table :=
  match c with
  | RegisterUser e p salt => snd (Auth.register_user e p salt t)
  | ValidLogin e p => snd (Auth.valid_login e p t)
  | CreateSession e u => snd (Auth.create_session e u t)
  | GetUserFromSessionId sid => snd (Auth.get_user_from_session_id sid t)
  | DestroySession uid => snd (Auth.destroy_session uid t)
  | GetResetPasswordToken e u => snd (Auth.get_reset_password_token e u t)
  | UpdatePassword r p salt => snd (Auth.update_password r p salt t)
  end.

(** [DB.__init__] drops and recreates the table; every later change
    goes through the auth engine. *)
Inductive reachable : table -> Prop :=
| reachable_init : reachable []
| reachable_step : forall c t, reachable t -> reachable (run c t).

(** No row's [session_id] compares equal to the token. *)
Definition session_unused (token : string) (t : table) : bool :=
  forallb (fun u => negb (DB.sql_eq (session_id u) (PStr token))) t.

(** No row other than [u] carries the reset token. *)
Definition reset_token_only_on (token : string) (u : User) (t : table)
  : Prop :=
  forall r, In r t -> r <> u -> DB.sql_eq (reset_token r) (PStr token) = false.

(** The text never compares equal to an integer key. *)
Definition never_an_id (token : string) : Prop :=
  forall n, affinity_eq (PInt n) (PStr token) = false.

End Reachability.

(** ** Instances to run the model on concrete inputs *)

(** An engine for which values of different storage classes never
    compare equal. *)
Definition sample_engine : StorageEngine :=
  {| affinity_eq := fun _ _ => false |}.

Definition too_long : exn :=
  ValueError "password cannot be longer than 72 bytes, truncate manually if necessary (e.g. my_password[:72])".

(** A stand-in for bcrypt 5: a password of more than 72 bytes is
    refused; otherwise the blob is the 29 bytes of salt followed by
    the password, and checking re-reads the first 29 bytes as salt. *)
Definition sample_bcrypt : Bcrypt :=
  {| hashpw := fun password salt =>
       if (72 <? List.length password)%nat then Raise too_long
       else Ok (salt ++ password)%list;
     checkpw := fun password hashed =>
       if (72 <? List.length password)%nat then Raise too_long
       else match hashed with
            | PBytes b => Ok (bytes_eqb b (firstn 29 b ++ password)%list)
            | _ => Raise TypeError
            end |}.

Definition sample_salt : bytes := encode "$2b$12$KIXxPb1q7Fz0pYe0m3uE6O".

(** A password of 73 bytes. *)
Definition sample_long_password : string :=
  string_of_list_ascii (repeat "a"%char 73).

(** A table with one registered user, not logged in. *)
Definition sample_user : User :=
  mkUser (PInt 1) (PStr "a@x.com") (PBytes (sample_salt ++ encode "pw1")%list)
         PNone PNone.

Definition sample_table : table := [sample_user].

Definition sample_uuid : string := "123e4567-e89b-42d3-a456-426614174000".

Definition sample_uuid' : string := "9b2f1c1e-7d0a-4c55-8f2e-0a1b2c3d4e5f".

(** The same user, logged in with [sample_uuid'] and with a reset
    pending under [sample_uuid]. *)
Definition sample_pending_user : User :=
  mkUser (PInt 1) (PStr "a@x.com") (PBytes (sample_salt ++ encode "pw1")%list)
         (PStr sample_uuid') (PStr sample_uuid).

Definition sample_pending : table := [sample_pending_user].

(** The table after registering a user and opening a session. *)
Definition sample_logged_in : table :=
  @run sample_engine sample_bcrypt (CreateSession "a@x.com" sample_uuid)
    (@run sample_engine sample_bcrypt
       (RegisterUser "a@x.com" "pw1" sample_salt) []).

(** ** app.py: the other routes *)

(** [try: x = body  except ValueError: handler] followed by [rest]. *)
Definition try_except_ValueError {A B}
  (body : M A) (handler : M B) (rest : A -> M B) : M B :=
  fun t =>
    match body t with
    | (Ok a, t') => rest a t'
    | (Raise (ValueError _), t') => handler t'
    | (Raise e, t') => (Raise e, t')
    | (Unmodelled, t') => (Unmodelled, t')
    end.

Module Routes.

(** [request.form]: the submitted fields; a key read with
    [request.form[key]] gives its first value, and is a [KeyError]
    when the key is absent. *)
Definition form := list (string * string).

Fixpoint form_get (f : form) (key : string) : option string :=
  match f with
  | [] => None
  | (k, v) :: rest => if k =? key then Some v else form_get rest key
  end.

(** What a route answers: [abort(status)], or [jsonify(body)] with a
    status and the cookie [response.set_cookie] was given, if any. *)
Inductive reply : Type :=
| Abort (status : nat)
| Json (status : nat) (body : list (string * pyval))
       (set_cookie : option (string * option string)).

Section Handlers.
Context `{StorageEngine} `{Bcrypt}.

(** [GET /] *)
Definition hello_world : M reply :=
  ret (Json 200 [("message", PStr "Bienvenue")] None).

(** [POST /users] *)
Definition register_user (f : form) (salt : bytes) : M reply :=
  match form_get f "email" with
  | None => ret (Abort 400)
  | Some email =>
      match form_get f "password" with
      | None => ret (Abort 400)
      | Some password =>
          try_except_ValueError
            (Auth.register_user email password salt)
            (ret (Json 400 [("message", PStr "email already registered")]
                       None))
            (fun _ =>
               ret (Json 200 [("email", PStr email);
                              ("message", PStr "user created")] None))
      end
  end.

(** [POST /sessions] *)
Definition log_in (f : form) (uuid4 : string) : M reply :=
  match form_get f "email" with
  | None => ret (Abort 400)
  | Some email =>
      match form_get f "password" with
      | None => ret (Abort 400)
      | Some password =>
          valid <- Auth.valid_login email password ;;
          if negb valid then ret (Abort 401)
          else
            session_id <- Auth.create_session email uuid4 ;;
            ret (Json 200 [("email", PStr email);
                           ("message", PStr "logged in")]
                      (Some ("session_id", session_id)))
      end
  end.

(** [GET /profile]; [cookie] is [request.cookies.get("session_id")]. *)
Definition profile (cookie : option string) : M reply :=
  match cookie with
  | None => ret (Abort 403)
  | Some session_id =>
      if str_not session_id then ret (Abort 403)
      else
        user <- Auth.get_user_from_session_id session_id ;;
        match user with
        | None => ret (Abort 403)
        | Some user => ret (Json 200 [("email", email user)] None)
        end
  end.

(** [POST /reset_password] *)
Definition reset_password (f : form) (uuid4 : string) : M reply :=
  match form_get f "email" with
  | None => ret (Abort 403)
  | Some email =>
      try_except_ValueError
        (Auth.get_reset_password_token email uuid4)
        (ret (Abort 403))
        (fun reset_token =>
           ret (Json 200 [("email", PStr email);
                          ("reset_token", PStr reset_token)] None))
  end.

(** [PUT /reset_password] *)
Definition update_password (f : form) (salt : bytes) : M reply :=
  match form_get f "email" with
  | None => ret (Abort 400)
  | Some email =>
      match form_get f "reset_token" with
      | None => ret (Abort 400)
      | Some reset_token =>
          match form_get f "new_password" with
          | None => ret (Abort 400)
          | Some new_password =>
              try_except_ValueError
                (Auth.update_password reset_token new_password salt)
                (ret (Abort 403))
                (fun _ =>
                   ret (Json 200 [("email", PStr email);
                                  ("message", PStr "Password updated")]
                             None))
          end
      end
  end.

End Handlers.
End Routes.

(** ** The shape of the table *)

Definition is_text (v : pyval) : bool :=
  match v with PStr _ => true | _ => false end.

Definition is_blob (v : pyval) : bool :=
  match v with PBytes _ => true | _ => false end.

Definition is_text_or_none (v : pyval) : bool :=
  match v with PStr _ | PNone => true | _ => false end.

(** A row as the columns declare it: an integer key, a text email, a
    hash blob, and tokens that are text or unset. *)
Definition row_typed (u : User) : bool :=
  is_int (id u) && is_text (email u) && is_blob (hashed_password u) &&
  is_text_or_none (session_id u) && is_text_or_none (reset_token u).

(** An assignment the auth engine makes: a token, or a hash blob. *)
Definition engine_field (kv : string * pyval) : bool :=
  ((fst kv =? "session_id") || (fst kv =? "reset_token"))
    && is_text_or_none (snd kv)
  || (fst kv =? "hashed_password") && is_blob (snd kv).

Section Effects.
Context `{StorageEngine}.

(** What one call of the auth engine can do to the table: nothing,
    assign token or hash fields on one existing row, or append a row
    for an email no row has. *)
Inductive effect (t : table) : table -> Prop :=
| effect_none : effect t t
| effect_write : forall u kw,
    In u t -> forallb engine_field kw = true ->
    effect t (map (touch u kw) t)
| effect_insert : forall e h n,
    find (DB.filter_by [("email", PStr e)]) t = None ->
    DB.next_id t = Some n ->
    effect t (t ++ [mkUser (PInt n) (PStr e) (PBytes h) PNone PNone])%list.

End Effects.

(** The keys [1 .. n] in order. *)
Definition keys_upto (n : nat) : list pyval :=
  map (fun k => PInt (Z.of_nat k)) (seq 1 n).

(** Forms to run the routes on. *)
Definition sample_credentials : Routes.form :=
  [("email", "a@x.com"); ("password", "pw1")].

Definition sample_wrong_password : Routes.form :=
  [("email", "a@x.com"); ("password", "nope")].

Definition sample_newcomer : Routes.form :=
  [("email", "b@x.com"); ("password", "pw2")].

Definition sample_reset_request : Routes.form := [("email", "a@x.com")].

Definition sample_reset_form : Routes.form :=
  [("email", "someone@else.com"); ("reset_token", sample_uuid);
   ("new_password", "pw2")].

(** The user of [sample_logged_in]. *)
Definition sample_session_user : User :=
  mkUser (PInt 1) (PStr "a@x.com") (PBytes (sample_salt ++ encode "pw1")%list)
         (PStr sample_uuid) PNone.

(** ** filtered_logger.py *)

Module FilteredLogger.

Definition PII_FIELDS : list string :=
  ["name"; "email"; "phone"; "ssn"; "password"].

Definition newline : ascii := "010"%char.

Fixpoint all_chars (p : ascii -> bool) (s : string) : bool :=
  match s with
  | EmptyString => true
  | String a s' => p a && all_chars p s'
  end.

(** The characters [re] does not read literally in a pattern. *)
Definition regex_special (a : ascii) : bool :=
  existsb (Ascii.eqb a) (list_ascii_of_string ".^$*+?{}[]\|()").

Definition literal_pattern (s : string) : bool :=
  all_chars (fun a => negb (regex_special a)) s.

(** In a replacement only the backslash is not read literally. *)
Definition literal_template (s : string) : bool :=
  all_chars (fun a => negb (Ascii.eqb a "\"%char)) s.

(** What is left of [s] after the literal text [p], if [s] starts
    with it. *)
Fixpoint strip_prefix (p s : string) : option string :=
  match p with
  | EmptyString => Some s
  | String a p' =>
      match s with
      | EmptyString => None
      | String b s' => if Ascii.eqb a b then strip_prefix p' s' else None
      end
  end.

(** [.*?] followed by the literal [sep]: the fewest characters, none
    of them a newline, up to the first place where [sep] stands; what
    is left after [sep]. *)
Fixpoint lazy_until (sep s : string) : option string :=
  match strip_prefix sep s with
  | Some rest => Some rest
  | None =>
      match s with
      | EmptyString => None
      | String a s' =>
          if Ascii.eqb a newline then None else lazy_until sep s'
      end
  end.

(** A match of [f=.*?sep] starting at the head of [s]: what is left
    after it. *)
Definition match_at (f sep s : string) : option string :=
  match strip_prefix (f ++ "=") s with
  | Some after => lazy_until sep after
  | None => None
  end.

(** [re.sub]: scan from the left; where the pattern matches, put the
    replacement and go on after the match, elsewhere keep the
    character. [fuel] bounds the characters still to scan. *)
Fixpoint sub_fuel (fuel : nat) (f sep repl s : string) : string :=
  match fuel with
  | O => s
  | S fuel' =>
      match match_at f sep s with
      | Some rest => repl ++ sub_fuel fuel' f sep repl rest
      | None =>
          match s with
          | EmptyString => EmptyString
          | String a s' => String a (sub_fuel fuel' f sep repl s')
          end
      end
  end.

Definition sub (f sep repl s : string) : string :=
  sub_fuel (String.length s) f sep repl s.

(** [filter_datum] for field names and a separator without regex
    operators and a redaction without backslash, where the pattern
    [f'{f}=.*?{separator}'] is the literal field name, [=], a lazy run
    and the literal separator, and the replacement is literal text.
    [None] says the call is outside this fragment. *)
Definition filter_datum (fields : list string)
  (redaction message separator : string) : option string :=
  if forallb literal_pattern fields && literal_pattern separator
     && literal_template redaction
  then Some (fold_left
               (fun message f =>
                  sub f separator (f ++ "=" ++ redaction ++ separator)
                      message)
               fields message)
  else None.

(** A message of [key=value] entries, each closed by the separator
    character. *)
Fixpoint render (c : ascii) (entries : list (string * string)) : string :=
  match entries with
  | [] => EmptyString
  | (k, v) :: rest => k ++ "=" ++ v ++ String c (render c rest)
  end.

(** Text with no [=], no separator and no newline in it. *)
Definition plain (c : ascii) (s : string) : bool :=
  all_chars (fun a => negb (Ascii.eqb a "="%char) && negb (Ascii.eqb a c)
                      && negb (Ascii.eqb a newline)) s.

(** [k] ends with [f]. *)
Fixpoint ends_with (k f : string) : bool :=
  (k =? f) ||
  match k with
  | EmptyString => false
  | String _ k' => ends_with k' f
  end.

(** An entry after redaction under the fields: the value is replaced
    when the key ends with one of the field names. *)
Definition redact (fields : list string) (redaction : string)
  (kv : string * string) : string * string :=
  (fst kv,
   if existsb (ends_with (fst kv)) fields then redaction else snd kv).

Definition plain_entry (c : ascii) (kv : string * string) : bool :=
  plain c (fst kv) && plain c (snd kv).

Definition no_equals (s : string) : bool :=
  all_chars (fun a => negb (Ascii.eqb a "="%char)) s.

(** [p] stands somewhere in [s]. *)
Fixpoint occurs (p s : string) : bool :=
  match strip_prefix p s with
  | Some _ => true
  | None =>
      match s with
      | EmptyString => false
      | String _ s' => occurs p s'
      end
  end.

End FilteredLogger.

(** * Properties of the store *)

Section StoreFacts.
Context `{StorageEngine}.

Lemma str_not_false (s : string) : s <> "" -> str_not s = false.
Proof. destruct s; [congruence | reflexivity]. Qed.

Lemma str_not_true (s : string) : str_not s = true -> s = "".
Proof. destruct s; [reflexivity | discriminate]. Qed.

(** A lookup on one known column skips both validity checks. *)
Lemma find_user_by_one (k : string) (v : pyval) (t : table) :
  is_column k = true -> bindable v = true ->
  DB.find_user_by [(k, v)] t =
  match DB.first (DB.filter_by [(k, v)]) t with
  | None => (Raise NoResultFound, t)
  | Some u => (Ok u, t)
  end.
Proof.
  intros Hk Hv. unfold DB.find_user_by.
  cbn [existsb fst snd]. rewrite Hk, Hv. reflexivity.
Qed.

(** A lookup by a value that cannot be bound. *)
Lemma find_user_by_unbindable (k : string) (v : pyval) (t : table) :
  is_column k = true -> bindable v = false ->
  DB.find_user_by [(k, v)] t = (Raise OverflowError, t).
Proof.
  intros Hk Hv. unfold DB.find_user_by.
  cbn [existsb fst snd]. rewrite Hk, Hv. reflexivity.
Qed.

Lemma int64_spec (n : Z) :
  int64 n = true <->
  (-9223372036854775808 <= n <= 9223372036854775807)%Z.
Proof.
  unfold int64. rewrite andb_true_iff, !Z.leb_le.
  change (- 2 ^ 63)%Z with (-9223372036854775808)%Z.
  change (2 ^ 63 - 1)%Z with 9223372036854775807%Z.
  tauto.
Qed.

Lemma find_user_by_table (kw : kwargs) (t : table) :
  snd (DB.find_user_by kw t) = t.
Proof.
  unfold DB.find_user_by. destruct kw as [|kv kw]; [reflexivity|].
  destruct (existsb _ _); [reflexivity|].
  destruct (existsb _ _); [reflexivity|].
  destruct (DB.first _ t); reflexivity.
Qed.

Lemma filter_by_id (v : pyval) (r : User) :
  DB.filter_by [("id", v)] r = DB.sql_eq (id r) v.
Proof. unfold DB.filter_by. cbn. apply andb_true_r. Qed.

Lemma filter_by_email (v : pyval) (r : User) :
  DB.filter_by [("email", v)] r = DB.sql_eq (email r) v.
Proof. unfold DB.filter_by. cbn. apply andb_true_r. Qed.

Lemma filter_by_session_id (v : pyval) (r : User) :
  DB.filter_by [("session_id", v)] r = DB.sql_eq (session_id r) v.
Proof. unfold DB.filter_by. cbn. apply andb_true_r. Qed.

Lemma filter_by_reset_token (v : pyval) (r : User) :
  DB.filter_by [("reset_token", v)] r = DB.sql_eq (reset_token r) v.
Proof. unfold DB.filter_by. cbn. apply andb_true_r. Qed.

Lemma sql_eq_int (a b : Z) :
  DB.sql_eq (PInt a) (PInt b) = int64 b && (a =? b)%Z.
Proof. reflexivity. Qed.

(** Only a value that can be bound compares equal to a stored one. *)
Lemma sql_eq_bindable (stored value : pyval) :
  DB.sql_eq stored value = true -> bindable value = true.
Proof.
  unfold DB.sql_eq. intros E. apply andb_true_iff in E. apply E.
Qed.

Lemma sql_eq_str (a b : string) : DB.sql_eq (PStr a) (PStr b) = (a =? b).
Proof. reflexivity. Qed.

(** Writing the row back unchanged leaves the table as it was. *)
Lemma flush_first_same (p : User -> bool) (u : User) (t : table) :
  find p t = Some u -> DB.flush p u t = t.
Proof.
  induction t as [|r t IH]; simpl; [reflexivity|].
  destruct (p r); intros E.
  - injection E as ->. reflexivity.
  - rewrite IH by assumption. reflexivity.
Qed.


Lemma find_map_pointwise (q : User -> bool) (g : User -> User) (t : table) :
  (forall r, In r t -> q (g r) = q r) ->
  find q (map g t) = option_map g (find q t).
Proof.
  induction t as [|r t IH]; simpl; intros Hq; [reflexivity|].
  rewrite (Hq r) by (left; reflexivity).
  destruct (q r); [reflexivity|].
  apply IH. intros r' Hr'. apply Hq. right. assumption.
Qed.

Lemma find_all_false (q : User -> bool) (t : table) :
  (forall r, In r t -> q r = false) -> find q t = None.
Proof.
  induction t as [|r t IH]; simpl; intros Hq; [reflexivity|].
  rewrite (Hq r) by (left; reflexivity).
  apply IH. intros r' Hr'. apply Hq. right. assumption.
Qed.

Lemma find_hit (q : User -> bool) (u : User) (t : table) :
  In u t -> q u = true -> exists u0, find q t = Some u0 /\ q u0 = true.
Proof.
  intros Hin Hq. destruct (find q t) as [u0|] eqn:E.
  - exists u0. split; [reflexivity|]. apply (find_some _ _ E).
  - rewrite (find_none _ _ E u Hin) in Hq. discriminate.
Qed.



Lemma getattr_setattr_other (u : User) (k k' : string) (v : pyval) :
  k <> k' -> getattr (setattr u k' v) k = getattr u k.
Proof.
  intros Hne. unfold setattr.
  repeat match goal with
         | |- context [String.eqb k' ?c] =>
             destruct (String.eqb_spec k' c); [subst k'|]
         end;
    try reflexivity;
    unfold getattr;
    repeat match goal with
           | |- context [String.eqb k ?c] =>
               destruct (String.eqb_spec k c); [subst k|]
           end;
    try reflexivity; try congruence.
Qed.

Lemma assign_frame (kw : kwargs) (u : User) (k : string) :
  ~ In k (map fst kw) -> getattr (DB.assign u kw) k = getattr u k.
Proof.
  revert u. induction kw as [|[k0 v0] kw IH]; intros u Hk; [reflexivity|].
  unfold DB.assign in *. cbn [fold_left fst snd]. rewrite IH.
  - apply getattr_setattr_other. intros ->. apply Hk. left. reflexivity.
  - intros Hin. apply Hk. right. assumption.
Qed.


(** The key check of [update_user], read as a statement on the keys. *)
Lemma unknown_key_iff (kw : kwargs) :
  existsb (fun kv => negb (is_column (fst kv))) kw = true <->
  exists k, In k (map fst kw) /\ is_column k = false.
Proof.
  rewrite existsb_exists. split.
  - intros ([k v] & Hin & Hk). exists k. split.
    + apply in_map_iff. exists (k, v). split; [reflexivity | assumption].
    + apply negb_true_iff in Hk. assumption.
  - intros (k & Hin & Hk). apply in_map_iff in Hin.
    destruct Hin as ([k' v] & E & Hin). cbn in E. subst k'.
    exists (k, v). split; [assumption|].
    cbn [fst]. rewrite Hk. reflexivity.
Qed.

Lemma all_keys_known (kw : kwargs) :
  existsb (fun kv => negb (is_column (fst kv))) kw = false ->
  forall k, In k (map fst kw) -> is_column k = true.
Proof.
  intros E k Hin. destruct (is_column k) eqn:Hk; [reflexivity|].
  assert (X : existsb (fun kv => negb (is_column (fst kv))) kw = true)
    by (apply unknown_key_iff; exists k; split; assumption).
  rewrite X in E. discriminate.
Qed.

(** The assignments that are followed are on columns. *)
Lemma plain_write_column (kv : string * pyval) :
  DB.plain_write kv = true -> is_column (fst kv) = true.
Proof.
  unfold DB.plain_write. destruct kv as [k v]. cbn [fst snd].
  rewrite !orb_true_iff, !andb_true_iff, !orb_true_iff, !String.eqb_eq.
  intros [[[->| ->] _]|[-> _]]; reflexivity.
Qed.

Lemma plain_keys_known (kw : kwargs) :
  forallb DB.plain_write kw = true ->
  existsb (fun kv => negb (is_column (fst kv))) kw = false.
Proof.
  induction kw as [|kv kw IH]; [reflexivity|].
  cbn [forallb existsb]. rewrite andb_true_iff. intros [Hkv Hkw].
  rewrite (plain_write_column _ Hkv), IH by assumption. reflexivity.
Qed.



(** [update_user] unfolded: the lookup, the key check, the write. *)
Lemma update_user_unfold (uid : pyval) (kw : kwargs) (t : table) :
  DB.update_user uid kw t =
  if bindable uid then
    match DB.first (DB.filter_by [("id", uid)]) t with
    | None => (Raise NoResultFound, t)
    | Some user =>
        if existsb (fun kv => negb (is_column (fst kv))) kw
        then (Raise (ValueError ""), t)
        else if forallb DB.plain_write kw
        then (Ok tt,
              DB.flush (DB.filter_by [("id", uid)]) (DB.assign user kw) t)
        else (Unmodelled, t)
    end
  else (Raise OverflowError, t).
Proof.
  unfold DB.update_user, bind. destruct (bindable uid) eqn:Hb.
  - rewrite find_user_by_one by (reflexivity || assumption).
    destruct (DB.first _ t); [|reflexivity].
    destruct (existsb _ kw); [reflexivity|].
    destruct (forallb _ kw); reflexivity.
  - rewrite find_user_by_unbindable by (reflexivity || assumption).
    reflexivity.
Qed.

End StoreFacts.

(** * The primary key invariant *)

Section KeyFacts.
Context `{StorageEngine}.

Lemma stored_key_int (v : pyval) :
  DB.stored_key v = true -> is_int v = true.
Proof. destruct v; (discriminate || reflexivity). Qed.

Lemma stored_key_bindable (v : pyval) :
  DB.stored_key v = true -> bindable v = true.
Proof. destruct v; (discriminate || intros E; exact E). Qed.

Lemma wf_cons (r : User) (t : table) :
  wf_table (r :: t) = true ->
  DB.stored_key (id r) = true /\
  (forall v, In v t -> DB.id_num v <> DB.id_num r) /\
  wf_table t = true.
Proof.
  unfold wf_table. cbn [forallb map distinct].
  rewrite !andb_true_iff, negb_true_iff.
  intros [[Hint Hall] [Hfresh Hd]]. split; [assumption|]. split.
  - intros v Hv E.
    assert (X : existsb (Z.eqb (DB.id_num r)) (map DB.id_num t) = true).
    { apply existsb_exists. exists (DB.id_num v). split.
      - apply in_map. assumption.
      - rewrite E. apply Z.eqb_refl. }
    rewrite X in Hfresh. discriminate.
  - split; assumption.
Qed.

Lemma wf_key (u : User) (t : table) :
  wf_table t = true -> In u t -> DB.stored_key (id u) = true.
Proof.
  unfold wf_table. rewrite andb_true_iff. intros [Hall _] Hin.
  rewrite forallb_forall in Hall. apply Hall. assumption.
Qed.

Lemma wf_int (u : User) (t : table) :
  wf_table t = true -> In u t -> is_int (id u) = true.
Proof.
  intros Hwf Hin. apply stored_key_int. apply (wf_key u t); assumption.
Qed.

Lemma wf_bindable (u : User) (t : table) :
  wf_table t = true -> In u t -> bindable (id u) = true.
Proof.
  intros Hwf Hin. apply stored_key_bindable. apply (wf_key u t); assumption.
Qed.

Lemma sql_eq_id_num (r u : User) :
  DB.stored_key (id r) = true -> DB.stored_key (id u) = true ->
  DB.sql_eq (id r) (id u) = (DB.id_num r =? DB.id_num u)%Z.
Proof.
  unfold DB.id_num, DB.sql_eq.
  destruct (id r), (id u); try discriminate.
  cbn. intros _ ->. reflexivity.
Qed.

(** Two rows of a sound table with the same key are the same row. *)
Lemma wf_same_key (r u : User) (t : table) :
  wf_table t = true -> In r t -> In u t ->
  DB.id_num r = DB.id_num u -> r = u.
Proof.
  induction t as [|a t IH]; intros Hwf Hr Hu E; [destruct Hr|].
  destruct (wf_cons _ _ Hwf) as (_ & Hfresh & Hwf').
  destruct Hr as [->|Hr], Hu as [->|Hu].
  - reflexivity.
  - exfalso. apply (Hfresh u Hu). symmetry. assumption.
  - exfalso. apply (Hfresh r Hr). assumption.
  - apply IH; assumption.
Qed.

Lemma map_touch_others (u : User) (kw : kwargs) (t : table) :
  (forall v, In v t -> DB.id_num v <> DB.id_num u) ->
  map (touch u kw) t = t.
Proof.
  induction t as [|r t IH]; intros Hne; [reflexivity|].
  cbn [map]. rewrite IH by (intros v Hv; apply Hne; right; assumption).
  unfold touch. destruct (Z.eqb_spec (DB.id_num r) (DB.id_num u)) as [E|_].
  - exfalso. apply (Hne r); [left; reflexivity | assumption].
  - reflexivity.
Qed.

(** Looking a row of a sound table up by its own id finds that row. *)
Lemma find_by_id_wf (u : User) (t : table) :
  wf_table t = true -> In u t ->
  find (DB.filter_by [("id", id u)]) t = Some u.
Proof.
  induction t as [|r t IH]; intros Hwf Hin; [destruct Hin|].
  destruct (wf_cons _ _ Hwf) as (Hint & Hfresh & Hwf').
  cbn [find]. rewrite filter_by_id.
  rewrite sql_eq_id_num by (assumption || apply (wf_key _ _ Hwf Hin)).
  destruct Hin as [->|Hin].
  - rewrite Z.eqb_refl. reflexivity.
  - destruct (Z.eqb_spec (DB.id_num r) (DB.id_num u)) as [E|_].
    + exfalso. apply (Hfresh u Hin). symmetry. assumption.
    + apply IH; assumption.
Qed.

(** ... and the write that follows lands on that row alone. *)
Lemma flush_by_id_wf (u : User) (kw : kwargs) (t : table) :
  wf_table t = true -> In u t ->
  DB.flush (DB.filter_by [("id", id u)]) (DB.assign u kw) t
  = map (touch u kw) t.
Proof.
  induction t as [|r t IH]; intros Hwf Hin; [destruct Hin|].
  destruct (wf_cons _ _ Hwf) as (Hint & Hfresh & Hwf').
  cbn [DB.flush map]. rewrite filter_by_id.
  rewrite sql_eq_id_num by (assumption || apply (wf_key _ _ Hwf Hin)).
  unfold touch at 1.
  destruct (Z.eqb_spec (DB.id_num r) (DB.id_num u)) as [E|Hne].
  - assert (r = u) as ->.
    { apply (wf_same_key r u (r :: t)); try assumption.
      left. reflexivity. }
    rewrite map_touch_others by assumption. reflexivity.
  - destruct Hin as [->|Hin]; [congruence|].
    rewrite IH by assumption. reflexivity.
Qed.

Lemma update_user_wf (u : User) (kw : kwargs) (t : table) :
  wf_table t = true -> In u t ->
  forallb DB.plain_write kw = true ->
  DB.update_user (id u) kw t = (Ok tt, map (touch u kw) t).
Proof.
  intros Hwf Hin Hkeys. rewrite update_user_unfold. unfold DB.first.
  rewrite (wf_bindable u t Hwf Hin).
  rewrite find_by_id_wf, (plain_keys_known _ Hkeys), Hkeys, flush_by_id_wf
    by assumption.
  reflexivity.
Qed.

(** A change of rows that keeps every id keeps the invariant. *)
Lemma wf_map (g : User -> User) (t : table) :
  (forall r, id (g r) = id r) -> wf_table (map g t) = wf_table t.
Proof.
  intros Hid. unfold wf_table. f_equal.
  - induction t as [|r t IH]; [reflexivity|].
    cbn [map forallb]. rewrite Hid, IH. reflexivity.
  - f_equal. rewrite map_map. apply map_ext.
    intros r. unfold DB.id_num. rewrite Hid. reflexivity.
Qed.

Lemma le_fold_max (a d : Z) (l : list Z) :
  In a l -> (a <= fold_right Z.max d l)%Z.
Proof.
  induction l as [|b l IH]; intros Hin; [destruct Hin|].
  cbn [fold_right]. destruct Hin as [->|Hin].
  - lia.
  - specialize (IH Hin). lia.
Qed.

(** The key of a new row is a 64-bit integer above every key in use. *)
Lemma next_id_fresh (t : table) (n : Z) :
  DB.next_id t = Some n ->
  int64 n = true /\ forall u, In u t -> (DB.id_num u < n)%Z.
Proof.
  unfold DB.next_id. destruct (forallb _ t) eqn:Hall; [|discriminate].
  destruct t as [|r t].
  - intros E. injection E as <-. split; [reflexivity|]. intros u [].
  - destruct (Z.ltb_spec (DB.largest (map DB.id_num (r :: t)))
                (2 ^ 63 - 1)) as [Hlt|_]; [|discriminate].
    intros E. injection E as <-.
    assert (Hle : forall u, In u (r :: t) ->
                    (DB.id_num u <= DB.largest (map DB.id_num (r :: t)))%Z).
    { intros u Hu. unfold DB.largest. apply le_fold_max.
      apply in_map. assumption. }
    split.
    + apply int64_spec.
      change (2 ^ 63 - 1)%Z with 9223372036854775807%Z in Hlt.
      specialize (Hle r (or_introl eq_refl)).
      cbn [forallb] in Hall. apply andb_true_iff in Hall.
      destruct Hall as [Hr _]. unfold DB.stored_key in Hr.
      unfold DB.id_num in Hle at 1. destruct (id r); try discriminate.
      apply int64_spec in Hr. cbn [map] in *. lia.
    + intros u Hu. specialize (Hle u Hu). cbn [map] in *. lia.
Qed.

Lemma distinct_snoc (l : list Z) (n : Z) :
  distinct l = true -> (forall a, In a l -> (a < n)%Z) ->
  distinct (l ++ [n]) = true.
Proof.
  induction l as [|a l IH]; intros Hd Hlt; [reflexivity|].
  cbn [distinct app] in *. apply andb_true_iff in Hd. destruct Hd as [Ha Hd].
  apply andb_true_iff. split.
  - rewrite existsb_app, negb_orb. apply andb_true_iff. split.
    + assumption.
    + cbn [existsb]. rewrite orb_false_r. apply negb_true_iff.
      apply Z.eqb_neq. specialize (Hlt a (or_introl eq_refl)). lia.
  - apply IH; [assumption|]. intros b Hb. apply Hlt. right. assumption.
Qed.

Lemma wf_snoc (n : Z) (e h s r : pyval) (t : table) :
  wf_table t = true -> DB.next_id t = Some n ->
  wf_table (t ++ [mkUser (PInt n) e h s r])%list = true.
Proof.
  intros Hwf Hn. destruct (next_id_fresh t n Hn) as [Hint Hlt].
  unfold wf_table in *. rewrite andb_true_iff in *.
  destruct Hwf as [Hall Hd]. split.
  - rewrite forallb_app, Hall. cbn. rewrite Hint. reflexivity.
  - rewrite map_app. cbn [map]. apply distinct_snoc; [assumption|].
    intros a Ha. apply in_map_iff in Ha. destruct Ha as (u & <- & Hu).
    unfold DB.id_num at 2. cbn [id]. apply Hlt. assumption.
Qed.

(** [add_user] keeps the invariant: the new key is above all others. *)
Lemma wf_add_user (e h : pyval) (t : table) :
  wf_table t = true -> wf_table (snd (DB.add_user e h t)) = true.
Proof.
  intros Hwf. unfold DB.add_user.
  destruct (DB.next_id t) as [n|] eqn:Hn; [|assumption].
  destruct (_ && _); [|assumption].
  cbn [snd]. apply wf_snoc; assumption.
Qed.

End KeyFacts.

(** * The auth engine, call by call *)

Section EngineFacts.
Context `{StorageEngine} `{Bcrypt}.

Lemma touch_id (u : User) (kw : kwargs) (r : User) :
  ~ In "id" (map fst kw) -> id (touch u kw r) = id r.
Proof.
  intros Hk. unfold touch. destruct (_ =? _)%Z; [|reflexivity].
  pose proof (assign_frame kw r "id" Hk) as E. cbn in E.
  injection E as E. assumption.
Qed.

Lemma touch_email (u : User) (kw : kwargs) (r : User) :
  ~ In "email" (map fst kw) -> email (touch u kw r) = email r.
Proof.
  intros Hk. unfold touch. destruct (_ =? _)%Z; [|reflexivity].
  pose proof (assign_frame kw r "email" Hk) as E. cbn in E.
  injection E as E. assumption.
Qed.

Lemma touch_session_id (u : User) (kw : kwargs) (r : User) :
  ~ In "session_id" (map fst kw) ->
  session_id (touch u kw r) = session_id r.
Proof.
  intros Hk. unfold touch. destruct (_ =? _)%Z; [|reflexivity].
  pose proof (assign_frame kw r "session_id" Hk) as E. cbn in E.
  injection E as E. assumption.
Qed.

Lemma touch_self (u : User) (kw : kwargs) :
  touch u kw u = DB.assign u kw.
Proof. unfold touch. rewrite Z.eqb_refl. reflexivity. Qed.

Lemma touch_other (u r : User) (kw : kwargs) (t : table) :
  wf_table t = true -> In u t -> In r t -> r <> u -> touch u kw r = r.
Proof.
  intros Hwf Hu Hr Hne. unfold touch.
  destruct (Z.eqb_spec (DB.id_num r) (DB.id_num u)) as [E|_]; [|reflexivity].
  exfalso. apply Hne. apply (wf_same_key r u t); assumption.
Qed.

Lemma wf_touch (u : User) (kw : kwargs) (t : table) :
  ~ In "id" (map fst kw) ->
  wf_table (map (touch u kw) t) = wf_table t.
Proof. intros Hk. apply wf_map. intros r. apply touch_id. assumption. Qed.

Lemma existsb_find_none (q : User -> bool) (t : table) :
  find q t = None -> existsb q t = false.
Proof.
  induction t as [|r t IH]; [reflexivity|]. cbn [find existsb].
  destruct (q r); [discriminate|]. exact IH.
Qed.

(** An insertion of a text email that no row has and of a hash is
    followed as long as the keys have room. *)
Lemma add_user_fresh (e : string) (h : bytes) (t : table) :
  find (DB.filter_by [("email", PStr e)]) t = None ->
  DB.add_user (PStr e) (PBytes h) t =
  match DB.next_id t with
  | Some n =>
      (Ok (mkUser (PInt n) (PStr e) (PBytes h) PNone PNone),
       (t ++ [mkUser (PInt n) (PStr e) (PBytes h) PNone PNone])%list)
  | None => (Unmodelled, t)
  end.
Proof.
  intros E. unfold DB.add_user. rewrite (existsb_find_none _ _ E).
  reflexivity.
Qed.

(** Registration: the lookup, then the hash, then the insertion. *)
Lemma register_user_unfold (e p : string) (salt : bytes) (t : table) :
  Auth.register_user e p salt t =
  match find (DB.filter_by [("email", PStr e)]) t with
  | Some _ => (Raise (ValueError ("User " ++ e ++ " already exists")), t)
  | None =>
      match hashpw (encode p) salt with
      | Ok h => DB.add_user (PStr e) (PBytes h) t
      | Raise err => (Raise err, t)
      | Unmodelled => (Unmodelled, t)
      end
  end.
Proof.
  unfold Auth.register_user, try_except, bind.
  rewrite find_user_by_one by reflexivity. unfold DB.first.
  destruct (find _ t); [reflexivity|].
  unfold Auth._hash_password, lift.
  destruct (hashpw (encode p) salt); reflexivity.
Qed.

Lemma valid_login_unfold (e p : string) (t : table) :
  Auth.valid_login e p t =
  match find (DB.filter_by [("email", PStr e)]) t with
  | Some user => (checkpw (encode p) (hashed_password user), t)
  | None => (Ok false, t)
  end.
Proof.
  unfold Auth.valid_login, try_except.
  rewrite find_user_by_one by reflexivity. unfold DB.first.
  destruct (find _ t); reflexivity.
Qed.

Lemma get_user_from_session_id_unfold (sid : string) (t : table) :
  Auth.get_user_from_session_id sid t =
  if str_not sid then (Ok None, t)
  else match find (DB.filter_by [("session_id", PStr sid)]) t with
       | Some user => (Ok (Some user), t)
       | None => (Ok None, t)
       end.
Proof.
  unfold Auth.get_user_from_session_id.
  destruct (str_not sid); [reflexivity|].
  unfold try_except. rewrite find_user_by_one by reflexivity.
  unfold DB.first. destruct (find _ t); reflexivity.
Qed.

Lemma create_session_unfold (e uuid : string) (t : table) :
  wf_table t = true ->
  Auth.create_session e uuid t =
  match find (DB.filter_by [("email", PStr e)]) t with
  | Some user =>
      (Ok (Some uuid), map (touch user [("session_id", PStr uuid)]) t)
  | None => (Ok None, t)
  end.
Proof.
  intros Hwf. unfold Auth.create_session, try_except.
  rewrite find_user_by_one by reflexivity. unfold DB.first.
  destruct (find _ t) as [u|] eqn:E; [|reflexivity].
  unfold bind, Auth._generate_uuid.
  rewrite update_user_wf;
    [reflexivity | assumption | apply (find_some _ _ E) | reflexivity].
Qed.

Lemma destroy_session_unfold (uid : pyval) (t : table) :
  wf_table t = true -> bindable uid = true ->
  Auth.destroy_session uid t =
  match find (DB.filter_by [("id", uid)]) t with
  | Some user => (Ok tt, map (touch user [("session_id", PNone)]) t)
  | None => (Ok tt, t)
  end.
Proof.
  intros Hwf Hb. unfold Auth.destroy_session, try_except.
  rewrite find_user_by_one by (reflexivity || assumption). unfold DB.first.
  destruct (find _ t) as [u|] eqn:E; [|reflexivity].
  rewrite update_user_wf;
    [reflexivity | assumption | apply (find_some _ _ E) | reflexivity].
Qed.

Lemma destroy_session_overflow (uid : pyval) (t : table) :
  bindable uid = false ->
  Auth.destroy_session uid t = (Raise OverflowError, t).
Proof.
  intros Hb. unfold Auth.destroy_session, try_except.
  rewrite find_user_by_unbindable by (reflexivity || assumption).
  reflexivity.
Qed.

Lemma get_reset_password_token_unfold (e uuid : string) (t : table) :
  wf_table t = true ->
  Auth.get_reset_password_token e uuid t =
  match find (DB.filter_by [("email", PStr e)]) t with
  | Some user => (Ok uuid, map (touch user [("reset_token", PStr uuid)]) t)
  | None => (Raise (ValueError ""), t)
  end.
Proof.
  intros Hwf. unfold Auth.get_reset_password_token, try_except.
  rewrite find_user_by_one by reflexivity. unfold DB.first.
  destruct (find _ t) as [u|] eqn:E; [|reflexivity].
  unfold bind, Auth._generate_uuid.
  rewrite update_user_wf;
    [reflexivity | assumption | apply (find_some _ _ E) | reflexivity].
Qed.

(** The fields a completed reset assigns. *)
Lemma update_password_unfold (r p : string) (salt : bytes) (t : table) :
  wf_table t = true ->
  Auth.update_password r p salt t =
  if str_not r || str_not p then (Ok tt, t)
  else match find (DB.filter_by [("reset_token", PStr r)]) t with
       | Some user =>
           match hashpw (encode p) salt with
           | Ok h =>
               (Ok tt,
                map (touch user [("hashed_password", PBytes h);
                                 ("reset_token", PNone)]) t)
           | Raise err => (Raise err, t)
           | Unmodelled => (Unmodelled, t)
           end
       | None => (Raise (ValueError ""), t)
       end.
Proof.
  intros Hwf. unfold Auth.update_password.
  destruct (str_not r || str_not p); [reflexivity|].
  unfold try_except. rewrite find_user_by_one by reflexivity.
  unfold DB.first. destruct (find _ t) as [u|] eqn:E; [|reflexivity].
  unfold Auth._hash_password, bind, lift.
  destruct (hashpw (encode p) salt); [|reflexivity|reflexivity].
  rewrite update_user_wf;
    [reflexivity | assumption | apply (find_some _ _ E) | reflexivity].
Qed.

Ltac no_id_key := cbn; intuition discriminate.

(** Every call of the engine keeps the primary key sound. *)
Lemma run_wf (c : call) (t : table) :
  wf_table t = true -> wf_table (run c t) = true.
Proof.
  intros Hwf. destruct c; cbn [run].
  - rewrite register_user_unfold. destruct (find _ t); [assumption|].
    destruct (hashpw _ _); [|assumption|assumption].
    apply wf_add_user. assumption.
  - rewrite valid_login_unfold. destruct (find _ t); assumption.
  - rewrite create_session_unfold by assumption.
    destruct (find _ t); [|assumption].
    cbn [snd]. rewrite wf_touch; [assumption | no_id_key].
  - rewrite get_user_from_session_id_unfold.
    destruct (str_not _); [assumption|]. destruct (find _ t); assumption.
  - destruct (bindable user_id) eqn:Hb.
    + rewrite destroy_session_unfold by assumption.
      destruct (find _ t); [|assumption].
      cbn [snd]. rewrite wf_touch; [assumption | no_id_key].
    + rewrite destroy_session_overflow by assumption. assumption.
  - rewrite get_reset_password_token_unfold by assumption.
    destruct (find _ t); [|assumption].
    cbn [snd]. rewrite wf_touch; [assumption | no_id_key].
  - rewrite update_password_unfold by assumption.
    destruct (_ || _); [assumption|]. destruct (find _ t); [|assumption].
    destruct (hashpw _ _); [|assumption|assumption].
    cbn [snd]. rewrite wf_touch; [assumption | no_id_key].
Qed.

Lemma reachable_wf (t : table) : reachable t -> wf_table t = true.
Proof.
  induction 1 as [|c t _ IH]; [reflexivity|]. apply run_wf. assumption.
Qed.

(** A lookup on one column that returned a row, read on the table. *)
Lemma find_user_by_ok (k : string) (v : pyval) (u : User) (t : table) :
  is_column k = true ->
  DB.find_user_by [(k, v)] t = (Ok u, t) ->
  find (DB.filter_by [(k, v)]) t = Some u.
Proof.
  intros Hk. destruct (bindable v) eqn:Hb.
  - rewrite find_user_by_one by assumption. unfold DB.first.
    destruct (find _ t); [|discriminate]. intros E. injection E as ->.
    reflexivity.
  - rewrite find_user_by_unbindable by assumption. discriminate.
Qed.

(** After a map over the rows, the first hit is the image of the only
    row whose image matches. *)
Lemma find_map_only (q : User -> bool) (g : User -> User) (u : User)
  (t : table) :
  In u t -> q (g u) = true ->
  (forall r, In r t -> q (g r) = true -> r = u) ->
  find q (map g t) = Some (g u).
Proof.
  induction t as [|a t IH]; intros Hin Hu Honly; [destruct Hin|].
  cbn [map find]. destruct (q (g a)) eqn:E.
  - rewrite (Honly a (or_introl eq_refl) E). reflexivity.
  - destruct Hin as [->|Hin]; [congruence|].
    apply IH; [assumption | assumption |].
    intros r Hr. apply Honly. right. assumption.
Qed.

(** A second [session_id] write on the same row replaces the first. *)
Lemma touch_session_twice (u : User) (a b : pyval) (t : table) :
  map (touch (DB.assign u [("session_id", a)]) [("session_id", b)])
      (map (touch u [("session_id", a)]) t)
  = map (touch u [("session_id", b)]) t.
Proof.
  rewrite map_map. apply map_ext. intros r. unfold touch.
  change (DB.id_num (DB.assign u [("session_id", a)])) with (DB.id_num u).
  destruct (Z.eqb_spec (DB.id_num r) (DB.id_num u)) as [E|Hne].
  - change (DB.id_num (DB.assign r [("session_id", a)])) with (DB.id_num r).
    destruct (Z.eqb_spec (DB.id_num r) (DB.id_num u)); [|contradiction].
    reflexivity.
  - destruct (Z.eqb_spec (DB.id_num r) (DB.id_num u)); [contradiction|].
    reflexivity.
Qed.

(** Once [create_session] has written an unused, non-empty token on
    the row of [u], the token resolves to that row. *)
Lemma session_resolves (token : string) (u : User) (t : table) :
  wf_table t = true -> In u t ->
  session_unused token t = true -> token <> "" ->
  Auth.get_user_from_session_id token
    (map (touch u [("session_id", PStr token)]) t)
  = (Ok (Some (mkUser (id u) (email u) (hashed_password u)
                      (PStr token) (reset_token u))),
     map (touch u [("session_id", PStr token)]) t).
Proof.
  intros Hwf Hin Hunused Hnonempty.
  unfold session_unused in Hunused. rewrite forallb_forall in Hunused.
  rewrite get_user_from_session_id_unfold.
  rewrite (str_not_false token Hnonempty).
  rewrite (find_map_only _ _ u).
  - rewrite touch_self. reflexivity.
  - assumption.
  - rewrite touch_self, filter_by_session_id. cbn. apply String.eqb_refl.
  - intros r Hr. unfold touch.
    destruct (Z.eqb_spec (DB.id_num r) (DB.id_num u)) as [E|_].
    + intros _. apply (wf_same_key r u t); assumption.
    + rewrite filter_by_session_id. intros Hq.
      specialize (Hunused r Hr). rewrite Hq in Hunused. discriminate.
Qed.

End EngineFacts.

Section StoreClaims.
Context `{StorageEngine}.


(** C10: with no fields, [update_user] on an id some record has returns
    without raising and leaves the table as it was, whereas
    [find_user_by] with no criteria raises [InvalidRequestError];
    [update_user] raises [ValueError] only when some given key is not a
    known column, and never raises [InvalidRequestError]. *)
Theorem update_user_accepts_no_fields (uid : pyval) (t : table) :
  (forall u, In u t -> DB.sql_eq (id u) uid = true ->
   DB.update_user uid [] t = (Ok tt, t)) /\
  DB.find_user_by [] t = (Raise InvalidRequestError, t) /\
  (forall kw m, fst (DB.update_user uid kw t) = Raise (ValueError m) ->
   exists k, In k (map fst kw) /\ is_column k = false) /\
  (forall kw, fst (DB.update_user uid kw t) <> Raise InvalidRequestError).
Proof.
  split; [|split; [|split]].
  - intros u Hin Hid. rewrite update_user_unfold. unfold DB.first.
    rewrite (sql_eq_bindable _ _ Hid).
    destruct (find_hit (DB.filter_by [("id", uid)]) u t Hin)
      as (u0 & E & _).
    { rewrite filter_by_id. assumption. }
    rewrite E. cbn [existsb forallb]. unfold DB.assign. cbn [fold_left].
    rewrite flush_first_same by assumption. reflexivity.
  - reflexivity.
  - intros kw m. rewrite update_user_unfold.
    destruct (bindable uid); [|discriminate].
    destruct (DB.first _ t); [|discriminate].
    destruct (existsb _ kw) eqn:E.
    + intros _. apply unknown_key_iff. assumption.
    + destruct (forallb _ kw); discriminate.
  - intros kw. rewrite update_user_unfold.
    destruct (bindable uid); [|discriminate].
    destruct (DB.first _ t); [|discriminate].
    destruct (existsb _ kw); [discriminate|].
    destruct (forallb _ kw); discriminate.
Qed.

End StoreClaims.

(** * Properties of the auth engine *)

Section EngineClaims.
Context `{StorageEngine} `{Bcrypt}.



(** C8: with an empty reset token, or with an empty new password,
    [update_password] returns without raising and leaves the table as
    it was. *)
Theorem update_password_empty_argument
  (r p : string) (salt : bytes) (t : table) :
  Auth.update_password "" p salt t = (Ok tt, t) /\
  Auth.update_password r "" salt t = (Ok tt, t).
Proof.
  split; unfold Auth.update_password.
  - reflexivity.
  - cbn [str_not]. rewrite orb_true_r. reflexivity.
Qed.

Lemma update_password_miss (r p : string) (salt : bytes) (t : table) :
  r <> "" -> p <> "" ->
  (forall u, In u t -> DB.sql_eq (reset_token u) (PStr r) = false) ->
  Auth.update_password r p salt t = (Raise (ValueError ""), t).
Proof.
  intros Hr Hp Hnone. unfold Auth.update_password.
  rewrite (str_not_false r Hr), (str_not_false p Hp). cbn [orb].
  unfold try_except. rewrite find_user_by_one by reflexivity.
  unfold DB.first. rewrite find_all_false; [reflexivity|].
  intros u Hu. rewrite filter_by_reset_token. apply Hnone. assumption.
Qed.

(** A completed reset clears the token: when no other record carries
    it, no record matches it afterwards and every later call with it
    and a non-empty password raises. *)
Lemma update_password_consumes_token
  (r p : string) (salt h : bytes) (u : User) (t : table) :
  r <> "" -> p <> "" -> wf_table t = true ->
  DB.find_user_by [("reset_token", PStr r)] t = (Ok u, t) ->
  reset_token_only_on r u t ->
  hashpw (encode p) salt = Ok h ->
  exists t',
    Auth.update_password r p salt t = (Ok tt, t') /\
    (forall u', In u' t' -> DB.sql_eq (reset_token u') (PStr r) = false) /\
    (forall p' salt', p' <> "" ->
       Auth.update_password r p' salt' t' = (Raise (ValueError ""), t')).
Proof.
  intros Hr Hp Hwf Hfind Honly Hhash.
  apply find_user_by_ok in Hfind; [|reflexivity].
  pose proof (find_some _ _ Hfind) as [Hin _].
  rewrite update_password_unfold by assumption.
  rewrite (str_not_false r Hr), (str_not_false p Hp), Hfind, Hhash.
  cbn [orb].
  eexists. split; [reflexivity|].
  assert (Hcleared :
            forall u',
              In u' (map (touch u [("hashed_password", PBytes h);
                                   ("reset_token", PNone)]) t) ->
              DB.sql_eq (reset_token u') (PStr r) = false).
  { intros u' Hu'. apply in_map_iff in Hu'. destruct Hu' as (r0 & <- & Hr0).
    unfold touch.
    destruct (Z.eqb_spec (DB.id_num r0) (DB.id_num u)) as [E|Hne].
    - reflexivity.
    - apply Honly; [assumption|]. intros ->. apply Hne. reflexivity. }
  split; [assumption|].
  intros p' salt' Hp'. apply update_password_miss; assumption.
Qed.

(** When the hashing raises, nothing is written and the token stays. *)
Lemma update_password_hash_raises
  (r p : string) (salt : bytes) (u : User) (err : exn) (t : table) :
  r <> "" -> p <> "" ->
  DB.find_user_by [("reset_token", PStr r)] t = (Ok u, t) ->
  hashpw (encode p) salt = Raise err ->
  Auth.update_password r p salt t = (Raise err, t).
Proof.
  intros Hr Hp Hfind Hhash. unfold Auth.update_password.
  rewrite (str_not_false r Hr), (str_not_false p Hp). cbn [orb].
  unfold try_except. rewrite Hfind.
  unfold bind, lift, Auth._hash_password. rewrite Hhash. reflexivity.
Qed.

(** After [get_reset_password_token] has written a token no record
    carried, the token matches the user's row and no other. *)
Lemma reset_token_resolves (r : string) (u : User) (t : table) :
  wf_table t = true -> In u t ->
  (forall row, In row t -> DB.sql_eq (reset_token row) (PStr r) = false) ->
  let ta := map (touch u [("reset_token", PStr r)]) t in
  let ua := mkUser (id u) (email u) (hashed_password u) (session_id u)
                   (PStr r) in
  DB.find_user_by [("reset_token", PStr r)] ta = (Ok ua, ta) /\
  reset_token_only_on r ua ta.
Proof.
  intros Hwf Hin Hunused ta ua. split.
  - rewrite find_user_by_one by reflexivity. unfold DB.first, ta.
    rewrite (find_map_only _ _ u).
    + rewrite touch_self. reflexivity.
    + assumption.
    + rewrite touch_self, filter_by_reset_token. cbn. apply String.eqb_refl.
    + intros row Hrow. unfold touch.
      destruct (Z.eqb_spec (DB.id_num row) (DB.id_num u)) as [E|_].
      * intros _. apply (wf_same_key row u t); assumption.
      * rewrite filter_by_reset_token, (Hunused row Hrow). discriminate.
  - intros row' Hrow' Hne. unfold ta in Hrow'.
    apply in_map_iff in Hrow'. destruct Hrow' as (row & <- & Hrow).
    unfold touch in *.
    destruct (Z.eqb_spec (DB.id_num row) (DB.id_num u)) as [E|_].
    + exfalso. apply Hne.
      rewrite (wf_same_key row u t Hwf Hrow Hin E). reflexivity.
    + apply Hunused. assumption.
Qed.

(** C1 (amended): with a non-empty reset token and a non-empty new
    password, [update_password] raises [ValueError] and leaves the
    table as it was when the token matches no record.  When the token
    matches a record and no other record carries it, the call ends as
    the hashing does: if [bcrypt.hashpw] returns a hash the call
    succeeds and clears the token, so that a second call with the same
    token and any non-empty password raises [ValueError]; if
    [bcrypt.hashpw] raises, the call raises the same error and the
    table, token included, is as it was.  Such is the token
    [get_reset_password_token] issues to a registered user when no
    record carried it before. *)
Theorem update_password_unknown_token_then_replay
  (r p : string) (salt : bytes) (t : table) :
  r <> "" -> p <> "" ->
  ((forall u, In u t -> DB.sql_eq (reset_token u) (PStr r) = false) ->
   Auth.update_password r p salt t = (Raise (ValueError ""), t)) /\
  (wf_table t = true ->
   forall u,
     DB.find_user_by [("reset_token", PStr r)] t = (Ok u, t) ->
     reset_token_only_on r u t ->
     (forall h, hashpw (encode p) salt = Ok h ->
      exists t',
        Auth.update_password r p salt t = (Ok tt, t') /\
        (forall u', In u' t' ->
                    DB.sql_eq (reset_token u') (PStr r) = false) /\
        (forall p' salt', p' <> "" ->
           Auth.update_password r p' salt' t'
           = (Raise (ValueError ""), t'))) /\
     (forall err, hashpw (encode p) salt = Raise err ->
      Auth.update_password r p salt t = (Raise err, t))) /\
  (wf_table t = true ->
   forall e u h,
     DB.find_user_by [("email", PStr e)] t = (Ok u, t) ->
     (forall row, In row t ->
                  DB.sql_eq (reset_token row) (PStr r) = false) ->
     hashpw (encode p) salt = Ok h ->
     exists ta tb,
       Auth.get_reset_password_token e r t = (Ok r, ta) /\
       Auth.update_password r p salt ta = (Ok tt, tb) /\
       (forall p' salt', p' <> "" ->
          Auth.update_password r p' salt' tb = (Raise (ValueError ""), tb))).
Proof.
  intros Hr Hp. split; [apply update_password_miss; assumption|]. split.
  - intros Hwf u Hfind Honly. split.
    + intros h Hhash.
      apply (update_password_consumes_token r p salt h u); assumption.
    + intros err Hhash.
      apply (update_password_hash_raises r p salt u); assumption.
  - intros Hwf e u h Hfind Hunused Hhash.
    apply find_user_by_ok in Hfind; [|reflexivity].
    pose proof (find_some _ _ Hfind) as [Hin _].
    destruct (reset_token_resolves r u t Hwf Hin Hunused) as [Hfinda Honly].
    set (ta := map (touch u [("reset_token", PStr r)]) t) in *.
    assert (Hwfa : wf_table ta = true).
    { unfold ta. rewrite wf_touch; [assumption | cbn; intuition discriminate]. }
    destruct (update_password_consumes_token r p salt h _ ta Hr Hp Hwfa
                Hfinda Honly Hhash) as (tb & Hrun & _ & Hreplay).
    exists ta, tb. split; [|split; assumption].
    rewrite get_reset_password_token_unfold by assumption.
    rewrite Hfind. reflexivity.
Qed.

(** C2: for a registered user, two successive [create_session] calls
    that draw tokens [t1] then [t2] (distinct, held by no record
    before, [t2] not empty) return [t1] then [t2]; afterwards
    [get_user_from_session_id t1] returns [None] and
    [get_user_from_session_id t2] returns the user's record, whose
    [session_id] is now [t2]. The table is any with a sound primary
    key, as every reachable one has ([reachable_wf]). *)
Theorem create_session_twice
  (e t1 t2 : string) (u : User) (t : table) :
  wf_table t = true ->
  DB.find_user_by [("email", PStr e)] t = (Ok u, t) ->
  session_unused t1 t = true -> session_unused t2 t = true ->
  t1 <> t2 -> t2 <> "" ->
  exists ta tb,
    Auth.create_session e t1 t = (Ok (Some t1), ta) /\
    Auth.create_session e t2 ta = (Ok (Some t2), tb) /\
    Auth.get_user_from_session_id t1 tb = (Ok None, tb) /\
    Auth.get_user_from_session_id t2 tb
    = (Ok (Some (mkUser (id u) (email u) (hashed_password u)
                        (PStr t2) (reset_token u))), tb).
Proof.
  intros Hwf Hfind Hun1 Hun2 Hne Hnonempty.
  apply find_user_by_ok in Hfind; [|reflexivity].
  pose proof (find_some _ _ Hfind) as [Hin _].
  pose proof Hun1 as Hun1'. unfold session_unused in Hun1'.
  rewrite forallb_forall in Hun1'.
  set (ta := map (touch u [("session_id", PStr t1)]) t).
  assert (Hwfa : wf_table ta = true).
  { unfold ta. rewrite wf_touch; [assumption | cbn; intuition discriminate]. }
  assert (Hfinda : find (DB.filter_by [("email", PStr e)]) ta
                   = Some (DB.assign u [("session_id", PStr t1)])).
  { unfold ta. rewrite find_map_pointwise.
    - rewrite Hfind. cbn [option_map]. rewrite touch_self. reflexivity.
    - intros r _. rewrite !filter_by_email, touch_email; [reflexivity|].
      cbn; intuition discriminate. }
  exists ta, (map (touch u [("session_id", PStr t2)]) t).
  split; [|split; [|split]].
  - rewrite create_session_unfold by assumption. rewrite Hfind. reflexivity.
  - rewrite create_session_unfold by assumption. rewrite Hfinda.
    unfold ta. rewrite touch_session_twice. reflexivity.
  - rewrite get_user_from_session_id_unfold.
    destruct (str_not t1); [reflexivity|].
    rewrite find_all_false; [reflexivity|].
    intros r' Hr'. apply in_map_iff in Hr'. destruct Hr' as (r & <- & Hr).
    rewrite filter_by_session_id. unfold touch.
    destruct (Z.eqb_spec (DB.id_num r) (DB.id_num u)) as [E|_].
    + cbn. apply String.eqb_neq. congruence.
    + apply negb_true_iff. apply Hun1'. assumption.
  - apply session_resolves; assumption.
Qed.

Lemma Forall2_map_in (R : User -> User -> Prop) (g : User -> User)
  (t : table) :
  (forall r, In r t -> R r (g r)) -> Forall2 R t (map g t).
Proof.
  induction t as [|a t IH]; intros HR; cbn [map]; constructor.
  - apply HR. left. reflexivity.
  - apply IH. intros r Hr. apply HR. right. assumption.
Qed.

(** C6: a successful [update_password], one whose token matched a
    record and whose password [bcrypt.hashpw] hashed to [h], changes
    one record, the one the token matched, and on it only
    [hashed_password] and [reset_token]; every record keeps its [id],
    [email] and [session_id], so a session token that resolved to a
    user before still resolves to the record with the same [id],
    [email] and [session_id]. The table is any with a sound primary
    key, as every reachable one has ([reachable_wf]). *)
Theorem update_password_keeps_session
  (r p : string) (salt h : bytes) (u : User) (t : table) :
  wf_table t = true -> r <> "" -> p <> "" ->
  DB.find_user_by [("reset_token", PStr r)] t = (Ok u, t) ->
  hashpw (encode p) salt = Ok h ->
  exists t',
    Auth.update_password r p salt t = (Ok tt, t') /\
    Forall2 (fun row row' =>
               (row = u /\
                row' = mkUser (id u) (email u) (PBytes h)
                              (session_id u) PNone) \/
               (row <> u /\ row' = row)) t t' /\
    (forall sid v,
       Auth.get_user_from_session_id sid t = (Ok (Some v), t) ->
       exists v',
         Auth.get_user_from_session_id sid t' = (Ok (Some v'), t') /\
         id v' = id v /\ email v' = email v /\
         session_id v' = session_id v).
Proof.
  intros Hwf Hr Hp Hfind Hhash.
  apply find_user_by_ok in Hfind; [|reflexivity].
  pose proof (find_some _ _ Hfind) as [Hin _].
  rewrite update_password_unfold by assumption.
  rewrite (str_not_false r Hr), (str_not_false p Hp), Hfind, Hhash.
  cbn [orb].
  set (kw := [("hashed_password", PBytes h); ("reset_token", PNone)]).
  exists (map (touch u kw) t). split; [reflexivity|]. split.
  - apply Forall2_map_in. intros row Hrow. unfold touch.
    destruct (Z.eqb_spec (DB.id_num row) (DB.id_num u)) as [E|Hne].
    + left. assert (row = u) as -> by (apply (wf_same_key row u t); assumption).
      split; reflexivity.
    + right. split; [|reflexivity]. intros ->. apply Hne. reflexivity.
  - intros sid v. rewrite !get_user_from_session_id_unfold.
    destruct (str_not sid); [discriminate|].
    rewrite find_map_pointwise.
    + destruct (find (DB.filter_by [("session_id", PStr sid)]) t) as [v0|];
        [|discriminate].
      intros E. injection E as ->. exists (touch u kw v). cbn [option_map].
      split; [reflexivity|].
      rewrite touch_id, touch_email, touch_session_id
        by (cbn; intuition discriminate).
      repeat split.
    + intros row _. rewrite !filter_by_session_id, touch_session_id;
        [reflexivity | cbn; intuition discriminate].
Qed.

(** C9: [destroy_session] looks its argument up in the [id] column, so
    in every reachable table a session token, being text that never
    compares equal to an integer key, finds no record and the call
    leaves the table as it was; the logout route, which hands the
    cookie's token to [destroy_session], therefore answers with the
    redirect while the user's [session_id] is still set and
    [get_user_from_session_id] still returns the user. In particular
    this is so for the token [create_session] has just issued to a
    registered user. *)
Theorem log_out_keeps_session (token : string) (t : table) :
  reachable t -> never_an_id token ->
  Auth.destroy_session (PStr token) t = (Ok tt, t) /\
  (forall u,
     Auth.get_user_from_session_id token t = (Ok (Some u), t) ->
     App.log_out (Some token) t = (Ok (App.Redirect "/"), t) /\
     In u (snd (App.log_out (Some token) t)) /\
     DB.sql_eq (session_id u) (PStr token) = true /\
     Auth.get_user_from_session_id token (snd (App.log_out (Some token) t))
     = (Ok (Some u), t)) /\
  (forall e u,
     DB.find_user_by [("email", PStr e)] t = (Ok u, t) ->
     session_unused token t = true -> token <> "" ->
     exists ta,
       Auth.create_session e token t = (Ok (Some token), ta) /\
       App.log_out (Some token) ta = (Ok (App.Redirect "/"), ta) /\
       Auth.get_user_from_session_id token ta
       = (Ok (Some (mkUser (id u) (email u) (hashed_password u)
                           (PStr token) (reset_token u))), ta)).
Proof.
  intros Hreach Htoken. pose proof (reachable_wf t Hreach) as Hwf.
  enough (Hframe : forall t0,
             wf_table t0 = true ->
             Auth.destroy_session (PStr token) t0 = (Ok tt, t0) /\
             (forall u,
                Auth.get_user_from_session_id token t0 = (Ok (Some u), t0) ->
                App.log_out (Some token) t0 = (Ok (App.Redirect "/"), t0) /\
                In u (snd (App.log_out (Some token) t0)) /\
                DB.sql_eq (session_id u) (PStr token) = true /\
                Auth.get_user_from_session_id token
                  (snd (App.log_out (Some token) t0))
                = (Ok (Some u), t0))).
  { destruct (Hframe t Hwf) as [Hd Hr]. split; [assumption|].
    split; [assumption|].
    intros e u Hfind Hunused Hnonempty.
    apply find_user_by_ok in Hfind; [|reflexivity].
    pose proof (find_some _ _ Hfind) as [Hin _].
    set (ta := map (touch u [("session_id", PStr token)]) t).
    assert (Hwfa : wf_table ta = true).
    { unfold ta. rewrite wf_touch; [assumption | cbn; intuition discriminate]. }
    assert (Hres := session_resolves token u t Hwf Hin Hunused Hnonempty).
    fold ta in Hres.
    exists ta. split; [|split].
    - rewrite create_session_unfold by assumption. rewrite Hfind. reflexivity.
    - apply (Hframe ta Hwfa) in Hres. apply Hres.
    - assumption. }
  clear t Hreach Hwf. intros t Hwf.
  assert (Hdestroy : Auth.destroy_session (PStr token) t = (Ok tt, t)).
  { rewrite destroy_session_unfold by (assumption || reflexivity).
    rewrite find_all_false; [reflexivity|].
    intros r Hr. rewrite filter_by_id.
    pose proof (wf_int r t Hwf Hr) as Hint.
    destruct (id r); try discriminate. apply Htoken. }
  split; [assumption|].
  intros u Hget.
  assert (Hout : App.log_out (Some token) t = (Ok (App.Redirect "/"), t)).
  { unfold App.log_out.
    destruct (str_not token) eqn:Hempty.
    - rewrite get_user_from_session_id_unfold, Hempty in Hget. discriminate.
    - unfold bind. rewrite Hget, Hdestroy. reflexivity. }
  rewrite Hout. cbn [snd]. split; [reflexivity|].
  rewrite get_user_from_session_id_unfold in Hget.
  destruct (str_not token) eqn:Hempty; [discriminate|].
  destruct (find _ t) as [u0|] eqn:Efind; [|discriminate].
  injection Hget as ->.
  destruct (find_some _ _ Efind) as [Hin Hq].
  rewrite filter_by_session_id in Hq.
  split; [assumption|]. split; [assumption|].
  rewrite get_user_from_session_id_unfold, Hempty, Efind. reflexivity.
Qed.

End EngineClaims.

(** * The hasher *)

(** Whether a password verifies against a blob is the answer of the
    bcrypt package alone: the sources pass the two values on and end
    as the package does, so implementations of the interface can accept
    every pair, reject every pair, or raise on every pair. *)
Lemma is_valid_is_what_bcrypt_answers :
  (forall (B : Bcrypt) salt p h,
     EncryptPassword.hash_password salt p = Ok h ->
     EncryptPassword.is_valid h p = checkpw (encode p) (PBytes h)) /\
  (exists B : Bcrypt, forall salt p q,
     EncryptPassword.hash_password salt p = Ok salt /\
     EncryptPassword.is_valid salt q = Ok true) /\
  (exists B : Bcrypt, forall salt p q,
     EncryptPassword.hash_password salt p = Ok salt /\
     EncryptPassword.is_valid salt q = Ok false) /\
  (exists B : Bcrypt, forall salt p q h,
     EncryptPassword.hash_password salt p = Raise (ValueError "") /\
     EncryptPassword.is_valid h q = Raise (ValueError "")).
Proof.
  split; [reflexivity|]. split; [|split].
  - exists {| hashpw := fun _ salt => Ok salt;
              checkpw := fun _ _ => Ok true |}.
    split; reflexivity.
  - exists {| hashpw := fun _ salt => Ok salt;
              checkpw := fun _ _ => Ok false |}.
    split; reflexivity.
  - exists {| hashpw := fun _ _ => Raise (ValueError "");
              checkpw := fun _ _ => Raise (ValueError "") |}.
    split; reflexivity.
Qed.

(** * More on the store *)

Section StoreLookup.
Context `{StorageEngine}.

Lemma find_ext_in (p q : User -> bool) (t : table) :
  (forall r, In r t -> p r = q r) -> find p t = find q t.
Proof.
  induction t as [|a t IH]; intros Hpq; [reflexivity|].
  cbn [find]. rewrite (Hpq a) by (left; reflexivity).
  rewrite IH; [reflexivity|]. intros r Hr. apply Hpq. right. assumption.
Qed.

Lemma find_app_one (p : User -> bool) (t : table) (x : User) :
  find p (t ++ [x]) =
  match find p t with
  | Some u => Some u
  | None => if p x then Some x else None
  end.
Proof.
  induction t as [|a t IH]; cbn [app find]; [reflexivity|].
  destruct (p a); [reflexivity | assumption].
Qed.

(** The first hit, said on the rows: it matches, and no row before it
    does. *)
Lemma find_first_iff (p : User -> bool) (u : User) (t : table) :
  find p t = Some u <->
  exists pre post,
    t = (pre ++ u :: post)%list /\ p u = true /\
    forall r, In r pre -> p r = false.
Proof.
  split.
  - induction t as [|a t IH]; cbn [find]; [discriminate|].
    destruct (p a) eqn:E; intros Hf.
    + injection Hf as ->. exists [], t. repeat split; [assumption|].
      intros r [].
    + destruct (IH Hf) as (pre & post & -> & Hu & Hpre).
      exists (a :: pre), post. repeat split; [assumption|].
      intros r [<-|Hr]; [assumption | apply Hpre; assumption].
  - intros (pre & post & -> & Hu & Hpre).
    induction pre as [|a pre IH]; cbn [app find].
    + rewrite Hu. reflexivity.
    + rewrite (Hpre a) by (left; reflexivity).
      apply IH. intros r Hr. apply Hpre. right. assumption.
Qed.

Lemma find_none_iff (p : User -> bool) (t : table) :
  find p t = None <-> forall r, In r t -> p r = false.
Proof.
  split.
  - intros E r Hr. apply (find_none _ _ E). assumption.
  - apply find_all_false.
Qed.

Lemma first_row_cases (kw : kwargs) (t : table) :
  DB.find_user_by kw t =
  match kw with
  | [] => (Raise InvalidRequestError, t)
  | _ :: _ =>
      if existsb (fun kv => negb (is_column (fst kv))) kw
      then (Raise InvalidRequestError, t)
      else if existsb (fun kv => negb (bindable (snd kv))) kw
      then (Raise OverflowError, t)
      else match find (DB.filter_by kw) t with
           | None => (Raise NoResultFound, t)
           | Some user => (Ok user, t)
           end
  end.
Proof. reflexivity. Qed.

(** The binding check of [find_user_by], read as a statement on the
    values. *)
Lemma unbindable_iff (kw : kwargs) :
  existsb (fun kv => negb (bindable (snd kv))) kw = true <->
  exists v, In v (map snd kw) /\ bindable v = false.
Proof.
  rewrite existsb_exists. split.
  - intros ([k v] & Hin & Hv). exists v. split.
    + apply in_map_iff. exists (k, v). split; [reflexivity | assumption].
    + apply negb_true_iff in Hv. assumption.
  - intros (v & Hin & Hv). apply in_map_iff in Hin.
    destruct Hin as ([k v'] & E & Hin). cbn in E. subst v'.
    exists (k, v). split; [assumption|].
    cbn [snd]. rewrite Hv. reflexivity.
Qed.

Lemma all_bindable (kw : kwargs) :
  existsb (fun kv => negb (bindable (snd kv))) kw = false ->
  forall v, In v (map snd kw) -> bindable v = true.
Proof.
  intros E v Hin. destruct (bindable v) eqn:Hv; [reflexivity|].
  assert (X : existsb (fun kv => negb (bindable (snd kv))) kw = true)
    by (apply unbindable_iff; exists v; split; assumption).
  rewrite X in E. discriminate.
Qed.

(** A row satisfies no criterion on a value that cannot be bound. *)
Lemma filter_by_bindable (kw : kwargs) (r : User) :
  DB.filter_by kw r = true ->
  existsb (fun kv => negb (bindable (snd kv))) kw = false.
Proof.
  unfold DB.filter_by. induction kw as [|kv kw IH]; [reflexivity|].
  cbn [forallb existsb]. rewrite andb_true_iff. intros [Hkv Hkw].
  rewrite (IH Hkw), orb_false_r. apply negb_false_iff.
  destruct (getattr r (fst kv)); [|discriminate].
  apply (sql_eq_bindable _ _ Hkv).
Qed.

(** X1. [find_user_by] never changes the table and always returns or
    raises. It raises [InvalidRequestError] exactly when there is no
    criterion or some key is not a column, whatever the table holds;
    otherwise it raises [OverflowError] exactly when some value cannot
    be bound, an integer outside 64 bits; otherwise it raises
    [NoResultFound] exactly when no row satisfies the criteria; and it
    returns [u] exactly when [u] is the earliest row that satisfies
    them all. *)
Theorem find_user_by_outcomes (kw : kwargs) (t : table) :
  snd (DB.find_user_by kw t) = t /\
  fst (DB.find_user_by kw t) <> Unmodelled /\
  (fst (DB.find_user_by kw t) = Raise InvalidRequestError <->
   kw = [] \/ exists k, In k (map fst kw) /\ is_column k = false) /\
  (fst (DB.find_user_by kw t) = Raise OverflowError <->
   kw <> [] /\ (forall k, In k (map fst kw) -> is_column k = true) /\
   exists v, In v (map snd kw) /\ bindable v = false) /\
  (fst (DB.find_user_by kw t) = Raise NoResultFound <->
   kw <> [] /\ (forall k, In k (map fst kw) -> is_column k = true) /\
   (forall v, In v (map snd kw) -> bindable v = true) /\
   forall r, In r t -> DB.filter_by kw r = false) /\
  (forall u,
     fst (DB.find_user_by kw t) = Ok u <->
     kw <> [] /\ (forall k, In k (map fst kw) -> is_column k = true) /\
     exists pre post,
       t = (pre ++ u :: post)%list /\ DB.filter_by kw u = true /\
       forall r, In r pre -> DB.filter_by kw r = false).
Proof.
  split; [apply find_user_by_table|].
  rewrite first_row_cases.
  destruct kw as [|kv kw'].
  { cbn [fst]. split; [discriminate|]. split; [|split; [|split]].
    - split; [intros _; left; reflexivity | reflexivity].
    - split; [discriminate | intros [Hne _]; congruence].
    - split; [discriminate | intros [Hne _]; congruence].
    - intros u. split; [discriminate | intros [Hne _]; congruence]. }
  set (kw := kv :: kw') in *.
  assert (Hne : kw <> []) by discriminate.
  destruct (existsb (fun kv => negb (is_column (fst kv))) kw) eqn:Ekeys.
  - assert (Hbad := proj1 (unknown_key_iff kw) Ekeys).
    assert (Hnot : ~ (forall k, In k (map fst kw) -> is_column k = true)).
    { intros Hall. destruct Hbad as (k & Hk & Hcol).
      rewrite (Hall k Hk) in Hcol. discriminate. }
    cbn [fst]. split; [discriminate|]. split; [|split; [|split]].
    + split; [intros _; right; assumption | reflexivity].
    + split; [discriminate | intros (_ & Hall & _); contradiction].
    + split; [discriminate | intros (_ & Hall & _); contradiction].
    + intros u. split; [discriminate | intros (_ & Hall & _); contradiction].
  - assert (Hall := all_keys_known kw Ekeys).
    assert (Hgood : ~ (kw = [] \/
                       exists k, In k (map fst kw) /\ is_column k = false)).
    { intros [E|(k & Hk & Hcol)]; [congruence|].
      rewrite (Hall k Hk) in Hcol. discriminate. }
    destruct (existsb (fun kv => negb (bindable (snd kv))) kw) eqn:Ebind.
    { assert (Hunb := proj1 (unbindable_iff kw) Ebind).
      cbn [fst]. split; [discriminate|]. split; [|split; [|split]].
      - split; [discriminate | intros X; contradiction].
      - split; [|reflexivity]. intros _. split; [assumption|].
        split; assumption.
      - split; [discriminate|]. intros (_ & _ & Hb & _).
        destruct Hunb as (v & Hv & Hvb). rewrite (Hb v Hv) in Hvb.
        discriminate.
      - intros u. split; [discriminate|].
        intros (_ & _ & pre & post & _ & Hu & _).
        rewrite (filter_by_bindable kw u Hu) in Ebind. discriminate. }
    assert (Hbound := all_bindable kw Ebind).
    assert (Hnov : ~ exists v, In v (map snd kw) /\ bindable v = false).
    { intros (v & Hv & Hvb). rewrite (Hbound v Hv) in Hvb. discriminate. }
    destruct (find (DB.filter_by kw) t) as [u0|] eqn:Efind; cbn [fst].
    + split; [discriminate|]. split; [|split; [|split]].
      * split; [discriminate | intros X; contradiction].
      * split; [discriminate | intros (_ & _ & X); contradiction].
      * split; [discriminate|]. intros (_ & _ & _ & Hnone).
        rewrite (proj2 (find_none_iff _ t) Hnone) in Efind. discriminate.
      * intros u. split.
        -- intros E. injection E as <-. split; [assumption|].
           split; [assumption|]. apply find_first_iff. assumption.
        -- intros (_ & _ & Hfirst). apply find_first_iff in Hfirst.
           rewrite Hfirst in Efind. injection Efind as ->. reflexivity.
    + split; [discriminate|]. split; [|split; [|split]].
      * split; [discriminate | intros X; contradiction].
      * split; [discriminate | intros (_ & _ & X); contradiction].
      * split; [|reflexivity]. intros _. split; [assumption|].
        split; [assumption|]. split; [assumption|].
        apply find_none_iff. assumption.
      * intros u. split; [discriminate|]. intros (_ & _ & Hfirst).
        apply find_first_iff in Hfirst. rewrite Hfirst in Efind.
        discriminate.
Qed.

Lemma existsb_perm {A} (f : A -> bool) (l l' : list A) :
  Permutation l l' -> existsb f l = existsb f l'.
Proof.
  induction 1 as [|x l l' _ IH|x y l|l l' l'' _ IH1 _ IH2]; cbn [existsb].
  - reflexivity.
  - rewrite IH. reflexivity.
  - destruct (f x), (f y); reflexivity.
  - congruence.
Qed.

Lemma forallb_perm {A} (f : A -> bool) (l l' : list A) :
  Permutation l l' -> forallb f l = forallb f l'.
Proof.
  induction 1 as [|x l l' _ IH|x y l|l l' l'' _ IH1 _ IH2]; cbn [forallb].
  - reflexivity.
  - rewrite IH. reflexivity.
  - destruct (f x), (f y); reflexivity.
  - congruence.
Qed.

(** X2. The criteria of [find_user_by] form a conjunction: the order
    in which they are written changes neither the outcome nor the
    table. *)
Theorem find_user_by_order_irrelevant (kw kw' : kwargs) (t : table) :
  Permutation kw kw' ->
  DB.find_user_by kw t = DB.find_user_by kw' t.
Proof.
  intros Hperm. rewrite !first_row_cases.
  destruct kw as [|kv kw0], kw' as [|kv' kw0'].
  - reflexivity.
  - apply Permutation_nil in Hperm. discriminate.
  - apply Permutation_sym, Permutation_nil in Hperm. discriminate.
  - rewrite (existsb_perm (fun kv => negb (is_column (fst kv))) _ _ Hperm).
    destruct (existsb _ (kv' :: kw0')); [reflexivity|].
    rewrite (existsb_perm (fun kv => negb (bindable (snd kv))) _ _ Hperm).
    destruct (existsb _ (kv' :: kw0')); [reflexivity|].
    rewrite (find_ext_in (DB.filter_by (kv :: kw0))
               (DB.filter_by (kv' :: kw0')) t); [reflexivity|].
    intros r _. unfold DB.filter_by. apply forallb_perm. assumption.
Qed.

Lemma setattr_comm (u : User) (k1 k2 : string) (v1 v2 : pyval) :
  k1 <> k2 ->
  setattr (setattr u k1 v1) k2 v2 = setattr (setattr u k2 v2) k1 v1.
Proof.
  intros Hne. unfold setattr.
  repeat match goal with
         | |- context [String.eqb k1 ?c] =>
             destruct (String.eqb_spec k1 c); [subst k1|]
         end;
    repeat match goal with
           | |- context [String.eqb k2 ?c] =>
               destruct (String.eqb_spec k2 c); [subst k2|]
           end;
    try reflexivity; try congruence.
Qed.

Lemma assign_cons (u : User) (kv : string * pyval) (kw : kwargs) :
  DB.assign u (kv :: kw) = DB.assign (setattr u (fst kv) (snd kv)) kw.
Proof. reflexivity. Qed.

Lemma assign_perm (kw kw' : kwargs) :
  Permutation kw kw' -> NoDup (map fst kw) ->
  forall u, DB.assign u kw = DB.assign u kw'.
Proof.
  induction 1 as [|x l l' Hp IH|x y l|l l' l'' Hp1 IH1 Hp2 IH2];
    intros Hnd u.
  - reflexivity.
  - rewrite !assign_cons. apply IH. cbn [map] in Hnd.
    inversion Hnd. assumption.
  - rewrite !assign_cons. f_equal. apply setattr_comm.
    cbn [map] in Hnd. inversion Hnd as [|? ? Hnotin _]; subst.
    intros E. apply Hnotin. left. symmetry. assumption.
  - rewrite IH1 by assumption. apply IH2.
    apply (Permutation_NoDup (Permutation_map fst Hp1)). assumption.
Qed.

(** X3. When the fields given to [update_user] have distinct keys, as
    keyword arguments do, the order in which they are written changes
    neither the outcome nor the resulting table. *)
Theorem update_user_order_irrelevant
  (uid : pyval) (kw kw' : kwargs) (t : table) :
  Permutation kw kw' -> NoDup (map fst kw) ->
  DB.update_user uid kw t = DB.update_user uid kw' t.
Proof.
  intros Hperm Hnd. rewrite !update_user_unfold.
  destruct (bindable uid); [|reflexivity].
  destruct (DB.first _ t) as [u|]; [|reflexivity].
  rewrite (existsb_perm _ _ _ Hperm).
  destruct (existsb _ kw'); [reflexivity|].
  rewrite (forallb_perm _ _ _ Hperm).
  destruct (forallb _ kw'); [|reflexivity].
  rewrite (assign_perm kw kw' Hperm Hnd u). reflexivity.
Qed.

End StoreLookup.

Section StoreInsert.
Context `{StorageEngine}.

(** X4. On a table with a sound primary key that has a key [n] to
    give (the keys in use stay below the largest 64-bit integer),
    [add_user] with an email that is text or bytes and that no row has,
    and a hash that is text or bytes, appends one row, with the email
    and hash given and no token, under the key [n], which no row had;
    the key stays sound, the new row is the one its id finds, and
    every lookup that found a row before finds the same row after. *)
Theorem add_user_then_lookup (e h : pyval) (n : Z) (t : table) :
  wf_table t = true -> DB.next_id t = Some n ->
  text_or_bytes e = true -> text_or_bytes h = true ->
  (forall r, In r t -> DB.sql_eq (email r) e = false) ->
  exists user,
    DB.add_user e h t = (Ok user, (t ++ [user])%list) /\
    id user = PInt n /\
    email user = e /\ hashed_password user = h /\
    session_id user = PNone /\ reset_token user = PNone /\
    (forall r, In r t -> id r <> id user) /\
    wf_table (t ++ [user])%list = true /\
    DB.find_user_by [("id", id user)] (t ++ [user])%list
    = (Ok user, (t ++ [user])%list) /\
    (forall kw u,
       DB.find_user_by kw t = (Ok u, t) ->
       DB.find_user_by kw (t ++ [user])%list = (Ok u, (t ++ [user])%list)).
Proof.
  intros Hwf Hn He Hh Hfree.
  set (user := mkUser (PInt n) e h PNone PNone).
  assert (Hwf' : wf_table (t ++ [user])%list = true)
    by (apply wf_snoc; assumption).
  destruct (next_id_fresh t n Hn) as [Hint Hlt].
  exists user. split; [|repeat split; try assumption].
  - unfold DB.add_user. rewrite Hn, He, Hh.
    assert (X : existsb (DB.filter_by [("email", e)]) t = false).
    { apply existsb_find_none. apply find_all_false.
      intros r Hr. rewrite filter_by_email. apply Hfree. assumption. }
    rewrite X. reflexivity.
  - intros r Hr E. specialize (Hlt r Hr).
    unfold DB.id_num in Hlt. rewrite E in Hlt. cbn in Hlt. lia.
  - rewrite find_user_by_one by (reflexivity || exact Hint).
    unfold DB.first.
    rewrite (find_by_id_wf user (t ++ [user])%list Hwf'); [reflexivity|].
    apply in_or_app. right. left. reflexivity.
  - intros kw u. rewrite !first_row_cases.
    destruct kw as [|kv kw]; [discriminate|].
    destruct (existsb _ (kv :: kw)); [discriminate|].
    destruct (existsb _ (kv :: kw)); [discriminate|].
    rewrite find_app_one.
    destruct (find _ t); [|discriminate].
    intros E. injection E as ->. reflexivity.
Qed.

End StoreInsert.

(** * What a call of the engine can do to the table *)

Section EngineEffects.
Context `{StorageEngine} `{Bcrypt}.

Lemma run_effect (c : call) (t : table) :
  wf_table t = true -> effect t (run c t).
Proof.
  intros Hwf. destruct c; cbn [run].
  - rewrite register_user_unfold.
    destruct (find _ t) eqn:E; [apply effect_none|].
    destruct (hashpw _ _) as [h| |]; [|apply effect_none ..].
    rewrite (add_user_fresh _ h t E).
    destruct (DB.next_id t) as [n|] eqn:Hn; [|apply effect_none].
    cbn [snd]. apply effect_insert; assumption.
  - rewrite valid_login_unfold. destruct (find _ t); apply effect_none.
  - rewrite create_session_unfold by assumption.
    destruct (find _ t) eqn:E; [|apply effect_none].
    cbn [snd]. apply effect_write; [apply (find_some _ _ E) | reflexivity].
  - rewrite get_user_from_session_id_unfold.
    destruct (str_not _); [apply effect_none|].
    destruct (find _ t); apply effect_none.
  - destruct (bindable user_id) eqn:Hb.
    + rewrite destroy_session_unfold by assumption.
      destruct (find _ t) eqn:E; [|apply effect_none].
      cbn [snd]. apply effect_write; [apply (find_some _ _ E) | reflexivity].
    + rewrite destroy_session_overflow by assumption. apply effect_none.
  - rewrite get_reset_password_token_unfold by assumption.
    destruct (find _ t) eqn:E; [|apply effect_none].
    cbn [snd]. apply effect_write; [apply (find_some _ _ E) | reflexivity].
  - rewrite update_password_unfold by assumption.
    destruct (_ || _); [apply effect_none|].
    destruct (find _ t) eqn:E; [|apply effect_none].
    destruct (hashpw _ _) as [h| |]; [|apply effect_none ..].
    cbn [snd]. apply effect_write; [apply (find_some _ _ E) | reflexivity].
Qed.

Lemma engine_field_key (kv : string * pyval) :
  engine_field kv = true ->
  fst kv = "session_id" \/ fst kv = "reset_token" \/
  fst kv = "hashed_password".
Proof.
  unfold engine_field.
  rewrite !orb_true_iff, !andb_true_iff, !orb_true_iff, !String.eqb_eq.
  tauto.
Qed.

Lemma engine_fields_keep (kw : kwargs) (k : string) :
  forallb engine_field kw = true ->
  k <> "session_id" -> k <> "reset_token" -> k <> "hashed_password" ->
  ~ In k (map fst kw).
Proof.
  intros Hall H1 H2 H3 Hin. rewrite forallb_forall in Hall.
  apply in_map_iff in Hin. destruct Hin as (kv & <- & Hkv).
  destruct (engine_field_key kv (Hall kv Hkv)) as [E|[E|E]]; congruence.
Qed.

Lemma setattr_typed (u : User) (kv : string * pyval) :
  engine_field kv = true -> row_typed u = true ->
  row_typed (setattr u (fst kv) (snd kv)) = true.
Proof.
  destruct kv as [k v]. unfold engine_field, row_typed. cbn [fst snd].
  rewrite !orb_true_iff, !andb_true_iff, !orb_true_iff, !String.eqb_eq.
  intros [[[-> | ->] Hv] | [-> Hv]] ((((Hi & He) & Hh) & Hs) & Hr);
    cbn; repeat split; assumption.
Qed.

Lemma assign_typed (kw : kwargs) (u : User) :
  forallb engine_field kw = true -> row_typed u = true ->
  row_typed (DB.assign u kw) = true.
Proof.
  revert u. induction kw as [|kv kw IH]; intros u Hall Hu; [assumption|].
  cbn [forallb] in Hall. apply andb_true_iff in Hall.
  destruct Hall as [Hkv Hall].
  rewrite assign_cons. apply IH; [assumption|].
  apply setattr_typed; assumption.
Qed.

Lemma effect_ids (t t' : table) :
  effect t t' ->
  map id t' = map id t \/
  exists user n,
    t' = (t ++ [user])%list /\ id user = PInt n /\ DB.next_id t = Some n.
Proof.
  intros [|u kw Hin Hkw|e h n Hnone Hn].
  - left. reflexivity.
  - left. rewrite map_map. apply map_ext. intros r. apply touch_id.
    apply engine_fields_keep; [assumption | discriminate ..].
  - right. eexists. exists n. repeat split. assumption.
Qed.

Lemma effect_emails (t t' : table) :
  effect t t' ->
  map email t' = map email t \/
  exists user e,
    t' = (t ++ [user])%list /\ email user = PStr e /\
    hashed_password user <> PNone /\
    session_id user = PNone /\ reset_token user = PNone /\
    forall r, In r t -> email r <> PStr e.
Proof.
  intros [|u kw Hin Hkw|e h n Hnone Hn].
  - left. reflexivity.
  - left. rewrite map_map. apply map_ext. intros r. apply touch_email.
    apply engine_fields_keep; [assumption | discriminate ..].
  - right. eexists. exists e. repeat split; [discriminate|].
    intros r Hr E. pose proof (find_none _ _ Hnone r Hr) as Hq.
    rewrite filter_by_email, E in Hq. cbn in Hq.
    rewrite String.eqb_refl in Hq. discriminate.
Qed.

Lemma effect_typed (t t' : table) :
  effect t t' ->
  forallb row_typed t = true -> forallb row_typed t' = true.
Proof.
  intros [|u kw Hin Hkw|e h n Hnone Hn] Ht.
  - assumption.
  - rewrite forallb_forall in Ht. rewrite forallb_forall. intros r' Hr'.
    apply in_map_iff in Hr'. destruct Hr' as (r & <- & Hr).
    unfold touch. destruct (_ =? _)%Z; [|apply Ht; assumption].
    apply assign_typed; [assumption | apply Ht; assumption].
  - rewrite forallb_app, Ht. reflexivity.
Qed.

(** X5. In every table the engine can reach, each row has an integer
    id, a text email, a hash blob and tokens that are text or unset,
    and no two rows have the same email. *)
Theorem reachable_typed_unique_emails (t : table) :
  reachable t ->
  forallb row_typed t = true /\ NoDup (map email t).
Proof.
  induction 1 as [|c t Hreach [IHt IHe]]; [split; [reflexivity|constructor]|].
  pose proof (run_effect c t (reachable_wf t Hreach)) as Heff. split.
  - apply (effect_typed t _ Heff IHt).
  - destruct (effect_emails t _ Heff)
      as [E|(user & e & E & He & _ & _ & _ & Hfresh)].
    + rewrite E. assumption.
    + rewrite E, map_app. cbn [map]. rewrite He.
      apply (Permutation_NoDup (l := PStr e :: map email t)).
      * apply Permutation_cons_append.
      * constructor; [|assumption].
        intros Hin. apply in_map_iff in Hin.
        destruct Hin as (r & Hr & Hrt). apply (Hfresh r Hrt Hr).
Qed.

Lemma max_snoc (l : list Z) (x : Z) :
  (0 <= x)%Z ->
  fold_right Z.max 0%Z (l ++ [x]) = Z.max (fold_right Z.max 0%Z l) x.
Proof.
  intros Hx. induction l as [|a l IH]; cbn [app fold_right]; [lia|].
  rewrite IH. lia.
Qed.

Lemma max_keys_upto (n : nat) :
  fold_right Z.max 0%Z (map Z.of_nat (seq 1 n)) = Z.of_nat n.
Proof.
  induction n as [|n IH]; [reflexivity|].
  rewrite seq_S, map_app. cbn [map]. rewrite max_snoc by lia.
  rewrite IH. lia.
Qed.

Lemma fold_max_from (d : Z) (l : list Z) :
  (0 <= d)%Z ->
  fold_right Z.max d l = Z.max d (fold_right Z.max 0%Z l).
Proof.
  intros Hd. induction l as [|a l IH]; cbn [fold_right]; [lia|].
  rewrite IH. lia.
Qed.

Lemma largest_keys_upto (n : nat) :
  DB.largest (map Z.of_nat (seq 1 (S n))) = Z.of_nat (S n).
Proof.
  unfold DB.largest. rewrite fold_max_from.
  - rewrite max_keys_upto. cbn [seq map hd]. lia.
  - cbn [seq map hd]. lia.
Qed.

(** On keys [1 .. n] the next key, if there is one, is [n + 1]. *)
Lemma next_id_keys_upto (t : table) (n : Z) :
  map id t = keys_upto (List.length t) ->
  DB.next_id t = Some n -> n = Z.of_nat (S (List.length t)).
Proof.
  intros Hids. unfold DB.next_id.
  assert (E : map DB.id_num t = map Z.of_nat (seq 1 (List.length t))).
  { change (map DB.id_num t)
      with (map (fun u => match id u with PInt n => n | _ => 0%Z end) t).
    rewrite <- (map_map id (fun v => match v with PInt n => n | _ => 0%Z end)).
    rewrite Hids. unfold keys_upto. rewrite map_map. reflexivity. }
  destruct (forallb _ t); [|discriminate].
  destruct t as [|r t]; [intros X; injection X as <-; reflexivity|].
  rewrite E. cbn [List.length]. rewrite largest_keys_upto.
  destruct (_ <? _)%Z; [|discriminate].
  intros X. injection X as <-. lia.
Qed.

(** X6. In every table the engine can reach the ids are [1, 2, ..., n]
    in the order of the rows: the k-th user registered has id k, and no
    id is ever changed or reused. *)
Theorem reachable_ids_in_sequence (t : table) :
  reachable t -> map id t = keys_upto (List.length t).
Proof.
  induction 1 as [|c t Hreach IH]; [reflexivity|].
  destruct (effect_ids t _ (run_effect c t (reachable_wf t Hreach)))
    as [E|(user & n & E & Hid & Hn)].
  - rewrite E, IH. f_equal.
    rewrite <- (length_map id (run c t)), E, length_map. reflexivity.
  - rewrite E, map_app, length_app, IH. cbn [map length].
    rewrite Hid, (next_id_keys_upto t n IH Hn).
    rewrite Nat.add_1_r. unfold keys_upto. rewrite seq_S, map_app.
    reflexivity.
Qed.

(** X7. A call of the engine on a reachable table either keeps every
    row's id and email, row by row, or it is a registration for an
    email no row had and appends one row for it, with no session and
    no reset token; no call removes or reorders rows. *)
Theorem run_keeps_rows (c : call) (t : table) :
  reachable t ->
  (map id (run c t) = map id t /\ map email (run c t) = map email t) \/
  (exists e p salt user,
     c = RegisterUser e p salt /\
     run c t = (t ++ [user])%list /\
     email user = PStr e /\
     session_id user = PNone /\ reset_token user = PNone /\
     forall r, In r t -> email r <> PStr e).
Proof.
  intros Hreach. pose proof (reachable_wf t Hreach) as Hwf.
  assert (Hwrite : forall u kw,
             forallb engine_field kw = true ->
             map id (map (touch u kw) t) = map id t /\
             map email (map (touch u kw) t) = map email t).
  { intros u kw Hkw. split; rewrite map_map; apply map_ext; intros r.
    - apply touch_id.
      apply engine_fields_keep; [assumption | discriminate ..].
    - apply touch_email.
      apply engine_fields_keep; [assumption | discriminate ..]. }
  destruct c; cbn [run].
  - rewrite register_user_unfold.
    destruct (find _ t) eqn:E; [left; split; reflexivity|].
    destruct (hashpw _ _) as [h| |]; [|left; split; reflexivity ..].
    rewrite (add_user_fresh _ h t E).
    destruct (DB.next_id t) as [n|]; [|left; split; reflexivity].
    right. exists email0, password, salt. eexists.
    cbn [snd]. repeat split.
    intros r Hr Er. pose proof (find_none _ _ E r Hr) as Hq.
    rewrite filter_by_email, Er in Hq. cbn in Hq.
    rewrite String.eqb_refl in Hq. discriminate.
  - left. rewrite valid_login_unfold. destruct (find _ t); split; reflexivity.
  - left. rewrite create_session_unfold by assumption.
    destruct (find _ t); [|split; reflexivity].
    apply Hwrite. reflexivity.
  - left. rewrite get_user_from_session_id_unfold.
    destruct (str_not _); [split; reflexivity|].
    destruct (find _ t); split; reflexivity.
  - left. destruct (bindable user_id) eqn:Hb.
    + rewrite destroy_session_unfold by assumption.
      destruct (find _ t); [|split; reflexivity].
      apply Hwrite. reflexivity.
    + rewrite destroy_session_overflow by assumption. split; reflexivity.
  - left. rewrite get_reset_password_token_unfold by assumption.
    destruct (find _ t); [|split; reflexivity].
    apply Hwrite. reflexivity.
  - left. rewrite update_password_unfold by assumption.
    destruct (_ || _); [split; reflexivity|].
    destruct (find _ t); [|split; reflexivity].
    destruct (hashpw _ _) as [h| |]; [|split; reflexivity ..].
    apply Hwrite. reflexivity.
Qed.

End EngineEffects.

(** * The engine's calls, one after another *)

Section EngineSequences.
Context `{StorageEngine} `{Bcrypt}.

Lemma touch_hashed_password (u : User) (kw : kwargs) (r : User) :
  ~ In "hashed_password" (map fst kw) ->
  hashed_password (touch u kw r) = hashed_password r.
Proof.
  intros Hk. unfold touch. destruct (_ =? _)%Z; [|reflexivity].
  pose proof (assign_frame kw r "hashed_password" Hk) as E. cbn in E.
  injection E as E. assumption.
Qed.

(** On a sound table, a write on the row of [u] changes that row and
    no other. *)
Lemma touch_rows (u u' : User) (kw : kwargs) (t : table) :
  wf_table t = true -> In u t -> DB.assign u kw = u' ->
  Forall2 (fun row row' => (row = u /\ row' = u') \/ (row <> u /\ row' = row))
          t (map (touch u kw) t).
Proof.
  intros Hwf Hin Hu'. apply Forall2_map_in. intros row Hrow. unfold touch.
  destruct (Z.eqb_spec (DB.id_num row) (DB.id_num u)) as [E|Hne].
  - left. assert (row = u) as -> by (apply (wf_same_key row u t); assumption).
    split; [reflexivity | assumption].
  - right. split; [|reflexivity]. intros ->. apply Hne. reflexivity.
Qed.

(** A write that leaves emails and hashes alone leaves every login as
    it was. *)
Lemma valid_login_after_touch
  (u : User) (kw : kwargs) (e q : string) (t : table) :
  ~ In "email" (map fst kw) -> ~ In "hashed_password" (map fst kw) ->
  Auth.valid_login e q (map (touch u kw) t)
  = (fst (Auth.valid_login e q t), map (touch u kw) t).
Proof.
  intros Hemail Hhash. rewrite !valid_login_unfold.
  rewrite find_map_pointwise.
  - destruct (find _ t) as [v|]; cbn [option_map fst]; [|reflexivity].
    rewrite touch_hashed_password by assumption. reflexivity.
  - intros r _. rewrite !filter_by_email, touch_email by assumption.
    reflexivity.
Qed.

Lemma session_after_touch
  (u : User) (kw : kwargs) (sid : string) (t : table) :
  ~ In "session_id" (map fst kw) ->
  Auth.get_user_from_session_id sid (map (touch u kw) t)
  = (match fst (Auth.get_user_from_session_id sid t) with
     | Ok (Some v) => Ok (Some (touch u kw v))
     | other => other
     end, map (touch u kw) t).
Proof.
  intros Hk. rewrite !get_user_from_session_id_unfold.
  destruct (str_not sid); [reflexivity|].
  rewrite find_map_pointwise.
  - destruct (find _ t); reflexivity.
  - intros r _. rewrite !filter_by_session_id, touch_session_id by assumption.
    reflexivity.
Qed.

(** X8. After [register_user] has created the record for an email no
    row had, [bcrypt.hashpw] having returned the hash [h] and the
    table having a key to give, [valid_login] with that email ends as
    [bcrypt.checkpw] does on the password tried and [h], and
    registering the email again is refused. *)
Theorem register_then_valid_login
  (e p q : string) (salt h : bytes) (n : Z) (t : table) :
  (forall u, In u t -> DB.sql_eq (email u) (PStr e) = false) ->
  hashpw (encode p) salt = Ok h -> DB.next_id t = Some n ->
  exists user t',
    Auth.register_user e p salt t = (Ok user, t') /\
    Auth.valid_login e q t' = (checkpw (encode q) (PBytes h), t') /\
    (forall p' salt',
       Auth.register_user e p' salt' t'
       = (Raise (ValueError ("User " ++ e ++ " already exists")), t')).
Proof.
  intros Hnone Hhash Hn.
  assert (Efind : find (DB.filter_by [("email", PStr e)]) t = None).
  { apply find_all_false. intros r Hr. rewrite filter_by_email.
    apply Hnone. assumption. }
  set (user := mkUser (PInt n) (PStr e) (PBytes h) PNone PNone).
  assert (Efind' : find (DB.filter_by [("email", PStr e)]) (t ++ [user])%list
                   = Some user).
  { rewrite find_app_one, Efind, filter_by_email. cbn.
    rewrite String.eqb_refl. reflexivity. }
  exists user, (t ++ [user])%list. split; [|split].
  - rewrite register_user_unfold, Efind, Hhash.
    rewrite (add_user_fresh e h t Efind), Hn. reflexivity.
  - rewrite valid_login_unfold, Efind'. reflexivity.
  - intros p' salt'. rewrite register_user_unfold, Efind'. reflexivity.
Qed.

(** X9. [destroy_session] with the id of the user a token resolves to
    clears that user's [session_id] and nothing else, after which the
    token resolves to nobody (no other row carrying it); with a 64-bit
    integer no row has as id it changes nothing, and with an integer
    outside 64 bits it raises [OverflowError], which the driver raises
    in the lookup and [except NoResultFound] does not catch. *)
Theorem destroy_session_ends_session
  (token : string) (u : User) (t : table) :
  wf_table t = true ->
  (Auth.get_user_from_session_id token t = (Ok (Some u), t) ->
   (forall r, In r t -> r <> u ->
              DB.sql_eq (session_id r) (PStr token) = false) ->
   exists t',
     Auth.destroy_session (id u) t = (Ok tt, t') /\
     Auth.get_user_from_session_id token t' = (Ok None, t') /\
     Forall2 (fun row row' =>
                (row = u /\
                 row' = mkUser (id u) (email u) (hashed_password u)
                               PNone (reset_token u)) \/
                (row <> u /\ row' = row)) t t') /\
  (forall n, int64 n = true -> (forall r, In r t -> id r <> PInt n) ->
             Auth.destroy_session (PInt n) t = (Ok tt, t)) /\
  (forall n, int64 n = false ->
             Auth.destroy_session (PInt n) t = (Raise OverflowError, t)).
Proof.
  intros Hwf. split; [|split].
  - intros Hget Honly.
    rewrite get_user_from_session_id_unfold in Hget.
    destruct (str_not token) eqn:Hempty; [discriminate|].
    destruct (find _ t) as [u0|] eqn:Efind; [|discriminate].
    injection Hget as ->. destruct (find_some _ _ Efind) as [Hin _].
    rewrite destroy_session_unfold
      by (assumption || apply (wf_bindable u t Hwf Hin)).
    rewrite (find_by_id_wf u t Hwf Hin).
    eexists. split; [reflexivity|]. split.
    + rewrite get_user_from_session_id_unfold, Hempty.
      rewrite find_all_false; [reflexivity|].
      intros r' Hr'. apply in_map_iff in Hr'. destruct Hr' as (r & <- & Hr).
      rewrite filter_by_session_id. unfold touch.
      destruct (Z.eqb_spec (DB.id_num r) (DB.id_num u)) as [E|Hne].
      * reflexivity.
      * apply Honly; [assumption|]. intros ->. apply Hne. reflexivity.
    + apply touch_rows; [assumption | assumption | reflexivity].
  - intros n Hn Hnone. rewrite destroy_session_unfold by assumption.
    rewrite find_all_false; [reflexivity|].
    intros r Hr. rewrite filter_by_id.
    pose proof (wf_int r t Hwf Hr) as Hint. specialize (Hnone r Hr).
    destruct (id r) as [|m| |]; try discriminate.
    rewrite sql_eq_int, Hn. cbn [andb].
    apply Z.eqb_neq. congruence.
  - intros n Hn. apply destroy_session_overflow. exact Hn.
Qed.

(** X10. [get_reset_password_token] raises [ValueError] and changes
    nothing when no record has the email; otherwise it returns the
    token drawn and stores it in the user's [reset_token], touching
    no other field and no other row, so that every login and every
    session resolves as before. *)
Theorem get_reset_password_token_frame (e uuid : string) (t : table) :
  ((forall u, In u t -> DB.sql_eq (email u) (PStr e) = false) ->
   Auth.get_reset_password_token e uuid t = (Raise (ValueError ""), t)) /\
  (wf_table t = true ->
   forall u,
     DB.find_user_by [("email", PStr e)] t = (Ok u, t) ->
     exists t',
       Auth.get_reset_password_token e uuid t = (Ok uuid, t') /\
       Forall2 (fun row row' =>
                  (row = u /\
                   row' = mkUser (id u) (email u) (hashed_password u)
                                 (session_id u) (PStr uuid)) \/
                  (row <> u /\ row' = row)) t t' /\
       (forall e' q,
          Auth.valid_login e' q t' = (fst (Auth.valid_login e' q t), t')) /\
       (forall sid v,
          Auth.get_user_from_session_id sid t = (Ok (Some v), t) ->
          exists v',
            Auth.get_user_from_session_id sid t' = (Ok (Some v'), t') /\
            id v' = id v /\ email v' = email v /\
            hashed_password v' = hashed_password v /\
            session_id v' = session_id v)).
Proof.
  split.
  - intros Hnone. unfold Auth.get_reset_password_token, try_except.
    rewrite find_user_by_one by reflexivity. unfold DB.first.
    rewrite find_all_false; [reflexivity|].
    intros r Hr. rewrite filter_by_email. apply Hnone. assumption.
  - intros Hwf u Hfind.
    apply find_user_by_ok in Hfind; [|reflexivity].
    pose proof (find_some _ _ Hfind) as [Hin _].
    rewrite get_reset_password_token_unfold by assumption. rewrite Hfind.
    set (kw := [("reset_token", PStr uuid)]).
    exists (map (touch u kw) t). split; [reflexivity|]. split; [|split].
    + apply touch_rows; [assumption | assumption | reflexivity].
    + intros e' q. apply valid_login_after_touch; cbn; intuition discriminate.
    + intros sid v Hget. rewrite session_after_touch
        by (cbn; intuition discriminate).
      rewrite Hget. cbn [fst]. exists (touch u kw v).
      split; [reflexivity|].
      rewrite touch_id, touch_email, touch_hashed_password, touch_session_id
        by (cbn; intuition discriminate).
      repeat split.
Qed.



(** A completed reset, seen from the logins: the row of [u] carries
    the new hash and every email finds the row it found before. *)
Lemma logins_after_reset
  (r p : string) (salt h : bytes) (u : User) (t : table) :
  wf_table t = true -> r <> "" -> p <> "" ->
  DB.find_user_by [("reset_token", PStr r)] t = (Ok u, t) ->
  hashpw (encode p) salt = Ok h ->
  let kw := [("hashed_password", PBytes h); ("reset_token", PNone)] in
  Auth.update_password r p salt t = (Ok tt, map (touch u kw) t) /\
  forall e q,
    Auth.valid_login e q (map (touch u kw) t)
    = (match find (DB.filter_by [("email", PStr e)]) t with
       | Some v => checkpw (encode q) (hashed_password (touch u kw v))
       | None => Ok false
       end, map (touch u kw) t).
Proof.
  intros Hwf Hr Hp Htoken Hhash kw.
  apply find_user_by_ok in Htoken; [|reflexivity].
  rewrite update_password_unfold by assumption.
  rewrite (str_not_false r Hr), (str_not_false p Hp), Htoken, Hhash.
  cbn [orb].
  split; [reflexivity|].
  intros e q. rewrite valid_login_unfold, find_map_pointwise.
  - destruct (find (DB.filter_by [("email", PStr e)]) t); reflexivity.
  - intros row _. rewrite !filter_by_email, touch_email; [reflexivity|].
    cbn; intuition discriminate.
Qed.

(** X12. After a successful [update_password] for the user whom both
    the token and the email [e] find, [bcrypt.hashpw] having returned
    the hash [h] of the new password, [valid_login] with [e] ends as
    [bcrypt.checkpw] does on the password tried and [h]; the login of
    every other email is as before. *)
Theorem update_password_then_valid_login
  (r p q e : string) (salt h : bytes) (u : User) (t : table) :
  wf_table t = true -> r <> "" -> p <> "" ->
  DB.find_user_by [("reset_token", PStr r)] t = (Ok u, t) ->
  DB.find_user_by [("email", PStr e)] t = (Ok u, t) ->
  hashpw (encode p) salt = Ok h ->
  exists t',
    Auth.update_password r p salt t = (Ok tt, t') /\
    Auth.valid_login e q t' = (checkpw (encode q) (PBytes h), t') /\
    (forall e' v,
       DB.find_user_by [("email", PStr e')] t = (Ok v, t) -> v <> u ->
       Auth.valid_login e' q t' = (fst (Auth.valid_login e' q t), t')) /\
    (forall e',
       (forall v, In v t -> DB.sql_eq (email v) (PStr e') = false) ->
       Auth.valid_login e' q t' = (Ok false, t')).
Proof.
  intros Hwf Hr Hp Htoken Hemail Hhash.
  destruct (logins_after_reset r p salt h u t Hwf Hr Hp Htoken Hhash)
    as [Hrun Hlogin].
  apply find_user_by_ok in Htoken; [|reflexivity].
  apply find_user_by_ok in Hemail; [|reflexivity].
  pose proof (find_some _ _ Htoken) as [Hin _].
  eexists. split; [exact Hrun|]. split; [|split].
  - rewrite Hlogin, Hemail, touch_self. reflexivity.
  - intros e' v Hv Hne. apply find_user_by_ok in Hv; [|reflexivity].
    pose proof (find_some _ _ Hv) as [Hvin _].
    rewrite Hlogin, valid_login_unfold, Hv. cbn [fst].
    rewrite (touch_other u v _ t Hwf Hin Hvin Hne). reflexivity.
  - intros e' Hnone. rewrite Hlogin.
    rewrite find_all_false; [reflexivity|].
    intros v Hv. rewrite filter_by_email. apply Hnone. assumption.
Qed.

(** X13. [create_session] for an email no record has returns [None]
    and changes nothing. [get_user_from_session_id] never raises and
    never changes the table; it returns [None] for the empty token, and
    a user it returns is a row of the table whose [session_id] compares
    equal to the non-empty token asked for. *)
Theorem session_lookup_edges (e uuid sid : string) (t : table) :
  ((forall u, In u t -> DB.sql_eq (email u) (PStr e) = false) ->
   Auth.create_session e uuid t = (Ok None, t)) /\
  Auth.get_user_from_session_id "" t = (Ok None, t) /\
  (exists found, Auth.get_user_from_session_id sid t = (Ok found, t)) /\
  (forall u,
     Auth.get_user_from_session_id sid t = (Ok (Some u), t) ->
     sid <> "" /\ In u t /\ DB.sql_eq (session_id u) (PStr sid) = true).
Proof.
  split; [|split; [|split]].
  - intros Hnone. unfold Auth.create_session, try_except.
    rewrite find_user_by_one by reflexivity. unfold DB.first.
    rewrite find_all_false; [reflexivity|].
    intros r Hr. rewrite filter_by_email. apply Hnone. assumption.
  - reflexivity.
  - rewrite get_user_from_session_id_unfold.
    destruct (str_not sid); [eexists; reflexivity|].
    destruct (find _ t); eexists; reflexivity.
  - intros u. rewrite get_user_from_session_id_unfold.
    destruct sid as [|c sid']; [discriminate|]. cbn [str_not].
    destruct (find _ t) as [u0|] eqn:E; [|discriminate].
    intros X. injection X as ->. destruct (find_some _ _ E) as [Hin Hq].
    rewrite filter_by_session_id in Hq.
    split; [discriminate|]. split; assumption.
Qed.

End EngineSequences.

(** * The routes *)

Section RouteFacts.
Context `{StorageEngine} `{Bcrypt}.

(** X14. [POST /users] answers 400 without touching the table when a
    form field is missing; with both fields it answers 400 "email
    already registered", again without touching the table, when a
    record has the email.  When none has it, the answer turns on the
    hashing: if [bcrypt.hashpw] returns a hash (and the table has a key
    to give) it answers 200 "user created" after appending the record
    with that hash; if [bcrypt.hashpw] raises [ValueError], the
    route's [except ValueError] takes it for the engine's and answers
    400 "email already registered" although no record has the email
    and none is added; any other error of [bcrypt.hashpw] escapes the
    route. *)
Theorem route_register_user (f : Routes.form) (salt : bytes) (t : table) :
  (Routes.form_get f "email" = None \/
   Routes.form_get f "password" = None ->
   Routes.register_user f salt t = (Ok (Routes.Abort 400), t)) /\
  (forall e p,
     Routes.form_get f "email" = Some e ->
     Routes.form_get f "password" = Some p ->
     ((exists u, In u t /\ email u = PStr e) ->
      Routes.register_user f salt t
      = (Ok (Routes.Json 400
               [("message", PStr "email already registered")] None), t)) /\
     ((forall u, In u t -> DB.sql_eq (email u) (PStr e) = false) ->
      (forall h n,
         hashpw (encode p) salt = Ok h -> DB.next_id t = Some n ->
         exists user,
           Routes.register_user f salt t
           = (Ok (Routes.Json 200 [("email", PStr e);
                                   ("message", PStr "user created")] None),
              (t ++ [user])%list) /\
           email user = PStr e /\
           hashed_password user = PBytes h) /\
      (forall msg,
         hashpw (encode p) salt = Raise (ValueError msg) ->
         Routes.register_user f salt t
         = (Ok (Routes.Json 400
                  [("message", PStr "email already registered")] None), t)) /\
      (forall err,
         hashpw (encode p) salt = Raise err ->
         (forall msg, err <> ValueError msg) ->
         Routes.register_user f salt t = (Raise err, t)))).
Proof.
  split.
  - intros [E|E]; unfold Routes.register_user; rewrite E.
    + reflexivity.
    + destruct (Routes.form_get f "email"); reflexivity.
  - intros e p He Hp. unfold Routes.register_user. rewrite He, Hp.
    unfold try_except_ValueError. rewrite register_user_unfold. split.
    + intros (u & Hin & Hu).
      destruct (find_hit (DB.filter_by [("email", PStr e)]) u t Hin)
        as (u0 & -> & _); [|reflexivity].
      rewrite filter_by_email, Hu. cbn. apply String.eqb_refl.
    + intros Hnone.
      assert (Hfind : find (DB.filter_by [("email", PStr e)]) t = None).
      { apply find_all_false. intros r Hr. rewrite filter_by_email.
        apply Hnone. assumption. }
      rewrite Hfind. split; [|split].
      * intros h n -> Hn. rewrite (add_user_fresh e h t Hfind), Hn.
        eexists. split; [reflexivity|]. split; reflexivity.
      * intros msg ->. reflexivity.
      * intros err -> Hne. destruct err; try reflexivity.
        exfalso. apply (Hne msg). reflexivity.
Qed.

(** X15. [POST /sessions] answers 400 when a form field is missing and
    401 when the email is unknown or [bcrypt.checkpw] rejects the
    password, in both cases without touching the table and without a
    cookie. When the password is accepted it answers 200 with the
    token drawn as [session_id] cookie, and [GET /profile] with that
    cookie then answers 200 with the user's email (the token being
    non-empty and carried by no row before). When [bcrypt.checkpw]
    raises, nothing in the route catches the error: it escapes, the
    table untouched. *)
Theorem route_log_in (f : Routes.form) (uuid : string) (t : table) :
  (Routes.form_get f "email" = None \/
   Routes.form_get f "password" = None ->
   Routes.log_in f uuid t = (Ok (Routes.Abort 400), t)) /\
  (forall e p,
     Routes.form_get f "email" = Some e ->
     Routes.form_get f "password" = Some p ->
     ((forall u, In u t -> DB.sql_eq (email u) (PStr e) = false) ->
      Routes.log_in f uuid t = (Ok (Routes.Abort 401), t)) /\
     (forall u,
        DB.find_user_by [("email", PStr e)] t = (Ok u, t) ->
        (checkpw (encode p) (hashed_password u) = Ok false ->
         Routes.log_in f uuid t = (Ok (Routes.Abort 401), t)) /\
        (checkpw (encode p) (hashed_password u) = Ok true ->
         wf_table t = true -> session_unused uuid t = true -> uuid <> "" ->
         exists t',
           Routes.log_in f uuid t
           = (Ok (Routes.Json 200 [("email", PStr e);
                                   ("message", PStr "logged in")]
                    (Some ("session_id", Some uuid))), t') /\
           Routes.profile (Some uuid) t'
           = (Ok (Routes.Json 200 [("email", email u)] None), t')) /\
        (forall err,
           checkpw (encode p) (hashed_password u) = Raise err ->
           Routes.log_in f uuid t = (Raise err, t)))).
Proof.
  split.
  - intros [E|E]; unfold Routes.log_in; rewrite E.
    + reflexivity.
    + destruct (Routes.form_get f "email"); reflexivity.
  - intros e p He Hp. unfold Routes.log_in. rewrite He, Hp.
    unfold bind. rewrite valid_login_unfold. split.
    + intros Hnone. rewrite find_all_false; [reflexivity|].
      intros r Hr. rewrite filter_by_email. apply Hnone. assumption.
    + intros u Hfind. apply find_user_by_ok in Hfind; [|reflexivity].
      rewrite Hfind. split; [|split].
      * intros ->. reflexivity.
      * intros -> Hwf Hunused Hnonempty. cbn [negb].
        pose proof (find_some _ _ Hfind) as [Hin _].
        rewrite create_session_unfold by assumption. rewrite Hfind.
        eexists. split; [reflexivity|].
        unfold Routes.profile. rewrite (str_not_false uuid Hnonempty).
        unfold bind.
        rewrite (session_resolves uuid u t Hwf Hin Hunused Hnonempty).
        reflexivity.
      * intros err ->. reflexivity.
Qed.

(** X16. [GET /profile] never raises and never changes the table. It
    answers 403 when the cookie is absent, empty, or matches no row's
    [session_id]; otherwise it answers 200 with the email of the first
    row whose [session_id] matches. *)
Theorem route_profile (cookie : option string) (t : table) :
  (exists reply, Routes.profile cookie t = (Ok reply, t)) /\
  Routes.profile None t = (Ok (Routes.Abort 403), t) /\
  Routes.profile (Some "") t = (Ok (Routes.Abort 403), t) /\
  (forall sid,
     (forall u, In u t -> DB.sql_eq (session_id u) (PStr sid) = false) ->
     Routes.profile (Some sid) t = (Ok (Routes.Abort 403), t)) /\
  (forall sid u,
     Auth.get_user_from_session_id sid t = (Ok (Some u), t) ->
     Routes.profile (Some sid) t
     = (Ok (Routes.Json 200 [("email", email u)] None), t)).
Proof.
  split; [|split; [|split; [|split]]].
  - unfold Routes.profile. destruct cookie as [sid|]; [|eexists; reflexivity].
    destruct (str_not sid); [eexists; reflexivity|].
    unfold bind. rewrite get_user_from_session_id_unfold.
    destruct (str_not sid); [eexists; reflexivity|].
    destruct (find _ t); eexists; reflexivity.
  - reflexivity.
  - reflexivity.
  - intros sid Hnone. unfold Routes.profile.
    destruct (str_not sid) eqn:Hempty; [reflexivity|].
    unfold bind. rewrite get_user_from_session_id_unfold, Hempty.
    rewrite find_all_false; [reflexivity|].
    intros r Hr. rewrite filter_by_session_id. apply Hnone. assumption.
  - intros sid u Hget. unfold Routes.profile.
    destruct (str_not sid) eqn:Hempty.
    + rewrite get_user_from_session_id_unfold, Hempty in Hget.
      discriminate.
    + unfold bind. rewrite Hget. reflexivity.
Qed.

(** X17. [PUT /reset_password] answers 400 when a form field is
    missing. With the three fields it changes the table exactly as
    [Auth.update_password] does on the token and the new password, the
    submitted email playing no part; it answers 403 when that call
    raises [ValueError] and otherwise 200 "Password updated" echoing
    the submitted email. In particular an empty token or an empty new
    password is answered 200 although nothing was updated. *)
Theorem route_update_password (f : Routes.form) (salt : bytes) (t : table) :
  (Routes.form_get f "email" = None \/
   Routes.form_get f "reset_token" = None \/
   Routes.form_get f "new_password" = None ->
   Routes.update_password f salt t = (Ok (Routes.Abort 400), t)) /\
  (forall e r p,
     Routes.form_get f "email" = Some e ->
     Routes.form_get f "reset_token" = Some r ->
     Routes.form_get f "new_password" = Some p ->
     snd (Routes.update_password f salt t)
     = snd (Auth.update_password r p salt t) /\
     (forall t', Auth.update_password r p salt t = (Ok tt, t') ->
        Routes.update_password f salt t
        = (Ok (Routes.Json 200 [("email", PStr e);
                                ("message", PStr "Password updated")] None),
           t')) /\
     (forall msg t',
        Auth.update_password r p salt t = (Raise (ValueError msg), t') ->
        Routes.update_password f salt t = (Ok (Routes.Abort 403), t')) /\
     (r = "" \/ p = "" ->
      Routes.update_password f salt t
      = (Ok (Routes.Json 200 [("email", PStr e);
                              ("message", PStr "Password updated")] None),
         t)) /\
     (r <> "" -> p <> "" ->
      (forall u, In u t -> DB.sql_eq (reset_token u) (PStr r) = false) ->
      Routes.update_password f salt t = (Ok (Routes.Abort 403), t))).
Proof.
  split.
  - unfold Routes.update_password. intros [E|[E|E]].
    + rewrite E. reflexivity.
    + rewrite E. destruct (Routes.form_get f "email"); reflexivity.
    + rewrite E. destruct (Routes.form_get f "email"); [|reflexivity].
      destruct (Routes.form_get f "reset_token"); reflexivity.
  - intros e r p He Hr Hp. unfold Routes.update_password.
    rewrite He, Hr, Hp. unfold try_except_ValueError.
    split; [|split; [|split; [|split]]].
    + destruct (Auth.update_password r p salt t) as [[[]|[| |msg| |]|] t'];
        reflexivity.
    + intros t' ->. reflexivity.
    + intros msg t' ->. reflexivity.
    + intros [-> | ->]; unfold Auth.update_password.
      * reflexivity.
      * cbn [str_not]. rewrite orb_true_r. reflexivity.
    + intros Hrne Hpne Hnone.
      rewrite (update_password_miss r p salt t Hrne Hpne Hnone). reflexivity.
Qed.

(** X18. [POST /reset_password] answers 403 without touching the table
    when the email field is missing or no record has the email. For a
    registered email it answers 200 with the token drawn (the token
    being non-empty and carried by no row before). [PUT
    /reset_password] with that token and a non-empty new password then
    turns on the hashing: if [bcrypt.hashpw] returns the hash [h] it
    answers 200, and afterwards [valid_login] for the email ends as
    [bcrypt.checkpw] does on [h]; if [bcrypt.hashpw] raises
    [ValueError] it answers 403 and the table, token and old hash
    included, is as it was. *)
Theorem route_reset_password
  (f : Routes.form) (uuid : string) (t : table) :
  (Routes.form_get f "email" = None ->
   Routes.reset_password f uuid t = (Ok (Routes.Abort 403), t)) /\
  (forall e,
     Routes.form_get f "email" = Some e ->
     ((forall u, In u t -> DB.sql_eq (email u) (PStr e) = false) ->
      Routes.reset_password f uuid t = (Ok (Routes.Abort 403), t)) /\
     (forall u,
        DB.find_user_by [("email", PStr e)] t = (Ok u, t) ->
        wf_table t = true -> uuid <> "" ->
        (forall row, In row t ->
                     DB.sql_eq (reset_token row) (PStr uuid) = false) ->
        exists ta,
          Routes.reset_password f uuid t
          = (Ok (Routes.Json 200 [("email", PStr e);
                                  ("reset_token", PStr uuid)] None), ta) /\
          forall g p salt e',
            Routes.form_get g "email" = Some e' ->
            Routes.form_get g "reset_token" = Some uuid ->
            Routes.form_get g "new_password" = Some p ->
            p <> "" ->
            (forall h q,
               hashpw (encode p) salt = Ok h ->
               exists tb,
                 Routes.update_password g salt ta
                 = (Ok (Routes.Json 200
                          [("email", PStr e');
                           ("message", PStr "Password updated")] None),
                    tb) /\
                 Auth.valid_login e q tb
                 = (checkpw (encode q) (PBytes h), tb)) /\
            (forall msg,
               hashpw (encode p) salt = Raise (ValueError msg) ->
               Routes.update_password g salt ta
               = (Ok (Routes.Abort 403), ta)))).
Proof.
  split.
  - intros E. unfold Routes.reset_password. rewrite E. reflexivity.
  - intros e He. unfold Routes.reset_password. rewrite He.
    unfold try_except_ValueError. split.
    + intros Hnone. unfold Auth.get_reset_password_token, try_except.
      rewrite find_user_by_one by reflexivity. unfold DB.first.
      rewrite find_all_false; [reflexivity|].
      intros r Hr. rewrite filter_by_email. apply Hnone. assumption.
    + intros u Hfind Hwf Hnonempty Hunused.
      pose proof Hfind as Hfind0.
      apply find_user_by_ok in Hfind; [|reflexivity].
      pose proof (find_some _ _ Hfind) as [Hin _].
      rewrite get_reset_password_token_unfold by assumption. rewrite Hfind.
      set (ta := map (touch u [("reset_token", PStr uuid)]) t).
      exists ta. split; [reflexivity|].
      intros g p salt e' Hge Hgr Hgp Hp.
      destruct (reset_token_resolves uuid u t Hwf Hin Hunused)
        as [Htoken _]. fold ta in Htoken.
      assert (Hwfa : wf_table ta = true).
      { unfold ta. rewrite wf_touch;
          [assumption | cbn; intuition discriminate]. }
      assert (Hemail : DB.find_user_by [("email", PStr e)] ta
                       = (Ok (mkUser (id u) (email u) (hashed_password u)
                                     (session_id u) (PStr uuid)), ta)).
      { rewrite find_user_by_one by reflexivity. unfold DB.first, ta.
        rewrite find_map_pointwise.
        - rewrite Hfind. cbn [option_map]. rewrite touch_self. reflexivity.
        - intros r _. rewrite !filter_by_email, touch_email; [reflexivity|].
          cbn; intuition discriminate. }
      split.
      * intros h q Hhash.
        destruct (logins_after_reset uuid p salt h _ ta Hwfa Hnonempty Hp
                    Htoken Hhash) as [Hrun Hlogin].
        apply find_user_by_ok in Hemail; [|reflexivity].
        eexists. split.
        -- unfold Routes.update_password. rewrite Hge, Hgr, Hgp.
           unfold try_except_ValueError. rewrite Hrun. reflexivity.
        -- rewrite Hlogin, Hemail, touch_self. reflexivity.
      * intros msg Hhash.
        unfold Routes.update_password. rewrite Hge, Hgr, Hgp.
        unfold try_except_ValueError.
        rewrite (update_password_hash_raises uuid p salt _ _ ta
                   Hnonempty Hp Htoken Hhash).
        reflexivity.
Qed.

(** X19. On a table the engine can reach, no exception of the store or
    of the engine escapes a route: [GET /], [DELETE /sessions],
    [GET /profile] and [POST /reset_password] always return a reply;
    [POST /users] and [PUT /reset_password] do whenever
    [bcrypt.hashpw], if it is reached, returns a hash or raises
    [ValueError], and [POST /sessions] does whenever [bcrypt.checkpw],
    if it is reached, returns an answer.  What [bcrypt.checkpw] raises
    escapes [POST /sessions], which has no handler. *)
Theorem routes_raise_only_what_bcrypt_raises
  (f : Routes.form) (cookie : option string) (uuid : string) (salt : bytes)
  (t : table) :
  reachable t ->
  (exists reply, fst (Routes.hello_world t) = Ok reply) /\
  (exists reply, fst (App.log_out cookie t) = Ok reply) /\
  (exists reply, fst (Routes.profile cookie t) = Ok reply) /\
  (exists reply, fst (Routes.reset_password f uuid t) = Ok reply) /\
  ((forall p, Routes.form_get f "password" = Some p ->
      (exists h, hashpw (encode p) salt = Ok h /\ DB.next_id t <> None) \/
      (exists msg, hashpw (encode p) salt = Raise (ValueError msg))) ->
   exists reply, fst (Routes.register_user f salt t) = Ok reply) /\
  ((forall p, Routes.form_get f "new_password" = Some p ->
      (exists h, hashpw (encode p) salt = Ok h) \/
      (exists msg, hashpw (encode p) salt = Raise (ValueError msg))) ->
   exists reply, fst (Routes.update_password f salt t) = Ok reply) /\
  ((forall p u, Routes.form_get f "password" = Some p -> In u t ->
      exists b, checkpw (encode p) (hashed_password u) = Ok b) ->
   exists reply, fst (Routes.log_in f uuid t) = Ok reply) /\
  (forall e p u err,
     Routes.form_get f "email" = Some e ->
     Routes.form_get f "password" = Some p ->
     DB.find_user_by [("email", PStr e)] t = (Ok u, t) ->
     checkpw (encode p) (hashed_password u) = Raise err ->
     Routes.log_in f uuid t = (Raise err, t)).
Proof.
  intros Hreach. pose proof (reachable_wf t Hreach) as Hwf.
  split; [|split; [|split; [|split; [|split; [|split; [|split]]]]]].
  - eexists. reflexivity.
  - unfold App.log_out. destruct cookie as [sid|]; [|eexists; reflexivity].
    destruct (str_not sid) eqn:Hempty; [eexists; reflexivity|].
    unfold bind. rewrite get_user_from_session_id_unfold, Hempty.
    destruct (find _ t) as [u|]; [|eexists; reflexivity].
    rewrite destroy_session_unfold by (assumption || reflexivity).
    destruct (find _ t); eexists; reflexivity.
  - unfold Routes.profile. destruct cookie as [sid|]; [|eexists; reflexivity].
    destruct (str_not sid) eqn:Hempty; [eexists; reflexivity|].
    unfold bind. rewrite get_user_from_session_id_unfold, Hempty.
    destruct (find _ t); eexists; reflexivity.
  - unfold Routes.reset_password.
    destruct (Routes.form_get f "email") as [e|]; [|eexists; reflexivity].
    unfold try_except_ValueError.
    rewrite get_reset_password_token_unfold by assumption.
    destruct (find _ t); eexists; reflexivity.
  - intros Hhash. unfold Routes.register_user.
    destruct (Routes.form_get f "email") as [e|]; [|eexists; reflexivity].
    destruct (Routes.form_get f "password") as [p|]; [|eexists; reflexivity].
    unfold try_except_ValueError. rewrite register_user_unfold.
    destruct (find _ t) eqn:Efind; [eexists; reflexivity|].
    destruct (Hhash p eq_refl) as [(h & -> & Hroom)|(msg & ->)];
      [|eexists; reflexivity].
    rewrite (add_user_fresh e h t Efind).
    destruct (DB.next_id t); [eexists; reflexivity | congruence].
  - intros Hhash. unfold Routes.update_password.
    destruct (Routes.form_get f "email") as [e|]; [|eexists; reflexivity].
    destruct (Routes.form_get f "reset_token") as [r|];
      [|eexists; reflexivity].
    destruct (Routes.form_get f "new_password") as [p|];
      [|eexists; reflexivity].
    unfold try_except_ValueError.
    rewrite update_password_unfold by assumption.
    destruct (_ || _); [eexists; reflexivity|].
    destruct (find _ t); [|eexists; reflexivity].
    destruct (Hhash p eq_refl) as [(h & ->)|(msg & ->)];
      eexists; reflexivity.
  - intros Hcheck. unfold Routes.log_in.
    destruct (Routes.form_get f "email") as [e|]; [|eexists; reflexivity].
    destruct (Routes.form_get f "password") as [p|]; [|eexists; reflexivity].
    unfold bind. rewrite valid_login_unfold.
    destruct (find _ t) as [u|] eqn:E; [|eexists; reflexivity].
    destruct (Hcheck p u eq_refl (proj1 (find_some _ _ E))) as [b ->].
    destruct b; [|eexists; reflexivity]. cbn [negb].
    rewrite create_session_unfold by assumption. rewrite E.
    eexists. reflexivity.
  - intros e p u err He Hp Hfind Hraise. unfold Routes.log_in.
    rewrite He, Hp. unfold bind. rewrite valid_login_unfold.
    apply find_user_by_ok in Hfind; [|reflexivity].
    rewrite Hfind, Hraise. reflexivity.
Qed.

End RouteFacts.

(** * The log filter *)

Section LogFilterFacts.
Import FilteredLogger.

Lemma str_app_assoc (a b c : string) : (a ++ b) ++ c = a ++ (b ++ c).
Proof.
  induction a as [|x a IH]; cbn; [reflexivity | rewrite IH; reflexivity].
Qed.

Lemma str_length_app (a b : string) :
  String.length (a ++ b) = (String.length a + String.length b)%nat.
Proof.
  induction a as [|x a IH]; cbn; [reflexivity | rewrite IH; reflexivity].
Qed.

Lemma strip_prefix_length (p s r : string) :
  strip_prefix p s = Some r ->
  String.length s = (String.length p + String.length r)%nat.
Proof.
  revert s. induction p as [|a p IH]; intros s; cbn.
  - intros E. injection E as ->. reflexivity.
  - destruct s as [|b s]; [discriminate|].
    destruct (Ascii.eqb a b); [|discriminate].
    intros E. cbn. rewrite (IH s E). reflexivity.
Qed.

Lemma lazy_until_length (sep s r : string) :
  lazy_until sep s = Some r -> (String.length r <= String.length s)%nat.
Proof.
  induction s as [|a s IH]; cbn [lazy_until].
  - destruct (strip_prefix sep "") eqn:E; [|discriminate].
    intros X. injection X as ->. apply strip_prefix_length in E.
    cbn in E. lia.
  - destruct (strip_prefix sep (String a s)) eqn:E.
    + intros X. injection X as ->. apply strip_prefix_length in E. lia.
    + destruct (Ascii.eqb a newline); [discriminate|].
      intros X. specialize (IH X). cbn. lia.
Qed.

Lemma match_at_length (f sep s r : string) :
  match_at f sep s = Some r -> (String.length r < String.length s)%nat.
Proof.
  unfold match_at. destruct (strip_prefix (f ++ "=") s) as [after|] eqn:E;
    [|discriminate].
  intros X. apply lazy_until_length in X. apply strip_prefix_length in E.
  rewrite str_length_app in E. cbn in E. lia.
Qed.

Lemma match_at_empty (f sep : string) : match_at f sep "" = None.
Proof.
  destruct (match_at f sep "") eqn:E; [|reflexivity].
  apply match_at_length in E. cbn in E. lia.
Qed.

(** The scan has fuel enough with the length of the text. *)
Lemma sub_fuel_enough (f sep repl : string) (n m : nat) (s : string) :
  (String.length s <= n)%nat -> (String.length s <= m)%nat ->
  sub_fuel n f sep repl s = sub_fuel m f sep repl s.
Proof.
  revert m s. induction n as [|n IH]; intros m s Hn Hm.
  - destruct s; [|cbn in Hn; lia]. destruct m; cbn; [reflexivity|].
    rewrite match_at_empty. reflexivity.
  - destruct m as [|m].
    + destruct s; [|cbn in Hm; lia]. cbn. rewrite match_at_empty.
      reflexivity.
    + cbn [sub_fuel]. destruct (match_at f sep s) as [rest|] eqn:E.
      * apply match_at_length in E. f_equal. apply IH; lia.
      * destruct s as [|a s]; [reflexivity|]. cbn in Hn, Hm.
        f_equal. apply IH; lia.
Qed.

(** [re.sub], one step of the scan at a time. *)
Lemma sub_step (f sep repl s : string) :
  sub f sep repl s =
  match match_at f sep s with
  | Some rest => repl ++ sub f sep repl rest
  | None =>
      match s with
      | EmptyString => EmptyString
      | String a s' => String a (sub f sep repl s')
      end
  end.
Proof.
  unfold sub. destruct s as [|a s].
  - cbn. rewrite match_at_empty. reflexivity.
  - cbn [String.length sub_fuel].
    destruct (match_at f sep (String a s)) as [rest|] eqn:E.
    + apply match_at_length in E. cbn in E. f_equal.
      apply sub_fuel_enough; lia.
    + reflexivity.
Qed.

Lemma sub_no_occurrence (f sep repl s : string) :
  occurs (f ++ "=") s = false -> sub f sep repl s = s.
Proof.
  induction s as [|a s IH]; cbn [occurs]; intros Hocc.
  - reflexivity.
  - destruct (strip_prefix (f ++ "=") (String a s)) eqn:E; [discriminate|].
    rewrite sub_step. unfold match_at. rewrite E, (IH Hocc). reflexivity.
Qed.

(** X20. A message in which no listed field name followed by [=]
    stands anywhere is returned as it is. *)
Theorem filter_datum_nothing_to_redact
  (fields : list string) (redaction message separator : string) :
  forallb literal_pattern fields = true ->
  literal_pattern separator = true ->
  literal_template redaction = true ->
  (forall f, In f fields -> occurs (f ++ "=") message = false) ->
  filter_datum fields redaction message separator = Some message.
Proof.
  intros Hf Hs Hr Hnone. unfold filter_datum. rewrite Hf, Hs, Hr.
  cbn [andb]. f_equal. clear Hf.
  induction fields as [|f fields IH]; [reflexivity|].
  cbn [fold_left].
  rewrite sub_no_occurrence by (apply Hnone; left; reflexivity).
  apply IH. intros g Hg. apply Hnone. right. assumption.
Qed.

Lemma plain_cons (c a : ascii) (s : string) :
  plain c (String a s) = true ->
  a <> "="%char /\ a <> c /\ a <> newline /\ plain c s = true.
Proof.
  unfold plain. cbn [all_chars].
  rewrite !andb_true_iff, !negb_true_iff, !Ascii.eqb_neq. tauto.
Qed.

(** The field name stands at the head of an entry exactly when it is
    the entry's whole key. *)
Lemma strip_key (c : ascii) (f k tl : string) :
  plain c f = true -> plain c k = true ->
  strip_prefix (f ++ "=") (k ++ "=" ++ tl)
  = if k =? f then Some tl else None.
Proof.
  revert k. induction f as [|b f IH]; intros k Hf Hk.
  - destruct k as [|a k]; cbn [append strip_prefix String.eqb].
    + rewrite Ascii.eqb_refl. reflexivity.
    + destruct (plain_cons c a k Hk) as (Ha & _).
      destruct (Ascii.eqb_spec "="%char a); [congruence | reflexivity].
  - destruct (plain_cons c b f Hf) as (Hb & _ & _ & Hf').
    destruct k as [|a k]; cbn [append strip_prefix String.eqb].
    + destruct (Ascii.eqb_spec b "="%char); [congruence | reflexivity].
    + destruct (plain_cons c a k Hk) as (_ & _ & _ & Hk').
      rewrite (Ascii.eqb_sym a b).
      destruct (Ascii.eqb b a); cbn [andb];
        [apply IH; assumption | reflexivity].
Qed.

(** Inside a value, and on the separator after it, the field name
    followed by [=] does not stand. *)
Lemma strip_value (c : ascii) (f v rest : string) :
  c <> "="%char -> plain c f = true -> plain c v = true ->
  strip_prefix (f ++ "=") (v ++ String c rest) = None.
Proof.
  intros Hc. revert v. induction f as [|b f IH]; intros v Hf Hv.
  - destruct v as [|a v]; cbn [append strip_prefix].
    + destruct (Ascii.eqb_spec "="%char c); [congruence | reflexivity].
    + destruct (plain_cons c a v Hv) as (Ha & _).
      destruct (Ascii.eqb_spec "="%char a); [congruence | reflexivity].
  - destruct (plain_cons c b f Hf) as (_ & Hb & _ & Hf').
    destruct v as [|a v]; cbn [append strip_prefix].
    + destruct (Ascii.eqb_spec b c); [congruence | reflexivity].
    + destruct (plain_cons c a v Hv) as (_ & _ & _ & Hv').
      destruct (Ascii.eqb b a); [apply IH; assumption | reflexivity].
Qed.

(** The lazy run over a value without newline stops at the entry's
    own separator. *)
Lemma lazy_value (c : ascii) (v rest : string) :
  plain c v = true ->
  lazy_until (String c "") (v ++ String c rest) = Some rest.
Proof.
  induction v as [|a v IH]; intros Hv.
  - cbn [append lazy_until strip_prefix]. rewrite Ascii.eqb_refl.
    reflexivity.
  - destruct (plain_cons c a v Hv) as (_ & Hac & Hnl & Hv').
    cbn [append lazy_until strip_prefix].
    destruct (Ascii.eqb_spec c a); [congruence|].
    destruct (Ascii.eqb_spec a newline); [congruence|].
    apply IH. assumption.
Qed.

Lemma sub_value (c : ascii) (f repl v rest : string) :
  c <> "="%char -> plain c f = true -> plain c v = true ->
  sub f (String c "") repl (v ++ String c rest)
  = v ++ String c (sub f (String c "") repl rest).
Proof.
  intros Hc Hf. induction v as [|a v IH]; intros Hv.
  - rewrite sub_step. unfold match_at.
    rewrite (strip_value c f "" rest Hc Hf eq_refl). reflexivity.
  - destruct (plain_cons c a v Hv) as (_ & _ & _ & Hv').
    rewrite sub_step. unfold match_at.
    rewrite (strip_value c f (String a v) rest Hc Hf Hv).
    cbn [append]. rewrite (IH Hv'). reflexivity.
Qed.

(** One entry under one field: its value is replaced when its key
    ends with the field name, and kept otherwise. *)
Lemma sub_entry (c : ascii) (f red k v rest : string) :
  c <> "="%char ->
  plain c f = true -> plain c k = true -> plain c v = true ->
  sub f (String c "") (f ++ "=" ++ red ++ String c "")
      (k ++ "=" ++ v ++ String c rest)
  = k ++ "=" ++ (if ends_with k f then red else v)
      ++ String c (sub f (String c "") (f ++ "=" ++ red ++ String c "") rest).
Proof.
  intros Hc Hf. induction k as [|a k IH]; intros Hk Hv.
  - rewrite sub_step. unfold match_at.
    rewrite (strip_key c f "" (v ++ String c rest) Hf eq_refl).
    cbn [ends_with]. rewrite orb_false_r.
    destruct (String.eqb_spec "" f) as [<-|Hne].
    + rewrite (lazy_value c v rest Hv), !str_app_assoc. reflexivity.
    + cbn [append]. rewrite (sub_value c f _ v rest Hc Hf Hv). reflexivity.
  - destruct (plain_cons c a k Hk) as (_ & _ & _ & Hk').
    rewrite sub_step. unfold match_at.
    rewrite (strip_key c f (String a k) (v ++ String c rest) Hf Hk).
    cbn [ends_with].
    destruct (String.eqb_spec (String a k) f) as [<-|Hne].
    + rewrite (lazy_value c v rest Hv). cbn [orb].
      rewrite !str_app_assoc. reflexivity.
    + cbn [orb].
      transitivity
        (String a (sub f (String c "") (f ++ "=" ++ red ++ String c "")
                       (k ++ "=" ++ v ++ String c rest)));
        [reflexivity|].
      rewrite (IH Hk' Hv). reflexivity.
Qed.

Lemma sub_render (c : ascii) (f red : string)
  (entries : list (string * string)) :
  c <> "="%char -> plain c f = true ->
  forallb (plain_entry c) entries = true ->
  sub f (String c "") (f ++ "=" ++ red ++ String c "") (render c entries)
  = render c (map (redact [f] red) entries).
Proof.
  intros Hc Hf. induction entries as [|[k v] entries IH]; intros He.
  - reflexivity.
  - cbn [forallb] in He. apply andb_true_iff in He. destruct He as [Hkv He].
    unfold plain_entry in Hkv. cbn [fst snd] in Hkv.
    apply andb_true_iff in Hkv. destruct Hkv as [Hk Hv].
    cbn [render map]. unfold redact at 1. cbn [fst snd existsb].
    rewrite orb_false_r, sub_entry by assumption.
    rewrite (IH He). reflexivity.
Qed.

Lemma redact_plain (c : ascii) (fields : list string) (red : string)
  (entries : list (string * string)) :
  plain c red = true ->
  forallb (plain_entry c) entries = true ->
  forallb (plain_entry c) (map (redact fields red) entries) = true.
Proof.
  intros Hred He. rewrite forallb_forall in He. apply forallb_forall.
  intros kv' Hin. apply in_map_iff in Hin. destruct Hin as ([k v] & <- & Hkv).
  specialize (He (k, v) Hkv). unfold plain_entry, redact in *.
  cbn [fst snd] in *. apply andb_true_iff in He. destruct He as [Hk Hv].
  rewrite Hk. destruct (existsb _ fields); assumption.
Qed.

Lemma redact_cons (f : string) (fields : list string) (red : string)
  (kv : string * string) :
  redact fields red (redact [f] red kv) = redact (f :: fields) red kv.
Proof.
  destruct kv as [k v]. unfold redact. cbn [fst snd existsb].
  rewrite orb_false_r.
  destruct (ends_with k f), (existsb (ends_with k) fields); reflexivity.
Qed.

Lemma fold_render (c : ascii) (red : string) (fields : list string) :
  c <> "="%char -> plain c red = true ->
  forallb (plain c) fields = true ->
  forall entries,
    forallb (plain_entry c) entries = true ->
    fold_left (fun message f =>
                 sub f (String c "") (f ++ "=" ++ red ++ String c "") message)
              fields (render c entries)
    = render c (map (redact fields red) entries).
Proof.
  intros Hc Hred. induction fields as [|f fields IH]; intros Hf entries He.
  - cbn [fold_left]. f_equal. symmetry.
    rewrite <- (map_id entries) at 2. apply map_ext.
    intros [k v]. reflexivity.
  - cbn [forallb] in Hf. apply andb_true_iff in Hf. destruct Hf as [Hf Hfs].
    cbn [fold_left]. rewrite sub_render by assumption.
    rewrite (IH Hfs) by (apply redact_plain; assumption).
    rewrite map_map. f_equal. apply map_ext. intros kv. apply redact_cons.
Qed.

(** X21. On a message of [key=value] entries, each closed by the
    separator character, with keys, values, field names and redaction
    free of [=], separator and newline, [filter_datum] replaces by the
    redaction the value of exactly those entries whose key ends with
    one of the field names (the field [name] also hides [username])
    and leaves every key and every other value as it is. *)
Theorem filter_datum_redacts_entries
  (fields : list string) (red : string) (c : ascii)
  (entries : list (string * string)) :
  forallb literal_pattern fields = true ->
  literal_pattern (String c "") = true ->
  literal_template red = true ->
  c <> "="%char ->
  forallb (plain c) fields = true -> plain c red = true ->
  forallb (plain_entry c) entries = true ->
  filter_datum fields red (render c entries) (String c "")
  = Some (render c (map (redact fields red) entries)).
Proof.
  intros Hlf Hls Hlr Hc Hf Hred He. unfold filter_datum.
  rewrite Hlf, Hls, Hlr. cbn [andb]. f_equal.
  apply fold_render; assumption.
Qed.

Lemma no_equals_strip (f s : string) :
  no_equals s = true -> strip_prefix (f ++ "=") s = None.
Proof.
  revert s. induction f as [|b f IH]; intros s Hs;
    destruct s as [|a s]; cbn [append strip_prefix]; try reflexivity.
  - unfold no_equals in Hs. cbn [all_chars] in Hs.
    apply andb_true_iff in Hs. destruct Hs as [Ha _].
    apply negb_true_iff in Ha. rewrite Ascii.eqb_sym, Ha. reflexivity.
  - unfold no_equals in Hs. cbn [all_chars] in Hs.
    apply andb_true_iff in Hs. destruct Hs as [_ Hs].
    destruct (Ascii.eqb b a); [apply IH; assumption | reflexivity].
Qed.

Lemma no_equals_occurs (f s : string) :
  no_equals s = true -> occurs (f ++ "=") s = false.
Proof.
  induction s as [|a s IH]; intros Hs; cbn [occurs];
    rewrite (no_equals_strip f _ Hs); [reflexivity|].
  apply IH. unfold no_equals in *. cbn [all_chars] in Hs.
  apply andb_true_iff in Hs. apply Hs.
Qed.

Lemma no_equals_app (a b : string) :
  no_equals (a ++ b) = no_equals a && no_equals b.
Proof.
  unfold no_equals. induction a as [|x a IH]; cbn [append all_chars];
    [reflexivity|]. rewrite IH, andb_assoc. reflexivity.
Qed.

Lemma plain_no_equals (c : ascii) (s : string) :
  plain c s = true -> no_equals s = true.
Proof.
  unfold plain, no_equals. induction s as [|a s IH]; cbn [all_chars];
    [reflexivity|].
  rewrite !andb_true_iff. intros [[[Ha _] _] Hs]. split; [assumption|].
  apply IH. assumption.
Qed.

(** The lazy run gives up at a newline that comes before the
    separator. *)
Lemma lazy_newline (c : ascii) (v w : string) :
  c <> newline -> plain c v = true ->
  lazy_until (String c "") (v ++ String newline w) = None.
Proof.
  intros Hc. induction v as [|a v IH]; intros Hv.
  - cbn [append lazy_until strip_prefix].
    destruct (Ascii.eqb_spec c newline); [congruence|].
    rewrite Ascii.eqb_refl. reflexivity.
  - destruct (plain_cons c a v Hv) as (_ & Hac & Hnl & Hv').
    cbn [append lazy_until strip_prefix].
    destruct (Ascii.eqb_spec c a); [congruence|].
    destruct (Ascii.eqb_spec a newline); [congruence|].
    apply IH. assumption.
Qed.

Lemma eqb_shorter (k f : string) :
  (String.length k < String.length f)%nat -> (k =? f) = false.
Proof. intros Hlt. apply String.eqb_neq. intros ->. lia. Qed.

(** A key shorter than the field name is no match, nor is anything
    after it when no further [=] follows. *)
Lemma sub_short_key (c : ascii) (f sep repl k w : string) :
  plain c f = true -> plain c k = true ->
  (String.length k < String.length f)%nat -> no_equals w = true ->
  sub f sep repl (k ++ "=" ++ w) = k ++ "=" ++ w.
Proof.
  intros Hf. induction k as [|a k IH]; intros Hk Hlt Hw.
  - rewrite sub_step. unfold match_at.
    rewrite (strip_key c f "" w Hf eq_refl), (eqb_shorter "" f Hlt).
    transitivity (String "="%char (sub f sep repl w)); [reflexivity|].
    rewrite sub_no_occurrence by (apply no_equals_occurs; assumption).
    reflexivity.
  - destruct (plain_cons c a k Hk) as (_ & _ & _ & Hk').
    rewrite sub_step. unfold match_at.
    rewrite (strip_key c f (String a k) w Hf Hk), (eqb_shorter _ f Hlt).
    transitivity (String a (sub f sep repl (k ++ "=" ++ w)));
      [reflexivity|].
    rewrite IH; [reflexivity | assumption | cbn in Hlt; lia | assumption].
Qed.

(** X22. A value with a line break in it is not redacted: when the
    entry of the field has a newline before its separator and no
    further [=] follows, [filter_datum] returns the message as it
    is, the value in clear. *)
Theorem filter_datum_newline_leak (f red : string) (c : ascii) (v w : string) :
  literal_pattern f = true ->
  literal_pattern (String c "") = true ->
  literal_template red = true ->
  c <> "="%char -> c <> newline ->
  plain c f = true -> plain c v = true -> no_equals w = true ->
  filter_datum [f] red (f ++ "=" ++ v ++ String newline w) (String c "")
  = Some (f ++ "=" ++ v ++ String newline w).
Proof.
  intros Hlf Hls Hlr Hc Hnl Hf Hv Hw. unfold filter_datum.
  cbn [forallb]. rewrite Hlf, Hls, Hlr. cbn [andb fold_left]. f_equal.
  set (repl := f ++ "=" ++ red ++ String c "").
  assert (Htail : no_equals (v ++ String newline w) = true).
  { rewrite no_equals_app, (plain_no_equals c v Hv). cbn [andb].
    unfold no_equals in *. cbn [all_chars]. rewrite Hw. reflexivity. }
  rewrite sub_step. unfold match_at.
  rewrite (strip_key c f f _ Hf Hf), String.eqb_refl.
  rewrite (lazy_newline c v w Hnl Hv).
  destruct f as [|b f].
  - transitivity
      (String "="%char (sub "" (String c "") repl (v ++ String newline w)));
      [reflexivity|].
    rewrite sub_no_occurrence by (apply no_equals_occurs; assumption).
    reflexivity.
  - destruct (plain_cons c b f Hf) as (_ & _ & _ & Hf').
    transitivity
      (String b (sub (String b f) (String c "") repl
                     (f ++ "=" ++ v ++ String newline w)));
      [reflexivity|].
    rewrite (sub_short_key c (String b f) (String c "") repl f _ Hf Hf');
      [reflexivity | cbn; lia | assumption].
Qed.

End LogFilterFacts.

Section SessionFrame.
Context `{StorageEngine} `{Bcrypt}.

(** X23. [create_session] for a registered user returns the token
    drawn and changes that user's [session_id] and nothing else: every
    [valid_login] answers as before, and a different token that
    resolved to another user still resolves to that user, so opening a
    session for one user never closes another's. *)
Theorem create_session_frame (e uuid : string) (u : User) (t : table) :
  wf_table t = true ->
  DB.find_user_by [("email", PStr e)] t = (Ok u, t) ->
  exists t',
    Auth.create_session e uuid t = (Ok (Some uuid), t') /\
    Forall2 (fun row row' =>
               (row = u /\
                row' = mkUser (id u) (email u) (hashed_password u)
                              (PStr uuid) (reset_token u)) \/
               (row <> u /\ row' = row)) t t' /\
    (forall e' q,
       Auth.valid_login e' q t' = (fst (Auth.valid_login e' q t), t')) /\
    (forall sid v,
       Auth.get_user_from_session_id sid t = (Ok (Some v), t) ->
       sid <> uuid -> v <> u ->
       Auth.get_user_from_session_id sid t' = (Ok (Some v), t')).
Proof.
  intros Hwf Hfind. apply find_user_by_ok in Hfind; [|reflexivity].
  pose proof (find_some _ _ Hfind) as [Hin _].
  rewrite create_session_unfold by assumption. rewrite Hfind.
  set (kw := [("session_id", PStr uuid)]).
  exists (map (touch u kw) t). split; [reflexivity|]. split; [|split].
  - apply touch_rows; [assumption | assumption | reflexivity].
  - intros e' q. apply valid_login_after_touch; cbn; intuition discriminate.
  - intros sid v Hget Hsid Hv.
    rewrite get_user_from_session_id_unfold in Hget.
    rewrite get_user_from_session_id_unfold.
    destruct (str_not sid); [discriminate|].
    destruct (find (DB.filter_by [("session_id", PStr sid)]) t)
      as [v0|] eqn:Efind; [|discriminate].
    injection Hget as ->.
    apply find_first_iff in Efind.
    destruct Efind as (pre & post & Ht & Hq & Hpre).
    assert (Hvin : In v t)
      by (rewrite Ht; apply in_or_app; right; left; reflexivity).
    assert (Hgoal : find (DB.filter_by [("session_id", PStr sid)])
                         (map (touch u kw) t) = Some v).
    { apply find_first_iff.
      exists (map (touch u kw) pre), (map (touch u kw) post).
      split; [|split].
      - rewrite Ht at 1. rewrite map_app. cbn [map].
        rewrite (touch_other u v kw t Hwf Hin Hvin Hv). reflexivity.
      - assumption.
      - intros r' Hr'. apply in_map_iff in Hr'.
        destruct Hr' as (r & <- & Hr).
        assert (Hrt : In r t)
          by (rewrite Ht; apply in_or_app; left; assumption).
        unfold touch.
        destruct (Z.eqb_spec (DB.id_num r) (DB.id_num u)) as [E|_].
        + rewrite filter_by_session_id. cbn. apply String.eqb_neq.
          congruence.
        + apply Hpre. assumption. }
    rewrite Hgoal. reflexivity.
Qed.

End SessionFrame.

(** * The claims at concrete inputs *)

#[local] Existing Instance sample_engine.
#[local] Existing Instance sample_bcrypt.



Lemma update_user_accepts_no_fields_witness :
  DB.update_user (PInt 1) [] sample_table = (Ok tt, sample_table).
Proof.
  apply (proj1 (update_user_accepts_no_fields (PInt 1) sample_table)
           sample_user).
  - left. reflexivity.
  - reflexivity.
Defined.





(** C1, as first stated, at a concrete call: the token is not empty and
    matches no record, yet with an empty new password the call returns
    without raising. *)
Lemma update_password_unknown_token_empty_password :
  sample_uuid <> "" /\
  (forall u, In u sample_table ->
             DB.sql_eq (reset_token u) (PStr sample_uuid) = false) /\
  Auth.update_password sample_uuid "" sample_salt sample_table
  = (Ok tt, sample_table) /\
  (forall msg,
     fst (Auth.update_password sample_uuid "" sample_salt sample_table)
     <> Raise (ValueError msg)).
Proof.
  split; [discriminate|]. split; [|split].
  - intros u [<-|[]]. reflexivity.
  - reflexivity.
  - intros msg. discriminate.
Qed.

Lemma update_password_unknown_token_then_replay_witness :
  Auth.update_password sample_uuid "pw2" sample_salt sample_table
  = (Raise (ValueError ""), sample_table) /\
  (exists t',
     Auth.update_password sample_uuid "pw2" sample_salt sample_pending
     = (Ok tt, t') /\
     (forall u', In u' t' ->
                 DB.sql_eq (reset_token u') (PStr sample_uuid) = false) /\
     (forall p' salt', p' <> "" ->
        Auth.update_password sample_uuid p' salt' t'
        = (Raise (ValueError ""), t'))) /\
  Auth.update_password sample_uuid sample_long_password sample_salt
    sample_pending
  = (Raise too_long, sample_pending) /\
  (exists ta tb,
     Auth.get_reset_password_token "a@x.com" sample_uuid sample_table
     = (Ok sample_uuid, ta) /\
     Auth.update_password sample_uuid "pw2" sample_salt ta = (Ok tt, tb) /\
     (forall p' salt', p' <> "" ->
        Auth.update_password sample_uuid p' salt' tb
        = (Raise (ValueError ""), tb))).
Proof.
  split; [|split; [|split]].
  - apply (update_password_unknown_token_then_replay
             sample_uuid "pw2" sample_salt sample_table);
      [discriminate | discriminate |].
    intros u [<-|[]]. reflexivity.
  - apply (proj1 (proj1 (proj2 (update_password_unknown_token_then_replay
                                  sample_uuid "pw2" sample_salt
                                  sample_pending
                                  ltac:(discriminate) ltac:(discriminate)))
                    eq_refl sample_pending_user eq_refl
                    ltac:(intros r0 [<-|[]] Hne; exfalso; apply Hne;
                          reflexivity))
             (sample_salt ++ encode "pw2")%list).
    reflexivity.
  - apply (proj2 (proj1 (proj2 (update_password_unknown_token_then_replay
                                  sample_uuid sample_long_password
                                  sample_salt sample_pending
                                  ltac:(discriminate) ltac:(discriminate)))
                    eq_refl sample_pending_user eq_refl
                    ltac:(intros r0 [<-|[]] Hne; exfalso; apply Hne;
                          reflexivity))
             too_long).
    reflexivity.
  - apply (proj2 (proj2 (update_password_unknown_token_then_replay
                           sample_uuid "pw2" sample_salt sample_table
                           ltac:(discriminate) ltac:(discriminate)))
             eq_refl "a@x.com" sample_user
             (sample_salt ++ encode "pw2")%list).
    + reflexivity.
    + intros u [<-|[]]. reflexivity.
    + reflexivity.
Defined.

Lemma create_session_twice_witness :
  exists ta tb,
    Auth.create_session "a@x.com" sample_uuid sample_table
    = (Ok (Some sample_uuid), ta) /\
    Auth.create_session "a@x.com" sample_uuid' ta
    = (Ok (Some sample_uuid'), tb) /\
    Auth.get_user_from_session_id sample_uuid tb = (Ok None, tb) /\
    Auth.get_user_from_session_id sample_uuid' tb
    = (Ok (Some (mkUser (id sample_user) (email sample_user)
                        (hashed_password sample_user) (PStr sample_uuid')
                        (reset_token sample_user))), tb).
Proof.
  apply (create_session_twice
           "a@x.com" sample_uuid sample_uuid' sample_user sample_table);
    try reflexivity; discriminate.
Defined.

Lemma update_password_keeps_session_witness :
  exists t',
    Auth.update_password sample_uuid "pw2" sample_salt sample_pending
    = (Ok tt, t') /\
    (exists v',
       Auth.get_user_from_session_id sample_uuid' t' = (Ok (Some v'), t') /\
       id v' = PInt 1 /\ email v' = PStr "a@x.com" /\
       session_id v' = PStr sample_uuid').
Proof.
  destruct (update_password_keeps_session
              sample_uuid "pw2" sample_salt
              (sample_salt ++ encode "pw2")%list sample_pending_user
              sample_pending eq_refl
              ltac:(discriminate) ltac:(discriminate) eq_refl eq_refl)
    as (t' & Hrun & _ & Hsessions).
  exists t'. split; [assumption|].
  apply (Hsessions sample_uuid' sample_pending_user). reflexivity.
Defined.

Lemma log_out_keeps_session_witness :
  Auth.destroy_session (PStr sample_uuid) sample_logged_in
  = (Ok tt, sample_logged_in) /\
  App.log_out (Some sample_uuid) sample_logged_in
  = (Ok (App.Redirect "/"), sample_logged_in) /\
  (exists u,
     Auth.get_user_from_session_id sample_uuid
       (snd (App.log_out (Some sample_uuid) sample_logged_in))
     = (Ok (Some u), sample_logged_in) /\
     email u = PStr "a@x.com" /\ session_id u = PStr sample_uuid) /\
  (exists ta,
     Auth.create_session "a@x.com" sample_uuid' sample_table
     = (Ok (Some sample_uuid'), ta) /\
     App.log_out (Some sample_uuid') ta = (Ok (App.Redirect "/"), ta) /\
     Auth.get_user_from_session_id sample_uuid' ta
     = (Ok (Some (mkUser (id sample_user) (email sample_user)
                         (hashed_password sample_user) (PStr sample_uuid')
                         (reset_token sample_user))), ta)).
Proof.
  assert (Hreach : reachable sample_logged_in)
    by (apply reachable_step, reachable_step, reachable_init).
  assert (Hreach' : reachable sample_table)
    by exact (reachable_step (RegisterUser "a@x.com" "pw1" sample_salt) []
                reachable_init).
  assert (Htoken : never_an_id sample_uuid) by (intros n; reflexivity).
  assert (Htoken' : never_an_id sample_uuid') by (intros n; reflexivity).
  destruct (log_out_keeps_session sample_uuid sample_logged_in Hreach Htoken)
    as (Hdestroy & Hroute & _).
  split; [assumption|].
  destruct (Hroute (mkUser (PInt 1) (PStr "a@x.com")
                           (PBytes (sample_salt ++ encode "pw1")%list)
                           (PStr sample_uuid) PNone) eq_refl)
    as (Hout & _ & _ & Hstill).
  split; [assumption|]. split.
  - eexists. split; [exact Hstill|]. split; reflexivity.
  - apply (proj2 (proj2 (log_out_keeps_session sample_uuid' sample_table
                           Hreach' Htoken')) "a@x.com" sample_user).
    + reflexivity.
    + reflexivity.
    + discriminate.
Defined.

(** ** Further properties at concrete inputs *)

(** The example of the docstring of [filter_datum]. *)
Example filter_datum_docstring :
  FilteredLogger.filter_datum ["email"] "***" "email=john.doe@example.com;" ";"
  = Some "email=***;".
Proof. reflexivity. Qed.

Lemma find_user_by_outcomes_witness :
  fst (DB.find_user_by [("nickname", PStr "x")] sample_table)
  = Raise InvalidRequestError /\
  fst (DB.find_user_by [("id", PInt (2 ^ 63))] sample_table)
  = Raise OverflowError /\
  fst (DB.find_user_by [("email", PStr "b@x.com")] sample_table)
  = Raise NoResultFound /\
  fst (DB.find_user_by [("email", PStr "a@x.com")] sample_table)
  = Ok sample_user.
Proof.
  split; [|split; [|split]].
  - apply (proj1 (proj2 (proj2 (find_user_by_outcomes
                                  [("nickname", PStr "x")] sample_table)))).
    right. exists "nickname". split; [left; reflexivity | reflexivity].
  - apply (proj1 (proj2 (proj2 (proj2 (find_user_by_outcomes
                                         [("id", PInt (2 ^ 63))]
                                         sample_table))))).
    split; [discriminate|]. split.
    + intros k [<-|[]]. reflexivity.
    + exists (PInt (2 ^ 63)). split; [left; reflexivity | reflexivity].
  - apply (proj1 (proj2 (proj2 (proj2 (proj2 (find_user_by_outcomes
                                                [("email", PStr "b@x.com")]
                                                sample_table)))))).
    split; [discriminate|]. split; [|split].
    + intros k [<-|[]]. reflexivity.
    + intros v [<-|[]]. reflexivity.
    + intros r [<-|[]]. reflexivity.
  - apply (proj2 (proj2 (proj2 (proj2 (proj2 (find_user_by_outcomes
                                                [("email", PStr "a@x.com")]
                                                sample_table)))))
             sample_user).
    split; [discriminate|]. split.
    + intros k [<-|[]]. reflexivity.
    + exists [], []. split; [reflexivity|]. split; [reflexivity|].
      intros r [].
Defined.

Lemma find_user_by_order_irrelevant_witness :
  DB.find_user_by [("email", PStr "a@x.com"); ("id", PInt 1)] sample_table
  = DB.find_user_by [("id", PInt 1); ("email", PStr "a@x.com")] sample_table.
Proof.
  apply (find_user_by_order_irrelevant
           [("email", PStr "a@x.com"); ("id", PInt 1)]
           [("id", PInt 1); ("email", PStr "a@x.com")] sample_table).
  apply perm_swap.
Defined.

Lemma update_user_order_irrelevant_witness :
  DB.update_user (PInt 1)
    [("session_id", PStr sample_uuid); ("reset_token", PStr sample_uuid')]
    sample_table
  = DB.update_user (PInt 1)
      [("reset_token", PStr sample_uuid'); ("session_id", PStr sample_uuid)]
      sample_table.
Proof.
  apply (update_user_order_irrelevant (PInt 1)
           [("session_id", PStr sample_uuid);
            ("reset_token", PStr sample_uuid')]
           [("reset_token", PStr sample_uuid');
            ("session_id", PStr sample_uuid)] sample_table).
  - apply perm_swap.
  - repeat constructor; cbn; intuition discriminate.
Defined.

Lemma add_user_then_lookup_witness :
  exists user,
    DB.add_user (PStr "b@x.com") (PBytes sample_salt) sample_table
    = (Ok user, (sample_table ++ [user])%list) /\
    id user = PInt 2 /\
    DB.find_user_by [("id", id user)] (sample_table ++ [user])%list
    = (Ok user, (sample_table ++ [user])%list).
Proof.
  destruct (add_user_then_lookup (PStr "b@x.com") (PBytes sample_salt) 2
              sample_table eq_refl eq_refl eq_refl eq_refl)
    as (user & Hadd & Hid & _ & _ & _ & _ & _ & _ & Hfind & _).
  { intros r [<-|[]]. reflexivity. }
  exists user. split; [assumption|]. split; assumption.
Defined.

Lemma sample_logged_in_reachable : reachable sample_logged_in.
Proof. apply reachable_step, reachable_step, reachable_init. Qed.

Lemma reachable_typed_unique_emails_witness :
  forallb row_typed sample_logged_in = true /\
  NoDup (map email sample_logged_in).
Proof.
  apply (reachable_typed_unique_emails sample_logged_in).
  apply sample_logged_in_reachable.
Defined.

Lemma reachable_ids_in_sequence_witness :
  map id sample_logged_in = [PInt 1].
Proof.
  apply (reachable_ids_in_sequence sample_logged_in).
  apply sample_logged_in_reachable.
Defined.

Lemma run_keeps_rows_witness :
  (map id (run (DestroySession (PInt 1)) sample_logged_in)
   = map id sample_logged_in /\
   map email (run (DestroySession (PInt 1)) sample_logged_in)
   = map email sample_logged_in) \/
  (exists e p salt user,
     DestroySession (PInt 1) = RegisterUser e p salt /\
     run (DestroySession (PInt 1)) sample_logged_in
     = (sample_logged_in ++ [user])%list /\
     email user = PStr e /\
     session_id user = PNone /\ reset_token user = PNone /\
     forall r, In r sample_logged_in -> email r <> PStr e).
Proof.
  apply (run_keeps_rows (DestroySession (PInt 1)) sample_logged_in).
  apply sample_logged_in_reachable.
Defined.

Lemma register_then_valid_login_witness :
  exists user t',
    Auth.register_user "b@x.com" "pw2" sample_salt sample_table
    = (Ok user, t') /\
    Auth.valid_login "b@x.com" "pw2" t' = (Ok true, t') /\
    (forall p' salt',
       Auth.register_user "b@x.com" p' salt' t'
       = (Raise (ValueError "User b@x.com already exists"), t')).
Proof.
  exact (register_then_valid_login "b@x.com" "pw2" "pw2" sample_salt
           (sample_salt ++ encode "pw2")%list 2 sample_table
           ltac:(intros u [<-|[]]; reflexivity) eq_refl eq_refl).
Defined.

Lemma destroy_session_ends_session_witness :
  (exists t',
     Auth.destroy_session (PInt 1) sample_logged_in = (Ok tt, t') /\
     Auth.get_user_from_session_id sample_uuid t' = (Ok None, t')) /\
  Auth.destroy_session (PInt 7) sample_logged_in
  = (Ok tt, sample_logged_in) /\
  Auth.destroy_session (PInt (2 ^ 63)) sample_logged_in
  = (Raise OverflowError, sample_logged_in).
Proof.
  split; [|split].
  - destruct (proj1 (destroy_session_ends_session sample_uuid
                       sample_session_user sample_logged_in eq_refl))
      as (t' & Hrun & Hgone & _).
    + reflexivity.
    + intros r [<-|[]] Hne. exfalso. apply Hne. reflexivity.
    + exists t'. split; assumption.
  - apply (proj1 (proj2 (destroy_session_ends_session sample_uuid
                           sample_session_user sample_logged_in eq_refl))
             7%Z).
    + reflexivity.
    + intros r [<-|[]]. discriminate.
  - apply (proj2 (proj2 (destroy_session_ends_session sample_uuid
                           sample_session_user sample_logged_in eq_refl))
             (2 ^ 63)%Z).
    reflexivity.
Defined.

Lemma get_reset_password_token_frame_witness :
  Auth.get_reset_password_token "b@x.com" sample_uuid sample_table
  = (Raise (ValueError ""), sample_table) /\
  (exists t',
     Auth.get_reset_password_token "a@x.com" sample_uuid sample_table
     = (Ok sample_uuid, t') /\
     Auth.valid_login "a@x.com" "pw1" t'
     = (fst (Auth.valid_login "a@x.com" "pw1" sample_table), t')).
Proof.
  split.
  - apply (proj1 (get_reset_password_token_frame "b@x.com" sample_uuid
                    sample_table)).
    intros u [<-|[]]. reflexivity.
  - destruct (proj2 (get_reset_password_token_frame "a@x.com" sample_uuid
                       sample_table) eq_refl sample_user eq_refl)
      as (t' & Hrun & _ & Hlogin & _).
    exists t'. split; [assumption | apply Hlogin].
Defined.


Lemma update_password_then_valid_login_witness :
  exists t',
    Auth.update_password sample_uuid "pw2" sample_salt sample_pending
    = (Ok tt, t') /\
    Auth.valid_login "a@x.com" "pw2" t' = (Ok true, t').
Proof.
  destruct (update_password_then_valid_login sample_uuid "pw2" "pw2"
              "a@x.com" sample_salt (sample_salt ++ encode "pw2")%list
              sample_pending_user sample_pending
              eq_refl ltac:(discriminate) ltac:(discriminate)
              eq_refl eq_refl eq_refl)
    as (t' & Hrun & Hlogin & _).
  exists t'. split; [assumption | exact Hlogin].
Defined.

Lemma session_lookup_edges_witness :
  Auth.create_session "b@x.com" sample_uuid sample_table
  = (Ok None, sample_table) /\
  (sample_uuid <> "" /\ In sample_session_user sample_logged_in /\
   DB.sql_eq (session_id sample_session_user) (PStr sample_uuid) = true).
Proof.
  split.
  - apply (proj1 (session_lookup_edges "b@x.com" sample_uuid sample_uuid
                    sample_table)).
    intros u [<-|[]]. reflexivity.
  - apply (proj2 (proj2 (proj2 (session_lookup_edges "b@x.com" sample_uuid
                                  sample_uuid sample_logged_in)))
             sample_session_user).
    reflexivity.
Defined.

Lemma route_register_user_witness :
  Routes.register_user sample_reset_request sample_salt sample_table
  = (Ok (Routes.Abort 400), sample_table) /\
  Routes.register_user sample_credentials sample_salt sample_table
  = (Ok (Routes.Json 400 [("message", PStr "email already registered")]
           None), sample_table) /\
  (exists user,
     Routes.register_user sample_newcomer sample_salt sample_table
     = (Ok (Routes.Json 200 [("email", PStr "b@x.com");
                             ("message", PStr "user created")] None),
        (sample_table ++ [user])%list) /\
     email user = PStr "b@x.com" /\
     hashed_password user = PBytes (sample_salt ++ encode "pw2")%list) /\
  Routes.register_user
    [("email", "b@x.com"); ("password", sample_long_password)]
    sample_salt sample_table
  = (Ok (Routes.Json 400 [("message", PStr "email already registered")]
           None), sample_table).
Proof.
  split; [|split; [|split]].
  - apply (proj1 (route_register_user sample_reset_request sample_salt
                    sample_table)).
    right. reflexivity.
  - apply (proj2 (route_register_user sample_credentials sample_salt
                    sample_table) "a@x.com" "pw1" eq_refl eq_refl).
    exists sample_user. split; [left; reflexivity | reflexivity].
  - apply (proj1 (proj2 (proj2 (route_register_user sample_newcomer
                                  sample_salt sample_table)
                           "b@x.com" "pw2" eq_refl eq_refl)
                    ltac:(intros u [<-|[]]; reflexivity))
             (sample_salt ++ encode "pw2")%list 2%Z);
      reflexivity.
  - apply (proj1 (proj2 (proj2 (proj2 (route_register_user
                                         [("email", "b@x.com");
                                          ("password", sample_long_password)]
                                         sample_salt sample_table)
                                  "b@x.com" sample_long_password
                                  eq_refl eq_refl)
                           ltac:(intros u [<-|[]]; reflexivity)))
             "password cannot be longer than 72 bytes, truncate manually if necessary (e.g. my_password[:72])").
    reflexivity.
Defined.

Lemma route_log_in_witness :
  Routes.log_in sample_reset_request sample_uuid sample_table
  = (Ok (Routes.Abort 400), sample_table) /\
  Routes.log_in sample_newcomer sample_uuid sample_table
  = (Ok (Routes.Abort 401), sample_table) /\
  Routes.log_in sample_wrong_password sample_uuid sample_table
  = (Ok (Routes.Abort 401), sample_table) /\
  (exists t',
     Routes.log_in sample_credentials sample_uuid sample_table
     = (Ok (Routes.Json 200 [("email", PStr "a@x.com");
                             ("message", PStr "logged in")]
              (Some ("session_id", Some sample_uuid))), t') /\
     Routes.profile (Some sample_uuid) t'
     = (Ok (Routes.Json 200 [("email", email sample_user)] None), t')) /\
  Routes.log_in [("email", "a@x.com"); ("password", sample_long_password)]
    sample_uuid sample_table
  = (Raise too_long, sample_table).
Proof.
  split; [|split; [|split; [|split]]].
  - apply (proj1 (route_log_in sample_reset_request sample_uuid
                    sample_table)).
    right. reflexivity.
  - apply (proj1 (proj2 (route_log_in sample_newcomer sample_uuid
                           sample_table) "b@x.com" "pw2" eq_refl eq_refl)).
    intros u [<-|[]]. reflexivity.
  - apply (proj1 (proj2 (proj2 (route_log_in sample_wrong_password
                                  sample_uuid sample_table)
                           "a@x.com" "nope" eq_refl eq_refl)
                    sample_user eq_refl)).
    reflexivity.
  - apply (proj1 (proj2 (proj2 (proj2 (route_log_in sample_credentials
                                         sample_uuid sample_table)
                                  "a@x.com" "pw1" eq_refl eq_refl)
                           sample_user eq_refl)));
      try reflexivity. discriminate.
  - apply (proj2 (proj2 (proj2 (proj2 (route_log_in
                                         [("email", "a@x.com");
                                          ("password", sample_long_password)]
                                         sample_uuid sample_table)
                                  "a@x.com" sample_long_password
                                  eq_refl eq_refl)
                           sample_user eq_refl))
             too_long).
    reflexivity.
Defined.

Lemma route_profile_witness :
  Routes.profile (Some sample_uuid') sample_logged_in
  = (Ok (Routes.Abort 403), sample_logged_in) /\
  Routes.profile (Some sample_uuid) sample_logged_in
  = (Ok (Routes.Json 200 [("email", PStr "a@x.com")] None),
     sample_logged_in).
Proof.
  split.
  - apply (proj1 (proj2 (proj2 (proj2 (route_profile None
                                         sample_logged_in))))
             sample_uuid').
    intros u [<-|[]]. reflexivity.
  - apply (proj2 (proj2 (proj2 (proj2 (route_profile None
                                         sample_logged_in))))
             sample_uuid sample_session_user).
    reflexivity.
Defined.

Lemma route_update_password_witness :
  Routes.update_password sample_credentials sample_salt sample_pending
  = (Ok (Routes.Abort 400), sample_pending) /\
  Routes.update_password
    [("email", "a@x.com"); ("reset_token", ""); ("new_password", "pw2")]
    sample_salt sample_pending
  = (Ok (Routes.Json 200 [("email", PStr "a@x.com");
                          ("message", PStr "Password updated")] None),
     sample_pending) /\
  Routes.update_password sample_reset_form sample_salt sample_table
  = (Ok (Routes.Abort 403), sample_table) /\
  snd (Routes.update_password sample_reset_form sample_salt sample_pending)
  = snd (Auth.update_password sample_uuid "pw2" sample_salt sample_pending).
Proof.
  split; [|split; [|split]].
  - apply (proj1 (route_update_password sample_credentials sample_salt
                    sample_pending)).
    right. left. reflexivity.
  - apply (proj2 (route_update_password
                    [("email", "a@x.com"); ("reset_token", "");
                     ("new_password", "pw2")] sample_salt sample_pending)
             "a@x.com" "" "pw2" eq_refl eq_refl eq_refl).
    left. reflexivity.
  - apply (proj2 (route_update_password sample_reset_form sample_salt
                    sample_table)
             "someone@else.com" sample_uuid "pw2" eq_refl eq_refl eq_refl);
      try discriminate.
    intros u [<-|[]]. reflexivity.
  - apply (proj2 (route_update_password sample_reset_form sample_salt
                    sample_pending)
             "someone@else.com" sample_uuid "pw2" eq_refl eq_refl eq_refl).
Defined.

Lemma route_reset_password_witness :
  Routes.reset_password [] sample_uuid sample_table
  = (Ok (Routes.Abort 403), sample_table) /\
  Routes.reset_password [("email", "b@x.com")] sample_uuid sample_table
  = (Ok (Routes.Abort 403), sample_table) /\
  (exists ta tb,
     Routes.reset_password sample_reset_request sample_uuid sample_table
     = (Ok (Routes.Json 200 [("email", PStr "a@x.com");
                             ("reset_token", PStr sample_uuid)] None), ta) /\
     Routes.update_password sample_reset_form sample_salt ta
     = (Ok (Routes.Json 200 [("email", PStr "someone@else.com");
                             ("message", PStr "Password updated")] None),
        tb) /\
     Auth.valid_login "a@x.com" "pw2" tb = (Ok true, tb) /\
     Routes.update_password
       [("email", "a@x.com"); ("reset_token", sample_uuid);
        ("new_password", sample_long_password)] sample_salt ta
     = (Ok (Routes.Abort 403), ta)).
Proof.
  split; [|split].
  - apply (proj1 (route_reset_password [] sample_uuid sample_table)).
    reflexivity.
  - apply (proj1 (proj2 (route_reset_password [("email", "b@x.com")]
                           sample_uuid sample_table) "b@x.com" eq_refl)).
    intros u [<-|[]]. reflexivity.
  - destruct (proj2 (proj2 (route_reset_password sample_reset_request
                              sample_uuid sample_table) "a@x.com" eq_refl)
                sample_user eq_refl eq_refl ltac:(discriminate))
      as (ta & Hask & Hthen).
    { intros row [<-|[]]. reflexivity. }
    destruct (proj1 (Hthen sample_reset_form "pw2" sample_salt
                       "someone@else.com" eq_refl eq_refl eq_refl
                       ltac:(discriminate))
                (sample_salt ++ encode "pw2")%list "pw2" eq_refl)
      as (tb & Hput & Hlogin).
    exists ta, tb. split; [assumption|]. split; [assumption|].
    split; [exact Hlogin|].
    apply (proj2 (Hthen [("email", "a@x.com"); ("reset_token", sample_uuid);
                         ("new_password", sample_long_password)]
                    sample_long_password sample_salt "a@x.com"
                    eq_refl eq_refl eq_refl ltac:(discriminate))
             "password cannot be longer than 72 bytes, truncate manually if necessary (e.g. my_password[:72])").
    reflexivity.
Defined.

Lemma routes_raise_only_what_bcrypt_raises_witness :
  (exists reply,
     fst (Routes.log_in sample_credentials sample_uuid' sample_logged_in)
     = Ok reply) /\
  Routes.log_in [("email", "a@x.com"); ("password", sample_long_password)]
    sample_uuid' sample_logged_in
  = (Raise too_long, sample_logged_in).
Proof.
  split.
  - apply (proj1 (proj2 (proj2 (proj2 (proj2 (proj2 (proj2
             (routes_raise_only_what_bcrypt_raises
                sample_credentials None sample_uuid' sample_salt
                sample_logged_in sample_logged_in_reachable)))))))).
    intros p u Hp [<-|[]]. injection Hp as <-. eexists. reflexivity.
  - apply (proj2 (proj2 (proj2 (proj2 (proj2 (proj2 (proj2
             (routes_raise_only_what_bcrypt_raises
                [("email", "a@x.com"); ("password", sample_long_password)]
                None sample_uuid' sample_salt
                sample_logged_in sample_logged_in_reachable)))))))
             "a@x.com" sample_long_password sample_session_user too_long);
      reflexivity.
Defined.

Lemma create_session_frame_witness :
  exists t',
    Auth.create_session "a@x.com" sample_uuid' sample_table
    = (Ok (Some sample_uuid'), t') /\
    Auth.valid_login "a@x.com" "pw1" t'
    = (fst (Auth.valid_login "a@x.com" "pw1" sample_table), t').
Proof.
  destruct (create_session_frame "a@x.com" sample_uuid' sample_user
              sample_table eq_refl eq_refl)
    as (t' & Hrun & _ & Hlogin & _).
  exists t'. split; [assumption | apply Hlogin].
Defined.

Lemma filter_datum_nothing_to_redact_witness :
  FilteredLogger.filter_datum ["email"; "ssn"] "***" "name=bob;age=7;" ";"
  = Some "name=bob;age=7;".
Proof.
  apply (filter_datum_nothing_to_redact ["email"; "ssn"] "***"
           "name=bob;age=7;" ";" eq_refl eq_refl eq_refl).
  intros f [<-|[<-|[]]]; reflexivity.
Defined.

Lemma filter_datum_redacts_entries_witness :
  FilteredLogger.filter_datum FilteredLogger.PII_FIELDS "***"
    "name=bob; email=b@x.org; username=bb; age=7;" ";"
  = Some "name=***; email=***; username=***; age=7;".
Proof.
  exact (filter_datum_redacts_entries FilteredLogger.PII_FIELDS "***" ";"%char
           [("name", "bob"); (" email", "b@x.org"); (" username", "bb");
            (" age", "7")]
           eq_refl eq_refl eq_refl ltac:(discriminate)
           eq_refl eq_refl eq_refl).
Defined.

Lemma filter_datum_newline_leak_witness :
  FilteredLogger.filter_datum ["password"] "***"
    ("password=se" ++ String FilteredLogger.newline "cret;") ";"
  = Some ("password=se" ++ String FilteredLogger.newline "cret;").
Proof.
  exact (filter_datum_newline_leak "password" "***" ";"%char "se" "cret;"
           eq_refl eq_refl eq_refl ltac:(discriminate) ltac:(discriminate)
           eq_refl eq_refl eq_refl).
Defined.
